(** * PantryChef: the recipe filtering, scoring and safety pipeline

    A shallow embedding of [backend/Logic.py] (class [PantryChefEngine]) and of
    the post-fetch part of [backend/app_orchestrator.py], followed by the
    properties of the pipeline that the specification states.

    Conventions of the embedding.
    - A Python [dict] read with [.get(key, default)] is a record whose fields
      are [option]s; [None] is "key absent".  A key that the code indexes
      directly ([settings['max_missing_ingredients']]) is a plain field.
    - The candidates are well-typed JSON, as the recipe-search collaborator
      delivers them: a count is an [int], a name a string, a manifest entry an
      object or a string.  On such input the pipeline raises no exception.
    - [str] is [string] (a byte sequence); [lower] lowers the ASCII letters,
      which is what [str.lower] does on ASCII text.  All keyword tables of the
      source are ASCII.
    - Ingredient, minute and skill counts are Python [int]s: [Z].  The penalty
      and the confidence are Python floats that only ever hold sums of
      integers here (exact below 2^53), so they are [Z] as well and
      [round(_, 1)] is the identity on them.
    - The other floats (smart score, percentages, sub-scores of the reasoning
      stage) are IEEE binary64 numbers, carried as the rationals they denote:
      every arithmetic operation is the exact operation followed by [F64.fl],
      rounding to the nearest double, ties to even.  Overflow does not occur:
      these values stay below a few hundred.  [round(x, 1)] is the double
      nearest to the decimal that rounds the exact value of [x] to one digit,
      ties to even, as CPython computes it. *)

From Stdlib Require Import ZArith QArith Qround Qpower Qfield Lqa.
From Stdlib Require Import Strings.String Strings.Ascii DecimalString.
From Stdlib Require Import List Bool Lia Sorting.Sorted Sorting.Permutation.
Import ListNotations.

Open Scope string_scope.
Open Scope Z_scope.

(** ** Strings: [in], [lower], [join] *)

Module Str.

(** [sub in s] on Python strings. *)
Fixpoint contains (sub s : string) : bool :=
  prefix sub s ||
  match s with
  | EmptyString => false
  | String _ s' => contains sub s'
  end.

Definition lower_ascii (c : ascii) : ascii :=
  let n := nat_of_ascii c in
  if ((65 <=? n) && (n <=? 90))%nat then ascii_of_nat (n + 32) else c.

(** [s.lower()] *)
Fixpoint lower (s : string) : string :=
  match s with
  | EmptyString => EmptyString
  | String c s' => String (lower_ascii c) (lower s')
  end.

(** [sep.join(parts)] *)
Definition join (sep : string) (parts : list string) : string :=
  String.concat sep parts.

(** [any(kw in text for kw in kws)] *)
Definition any_in (kws : list string) (text : string) : bool :=
  existsb (fun kw => contains kw text) kws.

(** [x in xs] on a list of strings. *)
Definition mem (x : string) (xs : list string) : bool :=
  existsb (String.eqb x) xs.

(** [str(n)] for an [int]. *)
Definition of_Z (n : Z) : string :=
  NilEmpty.string_of_int (Z.to_int n).

End Str.

(** ** Data model *)

(** One entry of [extendedIngredients]: a JSON object, of which the code reads
    only the string-valued entries (kept here in the order of the dict), or a
    bare string.  *)
Inductive ingredient : Type :=
| IngDict (items : list (string * string))
| IngStr (s : string).

(** [d.get(key, '')] on the string-valued entries of a dict. *)
Fixpoint dict_get (key : string) (items : list (string * string)) : string :=
  match items with
  | [] => ""
  | (k, v) :: rest => if String.eqb k key then v else dict_get key rest
  end.

(** [a or b] on strings: the first one that is not empty. *)
Definition str_or (a b : string) : string :=
  match a with EmptyString => b | _ => a end.

Record nutrient : Type := {
  nut_name : option string;
  nut_amount : option Q
}.

Record nutrition_t : Type := {
  nutrients : option (list nutrient);
  (* whether the dict has keys besides 'nutrients' (truthiness of the dict) *)
  nutrition_more_keys : bool
}.

Record dietary_info_t : Type := {
  dairyFree : option bool;
  glutenFree : option bool;
  vegan : option bool;
  vegetarian : option bool
}.

(** A candidate as the recipe-search collaborator returns it. *)
Record recipe : Type := {
  id : option Z;
  title : option string;
  summary : option string;
  image : option string;
  extendedIngredients : option (list ingredient);
  usedIngredientCount : option Z;
  missedIngredientCount : option Z;
  readyInMinutes : option Z;
  servings : option Z;
  instructions : option string;
  analyzedInstructions : option (list (list string));
  nutrition : option nutrition_t;
  cuisines : option (list string);
  dishTypes : option (list string);
  diets : option (list string);
  dietary_info : option dietary_info_t
}.

(** A value of [nutritional_requirements]: a threshold, or a dict that may
    carry a ['target']. *)
Inductive requirement_value : Type :=
| ReqNumber (threshold : Q)
| ReqDict (target : option string).

(** [user_settings].  [max_missing_ingredients] is indexed directly by the
    filter chain, every other key is read with a default. *)
Record settings : Type := {
  user_profile : option string;
  mood : option string;
  max_difficulty : option string;
  max_time_minutes : option Z;
  max_missing_ingredients : Z;
  dietary_requirements : option (list string);
  intolerances : option (list string);
  nutritional_requirements : option (list (string * requirement_value));
  skill_level : option Z;
  max_time : option Z
}.

(** [d.get(key, default)] *)
Definition get {A : Type} (o : option A) (default : A) : A :=
  match o with Some a => a | None => default end.

(** ** The safety gate: [_apply_safety_check] *)

Definition LAND_MEAT : list string :=
  ["chicken"; "turkey"; "beef"; "steak"; "pork"; "lamb"; "mutton"; "venison";
   "veal"; "duck"; "goose"; "bacon"; "ham"; "sausage"; "pepperoni"; "salami";
   "chorizo"; "meatball"; "lard"; "tallow"; "gelatin"].

Definition SEA_MEAT : list string :=
  ["fish"; "salmon"; "tuna"; "cod"; "tilapia"; "shrimp"; "prawn"; "crab";
   "lobster"; "mussel"; "clam"; "oyster"; "squid"; "calamari"; "octopus";
   "anchovy"; "sardine"; "fish sauce"; "oyster sauce"].

Definition DAIRY_EGGS : list string :=
  ["egg"; "milk"; "cream"; "butter"; "cheese"; "yogurt"; "whey"; "casein"].

(** [ALLERGY_MAP.get(key, [])] *)
Definition ALLERGY_MAP (key : string) : list string :=
  if String.eqb key "dairy" then
    ["cheese"; "milk"; "butter"; "cream"; "yogurt"; "dairy"]
  else if String.eqb key "gluten" then
    ["wheat"; "flour"; "pasta"; "bread"; "gluten"]
  else if String.eqb key "eggs" then ["egg"; "eggs"; "mayonnaise"]
  else if String.eqb key "nuts" then ["nuts"; "almond"; "peanut"; "cashew"]
  else [].

(** [SAFE_WORDS.get(key, [])] *)
Definition SAFE_WORDS (key : string) : list string :=
  if String.eqb key "dairy" then
    ["vegan"; "plant-based"; "non-dairy"; "almond"; "coconut"; "oat"]
  else if String.eqb key "gluten" then ["gluten-free"; "gf"]
  else if String.eqb key "eggs" then ["egg-free"; "vegan"; "plant-based"]
  else if String.eqb key "nuts" then ["nut-free"]
  else [].

(** The dict that [_apply_safety_check] returns.  The branches of the source
    build dicts with different key sets; a key that a branch leaves out is
    [None] here. *)
Record safety_result : Type := {
  passed : bool;
  safety_score : option Q;
  safety_reason : option string;
  violation_note : option string;
  reason : string;
  requires_ai_validation : option bool;
  requires_ai_reassurance : option bool;
  found_intolerances : option (list string);
  suspicious_ingredients : option (list string);
  safe_alternative_indicators : option (list string)
}.

(** The name under which the safety gate reads one manifest entry:
    [ing.get('name','') or ing.get('original','') or ing.get('originalName','')]
    for a dict, the string itself otherwise. *)
Definition ingredient_name (ing : ingredient) : string :=
  match ing with
  | IngDict items =>
      str_or (dict_get "name" items)
        (str_or (dict_get "original" items) (dict_get "originalName" items))
  | IngStr s => s
  end.

(** The loop that fills [ingredient_names]: lower-cased names, entries with
    no name skipped (a bare string is appended even when empty). *)
Fixpoint ingredient_names (ings : list ingredient) : list string :=
  match ings with
  | [] => []
  | IngDict items :: rest =>
      match ingredient_name (IngDict items) with
      | EmptyString => ingredient_names rest
      | n => Str.lower n :: ingredient_names rest
      end
  | IngStr s :: rest => Str.lower s :: ingredient_names rest
  end.

Definition manifest (r : recipe) : list ingredient :=
  get (extendedIngredients r) [].

Definition dietary_lower (s : settings) : list string :=
  map Str.lower (get (dietary_requirements s) []).

Definition is_vegetarian (s : settings) : bool :=
  Str.mem "vegetarian" (dietary_lower s).
Definition is_vegan (s : settings) : bool :=
  Str.mem "vegan" (dietary_lower s).
Definition is_pescatarian (s : settings) : bool :=
  Str.mem "pescatarian" (dietary_lower s).

(** The dict of a diet rejection. *)
Definition diet_reject (safety_reason0 reason0 : string) : safety_result :=
  {| passed := false;
     safety_score := Some 0%Q;
     safety_reason := Some safety_reason0;
     violation_note := None;
     reason := reason0;
     requires_ai_validation := Some false;
     requires_ai_reassurance := Some false;
     found_intolerances := None;
     suspicious_ingredients := None;
     safe_alternative_indicators := None |}.

Definition safe_result : safety_result :=
  {| passed := true;
     safety_score := Some 1%Q;
     safety_reason := Some "Safe - no intolerances found";
     violation_note := None;
     reason := "Safe - no intolerances found";
     requires_ai_validation := Some false;
     requires_ai_reassurance := Some false;
     found_intolerances := None;
     suspicious_ingredients := None;
     safe_alternative_indicators := None |}.

(** The land-meat and sea-meat tests shared by the vegetarian and the vegan
    branch ([diet] is the word that the messages carry). *)
Definition meat_reject (diet ingredients_text : string) : option safety_result :=
  if Str.any_in LAND_MEAT ingredients_text then
    Some (diet_reject
            ("Contains land meat in ingredients - violates " ++ diet ++ " diet")
            "Contains land meat keywords in ingredients")
  else if Str.any_in SEA_MEAT ingredients_text then
    Some (diet_reject
            ("Contains seafood in ingredients - violates " ++ diet ++ " diet")
            "Contains seafood keywords in ingredients")
  else None.

(** First half of [_apply_safety_check]: the diet block.  [Some d] is an
    early [return d]; [None] falls through to the intolerance scan. *)
Definition diet_check (s : settings) (r : recipe) : option safety_result :=
  if is_vegetarian s || is_vegan s || is_pescatarian s then
    let ingredients_text := Str.join " " (ingredient_names (manifest r)) in
    if is_vegetarian s then meat_reject "vegetarian" ingredients_text
    else if is_vegan s then
      match meat_reject "vegan" ingredients_text with
      | Some d => Some d
      | None =>
          if Str.any_in DAIRY_EGGS ingredients_text then
            let all_safe_words := (SAFE_WORDS "dairy" ++ SAFE_WORDS "eggs")%list in
            let has_safe_word := Str.any_in all_safe_words ingredients_text in
            if negb has_safe_word then
              Some (diet_reject
                      "Contains dairy/eggs in ingredients - violates vegan diet"
                      "Contains dairy/egg keywords without safe alternatives")
            else None
          else None
      end
    else if is_pescatarian s then
      if Str.any_in LAND_MEAT ingredients_text then
        Some (diet_reject
                "Contains land meat in ingredients - violates pescatarian diet"
                "Contains land meat keywords in ingredients")
      else None
    else None
  else None.

(** [recipe_text] of the intolerance scan: title, a space, the names. *)
Definition recipe_text (r : recipe) : string :=
  Str.lower (get (title r) "") ++ " " ++
  Str.join " " (ingredient_names (manifest r)).

(** [[n for n in ingredient_names if kw in n]] *)
Definition names_with (kw : string) (names : list string) : list string :=
  filter (fun n => Str.contains kw n) names.

(** [list(set(xs))]: the distinct elements (Python leaves their order
    unspecified; the first occurrences are kept here). *)
Definition distinct (xs : list string) : list string :=
  nodup string_dec xs.

(** The two dicts that a keyword hit returns. *)
Definition soft_flag (intolerance kw : string) (names : list string)
  : safety_result :=
  let note := "Contains " ++ kw ++ " with safe-word—Gemini must verify" in
  {| passed := true;
     safety_score := Some (1 # 2)%Q;
     safety_reason := Some note;
     violation_note := Some note;
     reason := "Found " ++ kw ++ " with safe-word; Gemini must verify.";
     requires_ai_validation := Some true;
     requires_ai_reassurance := Some false;
     found_intolerances := Some [intolerance];
     suspicious_ingredients := Some [];
     safe_alternative_indicators := Some (distinct (names_with kw names)) |}.

Definition hard_cutoff (intolerance kw : string) (names : list string)
  : safety_result :=
  {| passed := false;
     safety_score := None;
     safety_reason := None;
     violation_note := None;
     reason := "Hard cutoff: " ++ kw ++ " found without safe keywords.";
     requires_ai_validation := None;
     requires_ai_reassurance := None;
     found_intolerances := Some [intolerance];
     suspicious_ingredients := Some (distinct (names_with kw names));
     safe_alternative_indicators := None |}.

(** What the body of [if kw in recipe_text:] returns. *)
Definition hit_result (intolerance kw text : string) (names : list string)
  : safety_result :=
  let has_safe_word := Str.any_in (SAFE_WORDS (Str.lower intolerance)) text in
  if has_safe_word then soft_flag intolerance kw names
  else hard_cutoff intolerance kw names.

(** The inner loop [for kw in keywords], for one intolerance. *)
Fixpoint scan_keywords (intolerance : string) (keywords : list string)
  (text : string) (names : list string) : option safety_result :=
  match keywords with
  | [] => None
  | kw :: rest =>
      if Str.contains kw text then Some (hit_result intolerance kw text names)
      else scan_keywords intolerance rest text names
  end.

(** The outer loop [for intolerance in intolerances]. *)
Fixpoint scan_intolerances (intols : list string) (text : string)
  (names : list string) : option safety_result :=
  match intols with
  | [] => None
  | intolerance :: rest =>
      match scan_keywords intolerance (ALLERGY_MAP (Str.lower intolerance))
              text names with
      | Some d => Some d
      | None => scan_intolerances rest text names
      end
  end.

(** Second half of [_apply_safety_check]. *)
Definition intolerance_check (s : settings) (r : recipe) : safety_result :=
  match get (intolerances s) [] with
  | [] => safe_result
  | intols =>
      get (scan_intolerances intols (recipe_text r)
             (ingredient_names (manifest r)))
          safe_result
  end.

Definition _apply_safety_check (s : settings) (r : recipe) : safety_result :=
  match diet_check s r with
  | Some d => d
  | None => intolerance_check s r
  end.

(** The three verdicts of the specification, read off the returned dict. *)
Inductive SafetyVerdict : Type := Safe | HardReject | SoftFlag.

Definition verdict (d : safety_result) : SafetyVerdict :=
  if negb (passed d) then HardReject
  else if get (requires_ai_validation d) false then SoftFlag
  else Safe.

(** ** The progressive filter chain: [_apply_soft_filters_with_penalties] *)

Inductive difficulty : Type := easy | medium | hard.

Definition difficulty_name (l : difficulty) : string :=
  match l with easy => "easy" | medium => "medium" | hard => "hard" end.

(** [DIFFICULTY_ORDER[level]] and [DIFFICULTY_ORDER.get(name, 3)] *)
Definition DIFFICULTY_ORDER (l : difficulty) : Z :=
  match l with easy => 1 | medium => 2 | hard => 3 end.

Definition DIFFICULTY_ORDER_get (name : string) (default : Z) : Z :=
  if String.eqb name "easy" then 1
  else if String.eqb name "medium" then 2
  else if String.eqb name "hard" then 3
  else default.

(** [DIFFICULTY_SKILL_MAP.get(level, 50)]; the three levels are all keys. *)
Definition DIFFICULTY_SKILL_MAP (l : difficulty) : Z :=
  match l with easy => 30 | medium => 60 | hard => 90 end.

Record difficulty_check_t : Type := {
  dc_passed : bool;
  dc_level : difficulty;
  dc_max_allowed : string;
  dc_ingredient_count : Z;
  dc_ready_time : Z;
  dc_time_adjusted : bool
}.

Definition _assess_difficulty (r : recipe) (max_difficulty0 : string)
  : difficulty_check_t :=
  let total_ingredients :=
    get (usedIngredientCount r) 0 + get (missedIngredientCount r) 0 in
  let ready_time := get (readyInMinutes r) 0 in
  let level :=
    if total_ingredients <=? 5 then easy
    else if total_ingredients <=? 10 then medium
    else hard in
  let level :=
    if 60 <? ready_time then
      match level with easy => medium | medium => hard | hard => hard end
    else level in
  {| dc_passed := DIFFICULTY_ORDER level <=? DIFFICULTY_ORDER_get max_difficulty0 3;
     dc_level := level;
     dc_max_allowed := max_difficulty0;
     dc_ingredient_count := total_ingredients;
     dc_ready_time := ready_time;
     dc_time_adjusted := 60 <? ready_time |}.

Record time_check_t : Type := {
  tc_passed : bool;
  tc_estimate : option Z;        (* [None] is the string 'unknown' *)
  tc_max_allowed : Z
}.

Definition _check_time_limit (r : recipe) (max_time0 : Z) : time_check_t :=
  let ready_time := readyInMinutes r in
  {| tc_passed := match ready_time with
                  | None => true
                  | Some t => t <=? max_time0
                  end;
     tc_estimate := ready_time;
     tc_max_allowed := max_time0 |}.

Record missing_check_t : Type := {
  mc_passed : bool;
  mc_count : Z;
  mc_max_allowed : Z
}.

Definition _check_missing_limit (missed_count max_missing : Z)
  : missing_check_t :=
  {| mc_passed := missed_count <=? max_missing;
     mc_count := missed_count;
     mc_max_allowed := max_missing |}.

(** *** The soft dietary check: [_check_dietary_requirements] *)

Record dietary_check_t : Type := {
  dt_passed : bool;
  dt_reason : string;
  dt_requirements_checked : option (list string);
  dt_intolerances_checked : option (list string);
  dt_confidence : string
}.

(** [s.replace(a, b)] for one-character [a] and [b]. *)
Fixpoint replace_char (a b : ascii) (s : string) : string :=
  match s with
  | EmptyString => EmptyString
  | String c s' =>
      String (if Ascii.eqb c a then b else c) (replace_char a b s')
  end.

(** The text that the soft dietary check scans: the ['name'] of each dict
    (no fall-back to ['original'] here) or the string itself. *)
Definition diet_scan_name (ing : ingredient) : string :=
  match ing with
  | IngDict items => Str.lower (dict_get "name" items)
  | IngStr s => Str.lower s
  end.

(** The three locals that the two loops of the check update. *)
Record diet_state : Type := {
  st_passed : bool;
  st_reasons : list string;
  st_confidence_levels : list string
}.

Definition set_failed (st : diet_state) (why : string) : diet_state :=
  {| st_passed := false;
     st_reasons := st_reasons st ++ [why];
     st_confidence_levels := st_confidence_levels st |}.

Definition add_reason (st : diet_state) (why : string) : diet_state :=
  {| st_passed := st_passed st;
     st_reasons := st_reasons st ++ [why];
     st_confidence_levels := st_confidence_levels st |}.

Definition add_confidence (st : diet_state) (c : string) : diet_state :=
  {| st_passed := st_passed st;
     st_reasons := st_reasons st;
     st_confidence_levels := st_confidence_levels st ++ [c] |}.

Section DietaryCheck.

Variables (has_meat has_dairy has_eggs has_gluten : bool).
Variables (api_dairy_free api_gluten_free api_vegan api_vegetarian : bool).

(** The keyword-versus-flag double check used for gluten and dairy. *)
Definition double_check (found api_free : bool) (what : string)
  (st : diet_state) : diet_state :=
  if found then
    if negb api_free then set_failed st ("contains " ++ what)
    else add_reason st ("may contain " ++ what ++ " (API says " ++ what
                        ++ "-free but keywords found)")
  else if api_free then add_confidence st "high"
  else st.

(** Body of [for requirement in dietary_requirements]. *)
Definition requirement_step (st : diet_state) (requirement : string)
  : diet_state :=
  let req_lower :=
    replace_char " " "_" (replace_char "-" "_" (Str.lower requirement)) in
  if String.eqb req_lower "vegetarian" then
    if has_meat then set_failed st "contains meat"
    else
      {| st_passed := true;
         st_reasons := st_reasons st;
         st_confidence_levels :=
           st_confidence_levels st ++
           [if api_vegetarian then "high" else "medium"] |}
  else if String.eqb req_lower "vegan" then
    if has_meat || has_dairy || has_eggs then
      set_failed st "contains animal products"
    else if api_vegan then add_confidence st "high"
    else st
  else if String.eqb req_lower "gluten_free" then
    double_check has_gluten api_gluten_free "gluten" st
  else if String.eqb req_lower "dairy_free" then
    double_check has_dairy api_dairy_free "dairy" st
  else st.

(** Body of [for intolerance in intolerances]. *)
Definition intolerance_step (st : diet_state) (intolerance : string)
  : diet_state :=
  let intol_lower := Str.lower intolerance in
  if String.eqb intol_lower "dairy" then
    double_check has_dairy api_dairy_free "dairy" st
  else if String.eqb intol_lower "gluten" then
    double_check has_gluten api_gluten_free "gluten" st
  else if String.eqb intol_lower "eggs" then
    if has_eggs then set_failed st "contains eggs"
    else if api_vegan then add_confidence st "high"
    else st
  else st.

End DietaryCheck.

Definition meat_keywords : list string :=
  ["chicken"; "beef"; "pork"; "fish"; "meat"; "turkey"; "lamb"; "bacon";
   "sausage"; "ham"; "seafood"; "shrimp"; "salmon"].
Definition dairy_keywords : list string :=
  ["milk"; "cheese"; "butter"; "cream"; "yogurt"; "sour cream"; "heavy cream";
   "whipping cream"].
Definition egg_keywords : list string := ["egg"; "eggs"].
Definition gluten_keywords : list string :=
  ["flour"; "wheat"; "bread"; "pasta"; "noodles"].

Definition _check_dietary_requirements (r : recipe)
  (requirements intols : list string) : dietary_check_t :=
  match requirements, intols with
  | [], [] =>
      {| dt_passed := true;
         dt_reason := "No dietary restrictions";
         dt_requirements_checked := None;
         dt_intolerances_checked := None;
         dt_confidence := "high" |}
  | _, _ =>
      let info := dietary_info r in
      let flag (f : dietary_info_t -> option bool) :=
        match info with Some i => get (f i) false | None => false end in
      let ingredients_text := Str.join " " (map diet_scan_name (manifest r)) in
      let has_meat := Str.any_in meat_keywords ingredients_text in
      let has_dairy := Str.any_in dairy_keywords ingredients_text in
      let has_eggs := Str.any_in egg_keywords ingredients_text in
      let has_gluten := Str.any_in gluten_keywords ingredients_text in
      let st0 := {| st_passed := true; st_reasons := [];
                    st_confidence_levels := [] |} in
      let st1 :=
        fold_left
          (requirement_step has_meat has_dairy has_eggs has_gluten
             (flag dairyFree) (flag glutenFree) (flag vegan) (flag vegetarian))
          requirements st0 in
      let st2 :=
        fold_left
          (intolerance_step has_dairy has_eggs has_gluten
             (flag dairyFree) (flag glutenFree) (flag vegan))
          intols st1 in
      let levels := st_confidence_levels st2 in
      {| dt_passed := st_passed st2;
         dt_reason := match st_reasons st2 with
                      | [] => "meets requirements"
                      | reasons => Str.join "; " reasons
                      end;
         dt_requirements_checked := Some requirements;
         dt_intolerances_checked := Some intols;
         dt_confidence :=
           match levels with
           | [] => "medium"
           | _ => if forallb (String.eqb "high") levels then "high"
                  else "medium"
           end |}
  end.

(** *** The chain *)

Record filter_results_t : Type := {
  fr_difficulty : difficulty_check_t;
  fr_time : time_check_t;
  fr_missing_ingredients : missing_check_t;
  fr_dietary : dietary_check_t
}.

Record filter_result : Type := {
  f_passed : bool;
  filter_results : filter_results_t;
  penalty_score : Z;
  violations : list string
}.

Definition estimate_str (e : option Z) : string :=
  match e with Some t => Str.of_Z t | None => "unknown" end.

Definition _apply_soft_filters_with_penalties (s : settings) (r : recipe)
  : filter_result :=
  let penalty := 0 in
  let viol : list string := [] in
  (* difficulty *)
  let difficulty_check :=
    _assess_difficulty r (get (max_difficulty s) "hard") in
  let '(penalty, viol) :=
    if negb (dc_passed difficulty_check) then
      (penalty + 15,
       (viol ++ [("difficulty: " ++ difficulty_name (dc_level difficulty_check)
                  ++ " > " ++ dc_max_allowed difficulty_check)%string])%list)
    else (penalty, viol) in
  (* time *)
  let time_check := _check_time_limit r (get (max_time_minutes s) 120) in
  let '(penalty, viol) :=
    if negb (tc_passed time_check) then
      let max_time0 := tc_max_allowed time_check in
      (match tc_estimate time_check with
       | Some time_estimate =>
           let overage := time_estimate - max_time0 in
           penalty + Z.min (overage * 2) 30
       | None => penalty + 10
       end,
       (viol ++ [("time: " ++ estimate_str (tc_estimate time_check)
                  ++ " min > " ++ Str.of_Z max_time0 ++ " min")%string])%list)
    else (penalty, viol) in
  (* missing ingredients *)
  let missing_check :=
    _check_missing_limit (get (missedIngredientCount r) 0)
      (max_missing_ingredients s) in
  let '(penalty, viol) :=
    if negb (mc_passed missing_check) then
      let excess := mc_count missing_check - mc_max_allowed missing_check in
      (penalty + excess * 5,
       (viol ++ [("missing_ingredients: " ++ Str.of_Z (mc_count missing_check)
                  ++ " > " ++ Str.of_Z (mc_max_allowed missing_check))%string])%list)
    else (penalty, viol) in
  (* dietary preferences *)
  let dietary_check :=
    _check_dietary_requirements r (get (dietary_requirements s) []) [] in
  let '(penalty, viol) :=
    if negb (dt_passed dietary_check) then
      (penalty + 10,
       (viol ++ [("dietary: " ++ dt_reason dietary_check)%string])%list)
    else (penalty, viol) in
  {| f_passed := true;
     filter_results :=
       {| fr_difficulty := difficulty_check;
          fr_time := time_check;
          fr_missing_ingredients := missing_check;
          fr_dietary := dietary_check |};
     penalty_score := penalty;
     violations := viol |}.

(** The legacy entry point delegates to the chain. *)
Definition _apply_soft_filters (s : settings) (r : recipe) : filter_result :=
  _apply_soft_filters_with_penalties s r.

(** ** Decimal rounding and rendering of rationals *)

Module Dec.

Local Open Scope Q_scope.

(** The nearest integer, ties to the even one. *)
Definition round_half_even (x : Q) : Z :=
  let f := Qfloor x in
  match Qcompare (x - inject_Z f) (1 # 2) with
  | Lt => f
  | Gt => (f + 1)%Z
  | Eq => if Z.even f then f else (f + 1)%Z
  end.

(** The exact value rounded to one and to two decimals, counted in tenths
    and in hundredths. *)
Definition tenths (x : Q) : Z := round_half_even (x * 10).
Definition hundredths (x : Q) : Z := round_half_even (x * 100).

(** A count of tenths written with one decimal: [505] is ["50.5"]. *)
Definition show_tenths (negative : bool) (t : Z) : string :=
  ((if negative then "-" else "") ++
   Str.of_Z (Z.abs t / 10) ++ "." ++ Str.of_Z (Z.abs t mod 10))%string.

(** [f"{x:.1f}"] *)
Definition fmt1 (x : Q) : string :=
  show_tenths (if Qlt_le_dec x 0 then true else false) (tenths x).

(** [max(a, b)] and [min(a, b)] on rationals. *)
Definition Qmax (a b : Q) : Q := if Qlt_le_dec a b then b else a.

End Dec.

(** ** Binary64 arithmetic *)

Module F64.

Local Open Scope Q_scope.

(** The binary exponent of a positive rational: [2^e <= x < 2^(e+1)]. *)
Definition ilog2 (x : Q) : Z :=
  let k := (Z.log2 (Qnum x) - Z.log2 (Zpos (Qden x)))%Z in
  if Qle_bool (2 ^ k) x then k else (k - 1)%Z.

(** The exponent of the unit in the last place: 53 significant bits, and
    the subnormal grid [2^-1074] below the normal range. *)
Definition ulp_exp (x : Q) : Z := Z.max (ilog2 x - 52) (-1074).

(** The multiple of [2^q] nearest to [x], ties to even. *)
Definition round_to (q : Z) (x : Q) : Q :=
  inject_Z (Dec.round_half_even (x / 2 ^ q)) * 2 ^ q.

(** The double nearest to [x]. *)
Definition fl (x : Q) : Q :=
  match Qcompare x 0 with
  | Eq => 0
  | Gt => Qred (round_to (ulp_exp x) x)
  | Lt => Qred (- round_to (ulp_exp (- x)) (- x))
  end.

(** A decimal literal of the source, and an [int] used as a float. *)
Definition lit (x : Q) : Q := fl x.
Definition of_int (n : Z) : Q := fl (inject_Z n).

(** The four operations on doubles. *)
Definition add (a b : Q) : Q := fl (a + b).
Definition sub (a b : Q) : Q := fl (a - b).
Definition mul (a b : Q) : Q := fl (a * b).
Definition div (a b : Q) : Q := fl (a / b).

(** [a / b] on two [int]s: the quotient, rounded once. *)
Definition div_int (a b : Z) : Q := fl (inject_Z a / inject_Z b).

(** [round(x, 1)] and [round(x, 2)] *)
Definition round1 (x : Q) : Q := fl (inject_Z (Dec.tenths x) / 10).
Definition round2 (x : Q) : Q := fl (inject_Z (Dec.hundredths x) / 100).

End F64.

(** ** The scoring engine: [_calculate_smart_score] *)

Record weights_t : Type := {
  w_used : Q;
  w_missing : Q
}.

Record profile : Type := {
  p_name : string;
  p_description : string;
  p_weights : weights_t
}.

Definition minimal_shopper : profile :=
  {| p_name := "I hate shopping";
     p_description := "Prefer recipes with very few missing ingredients";
     p_weights := {| w_used := F64.lit 0.3; w_missing := F64.lit 0.7 |} |}.

Definition pantry_cleaner : profile :=
  {| p_name := "Use my pantry";
     p_description := "Prioritize recipes using what I already have";
     p_weights := {| w_used := F64.lit 0.7; w_missing := F64.lit 0.3 |} |}.

Definition balanced : profile :=
  {| p_name := "Balanced approach";
     p_description := "Balance pantry usage and shopping";
     p_weights := {| w_used := F64.lit 0.5; w_missing := F64.lit 0.5 |} |}.

(** [USER_PROFILES.get(key, default)] *)
Definition USER_PROFILES (key : string) (default : profile) : profile :=
  if String.eqb key "minimal_shopper" then minimal_shopper
  else if String.eqb key "pantry_cleaner" then pantry_cleaner
  else if String.eqb key "balanced" then balanced
  else default.

(** [self.profile], set by [__init__]. *)
Definition engine_profile (s : settings) : profile :=
  USER_PROFILES (get (user_profile s) "balanced") balanced.

Record score_bundle : Type := {
  smart_score : Q;
  used_score : Q;
  missing_score : Q;
  breakdown : string;
  sb_weights : option weights_t
}.

(** U+00D7, the multiplication sign of the breakdown, in UTF-8. *)
Definition times_sign : string :=
  String (ascii_of_nat 195) (String (ascii_of_nat 151) EmptyString).

(** The weights of the table are the doubles nearest to a one-decimal
    number, so [f"{w}"] prints them as [fmt1] does; the two components lie
    between 0 and 100 and [round(_, 1)] of them prints the same way. *)
Definition _get_score_breakdown (used_percent missed_percent : Q)
  (w : weights_t) : string :=
  let used_comp := F64.mul (w_used w) used_percent in
  let missing_comp := F64.mul (w_missing w) (F64.sub 100 missed_percent) in
  "(" ++ Dec.fmt1 (w_used w) ++ times_sign ++ Dec.fmt1 used_percent ++ "%) + "
  ++ "(" ++ Dec.fmt1 (w_missing w) ++ times_sign
  ++ Dec.fmt1 (F64.sub 100 missed_percent) ++ "%) = "
  ++ Dec.fmt1 used_comp ++ " + " ++ Dec.fmt1 missing_comp.

(** The weighted sum before [round(_, 1)]. *)
Definition raw_score (w : weights_t) (used_count missed_count : Z) : Q :=
  let total_ingredients := (used_count + missed_count)%Z in
  let used_percent :=
    F64.mul (F64.div_int used_count total_ingredients) 100 in
  let missed_percent :=
    F64.mul (F64.div_int missed_count total_ingredients) 100 in
  let used_component := F64.mul (w_used w) used_percent in
  let missed_component :=
    F64.mul (w_missing w) (F64.sub 100 missed_percent) in
  F64.add used_component missed_component.

(** The score as a function of the two counts and the weights. *)
Definition score_of_counts (w : weights_t) (used_count missed_count : Z)
  : score_bundle :=
  let total_ingredients := (used_count + missed_count)%Z in
  if (total_ingredients =? 0)%Z then
    {| smart_score := 0;
       used_score := 0;
       missing_score := 0;
       breakdown := "No ingredient data";
       sb_weights := None |}
  else
    let used_percent :=
      F64.mul (F64.div_int used_count total_ingredients) 100 in
    let missed_percent :=
      F64.mul (F64.div_int missed_count total_ingredients) 100 in
    {| smart_score := F64.round1 (raw_score w used_count missed_count);
       used_score := F64.round1 used_percent;
       missing_score := F64.round1 (F64.sub 100 missed_percent);
       breakdown := _get_score_breakdown used_percent missed_percent w;
       sb_weights := Some w |}.

Definition _calculate_smart_score (s : settings) (r : recipe) : score_bundle :=
  score_of_counts (p_weights (engine_profile s))
    (get (usedIngredientCount r) 0) (get (missedIngredientCount r) 0).

(** ** The reasoning engine: [_apply_reasoning] *)

Record mood_weights_t : Type := {
  mw_time : Q;
  mw_effort : Q;
  mw_skill : Q;
  mw_shopping : Q
}.

Definition tired_weights : mood_weights_t :=
  {| mw_time := F64.lit 0.5; mw_effort := F64.lit 0.7;
     mw_skill := F64.lit 0.3; mw_shopping := F64.lit 0.8 |}.
Definition casual_weights : mood_weights_t :=
  {| mw_time := F64.lit 0.5; mw_effort := F64.lit 0.5;
     mw_skill := F64.lit 0.5; mw_shopping := F64.lit 0.5 |}.
Definition energetic_weights : mood_weights_t :=
  {| mw_time := F64.lit 0.3; mw_effort := F64.lit 0.4;
     mw_skill := F64.lit 0.7; mw_shopping := F64.lit 0.4 |}.

(** [MOOD_WEIGHTS.get(key, default)] *)
Definition MOOD_WEIGHTS (key : string) (default : mood_weights_t)
  : mood_weights_t :=
  if String.eqb key "tired" then tired_weights
  else if String.eqb key "casual" then casual_weights
  else if String.eqb key "energetic" then energetic_weights
  else default.

(** [self.mood] and [self.mood_weights], set by [__init__]. *)
Definition engine_mood (s : settings) : string := get (mood s) "casual".
Definition engine_mood_weights (s : settings) : mood_weights_t :=
  MOOD_WEIGHTS (engine_mood s) casual_weights.

Record internal_debug_t : Type := {
  internal_score : Q;
  time_score : Q;
  skill_score : Q;
  shopping_score : Q;
  weights_used : mood_weights_t
}.

Record base_reasoning_t : Type := {
  br_confidence : Z;
  br_text : string;
  br_internal_debug : internal_debug_t
}.

(** Truthiness of an optional [int]: present and not zero. *)
Definition truthy (o : option Z) : bool :=
  match o with Some t => negb (t =? 0) | None => false end.

Definition tired_quick : string := "perfect for when you're tired - super quick!".

Definition _apply_reasoning (s : settings) (r : recipe) (smart : Q)
  (fr : filter_result) : base_reasoning_t :=
  let time_estimate := readyInMinutes r in
  let t := get time_estimate 0 in
  let level := dc_level (fr_difficulty (filter_results fr)) in
  let used_count := get (usedIngredientCount r) 0 in
  let missed_count := get (missedIngredientCount r) 0 in
  let total_ingredients := used_count + missed_count in
  let max_time0 :=
    match max_time s with
    | Some m => m
    | None => get (max_time_minutes s) 120
    end in
  let skill := get (skill_level s) 50 in
  let both := truthy time_estimate && negb (max_time0 =? 0) in
  let time_score0 :=
    if both then
      Dec.Qmax (F64.lit 0.1) (F64.sub 1 (F64.div_int t max_time0))
    else F64.lit 0.5 in
  let required_skill := DIFFICULTY_SKILL_MAP level in
  let skill_score0 :=
    if required_skill <=? skill then 1%Q
    else Dec.Qmax (F64.lit 0.2)
           (F64.sub 1 (F64.div_int (required_skill - skill) 100)) in
  let shopping_score0 :=
    if 0 <? total_ingredients then
      F64.sub 1 (F64.div_int missed_count total_ingredients)
    else F64.lit 0.5 in
  let is_tired := String.eqb (engine_mood s) "tired" in
  let adjusted_time_score :=
    if is_tired then F64.mul time_score0 2 else time_score0 in
  let mw := engine_mood_weights s in
  let final_internal_score :=
    F64.add
      (F64.add
         (F64.add
            (F64.mul (F64.div smart 100) (F64.lit 0.4))
            (F64.mul (F64.mul adjusted_time_score (mw_time mw))
               (F64.lit 0.25)))
         (F64.mul (F64.mul skill_score0 (mw_skill mw)) (F64.lit 0.2)))
      (F64.mul (F64.mul shopping_score0 (mw_shopping mw)) (F64.lit 0.15)) in
  (* the reasons *)
  let reasons : list string :=
    (if missed_count <=? 1 then ["requires very little shopping"]
     else if missed_count <=? 3 then ["only needs a few extra ingredients"]
     else [])%list in
  let reasons :=
    (if both &&
        (if Qlt_le_dec (F64.mul (F64.of_int max_time0) (F64.lit 0.7))
              (inject_Z t) then false
         else true)
     then reasons ++ ["quick to prepare"] else reasons)%list in
  let reasons :=
    (match level with
     | easy => reasons ++ ["easy to cook up"]
     | _ => reasons
     end)%list in
  (* the confidence *)
  let confidence := 75 in
  let confidence :=
    if missed_count <=? 1 then confidence + 10 else confidence in
  let confidence :=
    match level with easy => confidence + 5 | _ => confidence end in
  let confidence :=
    if both && (t <=? max_time0) then confidence + 5 else confidence in
  let tired_bonus := is_tired && truthy time_estimate && (t <=? 20) in
  let confidence := if tired_bonus then confidence + 15 else confidence in
  let reasons :=
    (if tired_bonus && negb (Str.mem tired_quick reasons)
     then reasons ++ [tired_quick] else reasons)%list in
  let confidence :=
    if (missed_count <=? 1)
       && match level with easy => true | _ => false end
       && truthy time_estimate && (t <=? 20)
    then confidence + 5 else confidence in
  let confidence := Z.min confidence 95 in
  let reasoning_text :=
    if is_tired then "Best option for zero effort."
    else
      match reasons with
      | [] => "Matches your preferences pretty well"
      | _ => "Good match because it " ++ Str.join ", " reasons
      end in
  {| br_confidence := confidence;
     br_text := reasoning_text;
     br_internal_debug :=
       {| internal_score := F64.round1 (F64.mul final_internal_score 100);
          time_score := F64.round2 time_score0;
          skill_score := F64.round2 skill_score0;
          shopping_score := F64.round2 shopping_score0;
          weights_used := mw |} |}.

Record reasoning_t : Type := {
  confidence : Z;
  text : string;
  penalty_applied : Z;
  rs_violations : list string;
  internal_debug : internal_debug_t
}.

Definition _apply_reasoning_with_penalties (s : settings) (r : recipe)
  (smart : Q) (fr : filter_result) : reasoning_t :=
  let base_reasoning := _apply_reasoning s r smart fr in
  let penalty := penalty_score fr in
  let viol := violations fr in
  let base_confidence := br_confidence base_reasoning in
  let adjusted_confidence := Z.max 50 (base_confidence - penalty) in
  let reasoning_text :=
    match viol with
    | [] => br_text base_reasoning
    | _ => br_text base_reasoning ++ " (Note: "
           ++ Str.join ", " (firstn 2 viol) ++ ")"
    end in
  {| confidence := adjusted_confidence;
     text := reasoning_text;
     penalty_applied := penalty;
     rs_violations := viol;
     internal_debug := br_internal_debug base_reasoning |}.

(** ** The result assembler: [_clean_data] *)

Record violation_flags_t : Type := {
  has_time_violation : bool;
  has_missing_violation : bool;
  has_difficulty_violation : bool;
  has_dietary_violation : bool;
  has_nutritional_violation : bool
}.

Record metadata_t : Type := {
  md_smart_score : Q;
  md_internal_debug : internal_debug_t;
  md_scoring_breakdown : string;
  md_used_score : Q;
  md_missing_score : Q;
  md_filter_results : filter_results_t;
  md_safety_check : safety_result;
  md_penalty_applied : Z;
  md_penalty_score : Z;
  md_violations : list string;
  md_violation_flags : violation_flags_t
}.

(** [any(tag in v for v in violations)] *)
Definition any_violation (tag : string) (viol : list string) : bool :=
  existsb (fun v => Str.contains tag v) viol.

Definition _build_metadata_dict (sc : score_bundle) (rd : reasoning_t)
  (fr : filter_result) (safety_check : safety_result) : metadata_t :=
  let violations_list := rs_violations rd in
  {| md_smart_score := smart_score sc;
     md_internal_debug := internal_debug rd;
     md_scoring_breakdown := breakdown sc;
     md_used_score := used_score sc;
     md_missing_score := missing_score sc;
     md_filter_results := filter_results fr;
     md_safety_check := safety_check;
     md_penalty_applied := penalty_applied rd;
     md_penalty_score := penalty_score fr;
     md_violations := violations_list;
     md_violation_flags :=
       {| has_time_violation := any_violation "time:" violations_list;
          has_missing_violation :=
            any_violation "missing_ingredients:" violations_list;
          has_difficulty_violation :=
            any_violation "difficulty:" violations_list;
          has_dietary_violation := any_violation "dietary:" violations_list;
          has_nutritional_violation := false |} |}.

(** [_generate_semantic_context]: the sentence that tells the LLM
    collaborator what to look at. *)
Definition _generate_semantic_context (s : settings) (rd : reasoning_t)
  (safety_check : safety_result) (protein calories : Q) (servings0 : Z)
  : string :=
  let viol := rs_violations rd in
  let parts : list string :=
    [("This recipe is a " ++ Str.of_Z (confidence rd) ++ "% match")%string] in
  let parts :=
    (if any_violation "time:" viol then
       parts ++ ["but exceeds time limit.";
                 "AI, check analyzedInstructions for ways to save time or simplify steps."]
     else parts)%list in
  let parts :=
    (if any_violation "missing_ingredients:" viol then
       parts ++ ["but requires additional ingredients.";
                 "AI, analyze extendedIngredients and suggest substitutions from user's pantry."]
     else parts)%list in
  let parts :=
    (if any_violation "difficulty:" viol then
       parts ++ ["but may be too complex.";
                 "AI, review analyzedInstructions to identify simplification opportunities."]
     else parts)%list in
  let positive (q : Q) : bool := if Qlt_le_dec 0 q then true else false in
  let parts :=
    (if (0 <? servings0) && positive calories && positive protein then
       let calories_per_serving :=
         F64.div calories (F64.of_int servings0) in
       let protein_per_serving := F64.div protein (F64.of_int servings0) in
       let ratio :=
         if positive protein_per_serving
         then F64.div calories_per_serving protein_per_serving else 0%Q in
       if Qlt_le_dec 25 ratio then
         parts ++ [("Has high calorie-to-protein ratio (" ++ Dec.fmt1 ratio
                    ++ ").")%string;
                   "AI, check instructions to see if sauce can be lightened using user's available ingredients."]
       else parts
     else parts)%list in
  let goal_nutrients :=
    flat_map
      (fun kv : string * requirement_value =>
         match snd kv with
         | ReqDict (Some t) => if String.eqb t "high" then [fst kv] else []
         | _ => []
         end)
      (get (nutritional_requirements s) []) in
  let parts :=
    (match goal_nutrients with
     | [] => parts
     | _ =>
         parts ++ [("User wants high " ++ Str.join ", " goal_nutrients
                    ++ ".")%string;
                   "AI, evaluate if this recipe fits the user's nutritional goals by analyzing extendedIngredients and instructions."]
     end)%list in
  let parts :=
    (if get (requires_ai_validation safety_check) false then
       let suspicious := get (suspicious_ingredients safety_check) [] in
       let safe_alternatives :=
         get (safe_alternative_indicators safety_check) [] in
       match safe_alternatives with
       | [] =>
           parts ++ [("AI, act as Safety Jury: Found suspicious ingredients ("
                      ++ Str.join ", " (firstn 2 suspicious) ++ ").")%string;
                     "Review extendedIngredients and instructions to validate ingredient safety for user's intolerances."]
       | _ =>
           parts ++ [("AI, act as Safety Jury: Found potential safe alternatives ("
                      ++ Str.join ", " (firstn 2 safe_alternatives)
                      ++ ").")%string;
                     "Review extendedIngredients and instructions to confirm safety for user's intolerances."]
       end
     else parts)%list in
  Str.join " " parts.

Record nutrition_summary_t : Type := {
  ns_protein : Q;
  ns_calories : Q;
  ns_fat : Q;
  ns_carbs : Q
}.

(** The assembled RecommendationResult. *)
Record recommendation : Type := {
  rec_id : option Z;
  rec_title : string;
  rec_image : string;
  rec_confidence : Z;
  rec_match_confidence : Z;
  rec_time : Z;
  rec_reasoning : string;
  rec_semantic_context : string;
  rec_extendedIngredients : list ingredient;
  rec_servings : Z;
  rec_instructions : string;
  rec_analyzedInstructions : list (list string);
  rec_raw_ingredients_for_ai : list ingredient;
  rec_nutrition : nutrition_t;
  rec_cuisines : list string;
  rec_dishTypes : list string;
  rec_diets : list string;
  rec_used_ingredients : Z;
  rec_missing_ingredients : Z;
  rec_difficulty : difficulty;
  rec_protein : Q;
  rec_calories : Q;
  rec_carbs : Q;
  rec_nutrition_summary : nutrition_summary_t;
  rec_ai_nutrient_flags : list (string * bool);
  rec_is_stub_recipe : bool;
  _metadata : metadata_t
}.

(** The empty dict [{}] as a nutrition block. *)
Definition no_nutrition : nutrition_t :=
  {| nutrients := None; nutrition_more_keys := false |}.

(** Truthiness of a nutrition dict: it has at least one key. *)
Definition nutrition_truthy (n : nutrition_t) : bool :=
  match nutrients n with Some _ => true | None => nutrition_more_keys n end.

(** [nutrient_dict.get(key, 0)] where [nutrient_dict] is the comprehension
    [{nut.get('name',''): nut.get('amount',0) for nut in nutrients}]: the
    last entry of that name wins. *)
Fixpoint nutrient_amount (key : string) (ns : list nutrient) (acc : Q) : Q :=
  match ns with
  | [] => acc
  | n :: rest =>
      nutrient_amount key rest
        (if String.eqb (get (nut_name n) "") key
         then get (nut_amount n) 0%Q else acc)
  end.

(** [_clean_data].  The source first looks for the manifest in fall-back
    places ([ingredient_info], [raw_ingredients_for_ai], [ingredients]) and
    prints an error when it finds none; the dict that it returns reads
    [recipe.get('extendedIngredients', [])] directly, so that search leaves no
    trace in the result and is not carried over. *)
Definition _clean_data (s : settings) (r : recipe) (sc : score_bundle)
  (rd : reasoning_t) (fr : filter_result) (safety_check : safety_result)
  : recommendation :=
  let servings0 := get (servings r) 0 in
  let nutrition0 := get (nutrition r) no_nutrition in
  let ns :=
    if nutrition_truthy nutrition0 then get (nutrients nutrition0) []
    else [] in
  let protein := nutrient_amount "Protein" ns 0%Q in
  let carbs := nutrient_amount "Carbohydrates" ns 0%Q in
  let calories := nutrient_amount "Calories" ns 0%Q in
  let fat := nutrient_amount "Fat" ns 0%Q in
  let semantic_context :=
    _generate_semantic_context s rd safety_check protein calories servings0 in
  let empty {A : Type} (l : list A) : bool :=
    match l with [] => true | _ => false end in
  let is_stub_recipe :=
    negb (nutrition_truthy nutrition0)
    || match instructions r with
       | Some (String _ _) => false
       | _ => true
       end
    || empty (get (analyzedInstructions r) [])
    || (servings0 =? 0)
    || empty (get (extendedIngredients r) []) in
  {| rec_id := id r;
     rec_title := get (title r) "Unknown Recipe";
     rec_image := get (image r) "";
     rec_confidence := confidence rd;
     rec_match_confidence := confidence rd;
     rec_time := get (readyInMinutes r) 0;
     rec_reasoning := text rd;
     rec_semantic_context := semantic_context;
     rec_extendedIngredients := get (extendedIngredients r) [];
     rec_servings := get (servings r) 0;
     rec_instructions := get (instructions r) "";
     rec_analyzedInstructions := get (analyzedInstructions r) [];
     rec_raw_ingredients_for_ai := get (extendedIngredients r) [];
     rec_nutrition := get (nutrition r) no_nutrition;
     rec_cuisines := get (cuisines r) [];
     rec_dishTypes := get (dishTypes r) [];
     rec_diets := get (diets r) [];
     rec_used_ingredients := get (usedIngredientCount r) 0;
     rec_missing_ingredients := get (missedIngredientCount r) 0;
     rec_difficulty := dc_level (fr_difficulty (filter_results fr));
     rec_protein := protein;
     rec_calories := calories;
     rec_carbs := carbs;
     rec_nutrition_summary :=
       {| ns_protein := protein; ns_calories := calories;
          ns_fat := fat; ns_carbs := carbs |};
     rec_ai_nutrient_flags := [];
     rec_is_stub_recipe := is_stub_recipe;
     _metadata := _build_metadata_dict sc rd fr safety_check |}.

(** ** The pipeline: [process_results] *)

(** The keyword list of the vegetarian pre-filter of [process_results]. *)
Definition MEAT_KEYWORDS : list string :=
  ["meat"; "beef"; "pork"; "lamb"; "mutton"; "veal"; "venison"; "chicken";
   "poultry"; "turkey"; "duck"; "goose"; "fish"; "seafood"; "shrimp"; "prawn";
   "crab"; "lobster"; "mussel"; "clam"; "oyster"; "squid"; "octopus"; "bacon";
   "ham"; "sausage"; "pepperoni"; "salami"; "prosciutto"; "steak"; "ribs";
   "lard"; "tallow"; "gelatin"; "anchovy"; "sardine"; "tuna"; "salmon"; "cod"].

(** The text parts that one manifest entry adds to [recipe_text_parts]: the
    name (when there is one) and then every non-empty string value of the
    dict; a bare string is added as it is. *)
Definition prefilter_parts (ing : ingredient) : list string :=
  match ing with
  | IngDict items =>
      (match ingredient_name ing with
       | EmptyString => []
       | n => [n]
       end
       ++ filter (fun v => negb (String.eqb v "")) (map snd items))%list
  | IngStr s => [s]
  end.

(** The text that the pre-filter searches: title, summary and every
    ingredient string, lower-cased. *)
Definition prefilter_text (r : recipe) : string :=
  Str.lower
    (Str.join " "
       ([get (title r) ""; get (summary r) ""]
        ++ flat_map prefilter_parts (manifest r))%list).

(** The body of the loop of [process_results] for one candidate: [None] is a
    [continue] (the candidate is discarded). *)
Definition process_one (s : settings) (r : recipe) : option recommendation :=
  if is_vegetarian s && Str.any_in MEAT_KEYWORDS (prefilter_text r) then None
  else
    let safety_check := _apply_safety_check s r in
    if negb (passed safety_check) then None
    else
      let fr := _apply_soft_filters_with_penalties s r in
      let scoring_data := _calculate_smart_score s r in
      let reasoning_data :=
        _apply_reasoning_with_penalties s r (smart_score scoring_data) fr in
      Some (_clean_data s r scoring_data reasoning_data fr safety_check).

(** [sorted(xs, key=match_confidence, reverse=True)]: a stable sort, highest
    confidence first. *)
Fixpoint insert_desc (x : recommendation) (l : list recommendation)
  : list recommendation :=
  match l with
  | [] => [x]
  | y :: l' =>
      if rec_match_confidence y <=? rec_match_confidence x then x :: y :: l'
      else y :: insert_desc x l'
  end.

Definition sort_desc (l : list recommendation) : list recommendation :=
  fold_right insert_desc [] l.

(** The recommendations in the order of the candidates, before sorting. *)
Definition final_recommendations (s : settings) (raw_recipes : list recipe)
  : list recommendation :=
  flat_map (fun r => match process_one s r with
                     | Some rec => [rec]
                     | None => []
                     end) raw_recipes.

Definition process_results (s : settings) (raw_recipes : list recipe)
  : list recommendation :=
  sort_desc (final_recommendations s raw_recipes).

(** ** The orchestrator after Fetch: [run_pantry_chef] *)

Module Pitch.

(** String operations that the reading of the LLM pitch uses.  The text is
    taken as ASCII: positions count bytes, and [upper], [lower] and [strip]
    act on ASCII letters and ASCII white space. *)

Definition upper_ascii (c : ascii) : ascii :=
  let n := nat_of_ascii c in
  if ((97 <=? n) && (n <=? 122))%nat then ascii_of_nat (n - 32) else c.

Fixpoint upper (s : string) : string :=
  match s with
  | EmptyString => EmptyString
  | String c s' => String (upper_ascii c) (upper s')
  end.

(** [s.find(sub)]; [None] is [-1]. *)
Fixpoint find (sub s : string) : option nat :=
  if prefix sub s then Some O
  else match s with
       | EmptyString => None
       | String _ s' => option_map S (find sub s')
       end.

(** [s[a:b]] for [0 <= a] and [b <= len(s)]. *)
Definition slice (a b : nat) (s : string) : string :=
  substring a (b - a) s.

Definition is_space (c : ascii) : bool :=
  let n := nat_of_ascii c in
  (((9 <=? n) && (n <=? 13)) || ((28 <=? n) && (n <=? 32)))%nat.

Fixpoint lstrip (s : string) : string :=
  match s with
  | String c s' => if is_space c then lstrip s' else s
  | EmptyString => EmptyString
  end.

Fixpoint rstrip (s : string) : string :=
  match s with
  | EmptyString => EmptyString
  | String c s' =>
      match rstrip s' with
      | EmptyString => if is_space c then EmptyString
                       else String c EmptyString
      | t => String c t
      end
  end.

Definition strip (s : string) : string := rstrip (lstrip s).

(** [s.split('\n')] *)
Fixpoint split_lines (s : string) : list string :=
  match s with
  | EmptyString => [EmptyString]
  | String c s' =>
      if Ascii.eqb c (ascii_of_nat 10) then EmptyString :: split_lines s'
      else match split_lines s' with
           | [] => [String c EmptyString]
           | l :: ls => String c l :: ls
           end
  end.

(** The titles of the recipes that the pitch marks as rejected, from the
    top three sent to the collaborator. *)
Definition title_near_rejected (pitch_lower : string) (rec : recommendation)
  : list string :=
  let recipe_title := rec_title rec in
  match recipe_title with
  | EmptyString => []
  | _ =>
      let title_lower := Str.lower recipe_title in
      match find title_lower pitch_lower with
      | None => []
      | Some title_index =>
          let window_start := (title_index - 100)%nat in
          let window_end :=
            Nat.min (String.length pitch_lower)
              (title_index + String.length title_lower + 100) in
          let window_text := slice window_start window_end pitch_lower in
          if Str.contains "rejected" window_text then [recipe_title] else []
      end
  end.

(** [enumerate(xs)] *)
Fixpoint enumerate_from {A : Type} (i : nat) (xs : list A) : list (nat * A) :=
  match xs with
  | [] => []
  | x :: xs' => (i, x) :: enumerate_from (S i) xs'
  end.

Definition line_rejected (top_3 : list recommendation) (il : nat * string)
  : list string :=
  let '(i, line) := il in
  if String.eqb (upper (strip line)) "REJECTED" then
    match nth_error top_3 i with
    | Some rec =>
        match rec_title rec with EmptyString => [] | t => [t] end
    | None => []
    end
  else if Str.contains "rejected" (Str.lower line) then
    let line_lower := Str.lower line in
    flat_map
      (fun jr : nat * recommendation =>
         let '(j, rec) := jr in
         let recipe_num := S j in
         let recipe_title := rec_title rec in
         if Str.contains (Str.of_Z (Z.of_nat recipe_num) ++ ".") line_lower
            || (negb (String.eqb recipe_title "")
                && Str.contains (Str.lower recipe_title) line_lower)
         then [recipe_title] else [])
      (enumerate_from 0 top_3)
  else [].

Definition rejected_recipe_titles (pitch : string)
  (top_3 : list recommendation) : list string :=
  if Str.contains "REJECTED" (upper pitch) then
    (flat_map (title_near_rejected (Str.lower pitch)) top_3
     ++ flat_map (line_rejected top_3)
          (enumerate_from 0 (split_lines pitch)))%list
  else [].

End Pitch.

(** The LLM collaborator, as far as the orchestrator sees it: given the top
    three recommendations and the mood, a pitch text, or nothing (call
    failed, no text). *)
Definition pitch_oracle : Type := list recommendation -> string -> option string.

Record run_result : Type := {
  recipes : list recommendation;
  pitch : option string;
  total_fetched : Z;
  total_processed : Z;
  errors : list string
}.

(** [engine_settings]: the intolerances given as a parameter are added when
    the settings have none. *)
Definition engine_settings (s : settings)
  (intolerances_param : option (list string)) : settings :=
  match intolerances_param, intolerances s with
  | Some (i :: l), None =>
      {| user_profile := user_profile s;
         mood := mood s;
         max_difficulty := max_difficulty s;
         max_time_minutes := max_time_minutes s;
         max_missing_ingredients := max_missing_ingredients s;
         dietary_requirements := dietary_requirements s;
         intolerances := Some (i :: l);
         nutritional_requirements := nutritional_requirements s;
         skill_level := skill_level s;
         max_time := max_time s |}
  | _, _ => s
  end.

(** The enforcer keeps a recommendation when its safety check passed and its
    safety score is not below 0.5.  (A recommendation has no top-level
    ['passed'] key, so the first test of the loop never fires.) *)
Definition enforcer_keeps (rec : recommendation) : bool :=
  let safety_check := md_safety_check (_metadata rec) in
  passed safety_check &&
  (if Qlt_le_dec (get (safety_score safety_check) 1%Q) 0.5%Q then false
   else true).

Definition enforce (processed : list recommendation) : list recommendation :=
  filter enforcer_keeps processed.

(** The second, LLM-driven pass: what is left of [safe_recipes] and the pitch.
    [gemini] is [None] when there is no key or the client is not available. *)
Definition external_enrich (s : settings) (enrich_with_ai : bool)
  (gemini : option pitch_oracle) (safe_recipes : list recommendation)
  : list recommendation * option string :=
  match enrich_with_ai, safe_recipes, gemini with
  | true, _ :: _, Some generate_recommendation_pitch =>
      let top_3_for_pitch := firstn 3 safe_recipes in
      match generate_recommendation_pitch top_3_for_pitch
              (get (mood s) "casual") with
      | Some (String c p as pitch_text) =>
          let rejected := Pitch.rejected_recipe_titles pitch_text
                            top_3_for_pitch in
          (match rejected with
           | [] => safe_recipes
           | _ => filter (fun r => negb (Str.mem (rec_title r) rejected))
                    safe_recipes
           end, Some pitch_text)
      | other => (safe_recipes, other)
      end
  | _, _, _ => (safe_recipes, None)
  end.

(** [run_pantry_chef] from the point where Fetch has delivered
    [raw_recipes]. *)
Definition run_pantry_chef (s : settings)
  (intolerances_param : option (list string)) (enrich_with_ai : bool)
  (gemini : option pitch_oracle) (raw_recipes : list recipe) : run_result :=
  match raw_recipes with
  | [] =>
      {| recipes := []; pitch := None; total_fetched := 0;
         total_processed := 0; errors := ["No recipes found from API"] |}
  | _ =>
      let processed_recipes :=
        process_results (engine_settings s intolerances_param) raw_recipes in
      let safe_recipes := enforce processed_recipes in
      let '(final, pitch_text) :=
        external_enrich s enrich_with_ai gemini safe_recipes in
      {| recipes := final;
         pitch := pitch_text;
         total_fetched := Z.of_nat (List.length raw_recipes);
         total_processed := Z.of_nat (List.length final);
         errors := [] |}
  end.

(** ** The endpoint: [get_recommendations] of [backend/main.py] *)

(** The request body.  [number], [cuisine], [meal_type] and [diet] go to Fetch
    only. *)
Record RecipeRequest : Type := {
  rq_ingredients : list string;
  rq_mood : string;
  rq_intolerances : list string;
  rq_user_profile : string;
  rq_max_time_minutes : option Z;
  rq_max_missing_ingredients : option Z;
  rq_dietary_requirements : option (list string);
  rq_number : option Z;
  rq_cuisine : option string;
  rq_meal_type : option string;
  rq_diet : option string
}.

(** [x or d] on an optional [int]: [d] when [x] is [None] or [0]. *)
Definition or_int (x : option Z) (d : Z) : Z :=
  match x with
  | Some n => if n =? 0 then d else n
  | None => d
  end.

(** [x or []] on an optional list. *)
Definition or_nil {A : Type} (x : option (list A)) : list A :=
  match x with
  | Some l => l
  | None => []
  end.

(** The [settings] dict that the endpoint builds; it has no
    ['max_difficulty'] and no ['nutritional_requirements'] key. *)
Definition request_settings (request : RecipeRequest) : settings :=
  {| user_profile := Some (rq_user_profile request);
     mood := Some (rq_mood request);
     max_difficulty := None;
     max_time_minutes := Some (or_int (rq_max_time_minutes request) 120);
     max_missing_ingredients :=
       or_int (rq_max_missing_ingredients request) 10;
     dietary_requirements :=
       Some (or_nil (rq_dietary_requirements request));
     intolerances := Some (rq_intolerances request);
     nutritional_requirements := None;
     skill_level := Some 50;
     max_time := Some (or_int (rq_max_time_minutes request) 120) |}.

(** The response: the orchestrator's result, or a message with an empty list
    and no pitch when no recipe is left. *)
Definition get_recommendations (request : RecipeRequest)
  (gemini : option pitch_oracle) (raw_recipes : list recipe)
  : option string * run_result :=
  let results :=
    run_pantry_chef (request_settings request)
      (Some (rq_intolerances request)) true gemini raw_recipes in
  match recipes results with
  | [] =>
      (Some "No recipes found for those ingredients.",
       {| recipes := [];
          pitch := None;
          total_fetched := total_fetched results;
          total_processed := total_processed results;
          errors := errors results |})
  | _ => (None, results)
  end.

(** ** Notions used in the statements *)

(** Some manifest entry has a name that, lower-cased, contains one of the
    keywords. *)
Definition manifest_has (kws : list string) (r : recipe) : Prop :=
  exists ing kw,
    In ing (manifest r) /\ In kw kws /\
    Str.contains kw (Str.lower (ingredient_name ing)) = true.

(** The candidate with another title and another summary, everything else
    unchanged. *)
Definition with_title_summary (t sm : option string) (r : recipe) : recipe :=
  {| id := id r;
     title := t;
     summary := sm;
     image := image r;
     extendedIngredients := extendedIngredients r;
     usedIngredientCount := usedIngredientCount r;
     missedIngredientCount := missedIngredientCount r;
     readyInMinutes := readyInMinutes r;
     servings := servings r;
     instructions := instructions r;
     analyzedInstructions := analyzedInstructions r;
     nutrition := nutrition r;
     cuisines := cuisines r;
     dishTypes := dishTypes r;
     diets := diets r;
     dietary_info := dietary_info r |}.

(** A keyword of the intolerance occurs in the text of the scan. *)
Definition keyword_hit (intolerance : string) (r : recipe) : bool :=
  Str.any_in (ALLERGY_MAP (Str.lower intolerance)) (recipe_text r).

(** A safe word of the intolerance occurs in the text of the scan. *)
Definition safe_word_present (intolerance : string) (r : recipe) : bool :=
  Str.any_in (SAFE_WORDS (Str.lower intolerance)) (recipe_text r).

(** The vegetarian pre-filter of [process_results] discards the candidate. *)
Definition prefilter_discards (s : settings) (r : recipe) : bool :=
  is_vegetarian s && Str.any_in MEAT_KEYWORDS (prefilter_text r).

(** The titles that the LLM pass rejects among [safe_recipes]; none when the
    pass does not run or yields no pitch. *)
Definition llm_rejected (s : settings) (enrich_with_ai : bool)
  (gemini : option pitch_oracle) (safe_recipes : list recommendation)
  : list string :=
  match enrich_with_ai, safe_recipes, gemini with
  | true, _ :: _, Some generate_recommendation_pitch =>
      match generate_recommendation_pitch (firstn 3 safe_recipes)
              (get (mood s) "casual") with
      | Some (String c p as pitch_text) =>
          Pitch.rejected_recipe_titles pitch_text (firstn 3 safe_recipes)
      | _ => []
      end
  | _, _, _ => []
  end.

Definition is_some {A : Type} (o : option A) : bool :=
  match o with Some _ => true | None => false end.

(** *** Concrete candidates and settings *)

(** Settings with the given dietary requirements and intolerances, the other
    keys as [backend/main.py] fills them by default. *)
Definition settings_of (diet intols : list string) : settings :=
  {| user_profile := Some "balanced";
     mood := Some "casual";
     max_difficulty := None;
     max_time_minutes := Some 120;
     max_missing_ingredients := 10;
     dietary_requirements := Some diet;
     intolerances := Some intols;
     nutritional_requirements := None;
     skill_level := Some 50;
     max_time := Some 120 |}.

(** A candidate with the given title and ingredient names. *)
Definition recipe_of (t : string) (names : list string) : recipe :=
  {| id := Some 1;
     title := Some t;
     summary := None;
     image := None;
     extendedIngredients := Some (map (fun n => IngDict [("name", n)]) names);
     usedIngredientCount := Some 2;
     missedIngredientCount := Some 1;
     readyInMinutes := Some 30;
     servings := Some 2;
     instructions := None;
     analyzedInstructions := None;
     nutrition := None;
     cuisines := None;
     dishTypes := None;
     diets := None;
     dietary_info := None |}.

(** The bonuses of the confidence as the specification lists them, with the
    amounts of the source: ten for a low missing count, five for an easy
    recipe, five for a recipe under the time limit, fifteen for a quick recipe
    in the tired mood, and five more for a recipe that is at once low in
    missing count, easy and quick. *)
Definition confidence_bonuses (s : settings) (r : recipe) (level : difficulty)
  : Z :=
  let missed := get (missedIngredientCount r) 0 in
  let minutes := get (readyInMinutes r) 0 in
  let has_time := truthy (readyInMinutes r) in
  let limit :=
    match max_time s with
    | Some m => m
    | None => get (max_time_minutes s) 120
    end in
  let low_missing := missed <=? 1 in
  let is_easy := match level with easy => true | _ => false end in
  let under_time := has_time && negb (limit =? 0) && (minutes <=? limit) in
  let quick := has_time && (minutes <=? 20) in
  let tired := String.eqb (get (mood s) "casual") "tired" in
  (if low_missing then 10 else 0)
  + (if is_easy then 5 else 0)
  + (if under_time then 5 else 0)
  + (if tired && quick then 15 else 0)
  + (if low_missing && is_easy && quick then 5 else 0).

(** The confidence as the specification describes it: the base 75 plus the
    bonuses, capped at 95, then reduced by the penalty with a floor of 50. *)
Definition spec_confidence (s : settings) (r : recipe) (level : difficulty)
  (penalty : Z) : Z :=
  Z.max 50 (Z.min 95 (75 + confidence_bonuses s r level) - penalty).

(** The filter outcome with another penalty. *)
Definition with_penalty (p : Z) (fr : filter_result) : filter_result :=
  {| f_passed := f_passed fr;
     filter_results := filter_results fr;
     penalty_score := p;
     violations := violations fr |}.

(** Scenario 4 of the specification: a tired user with thirty minutes, and a
    candidate that takes forty. *)
Definition tired_settings : settings :=
  {| user_profile := Some "balanced";
     mood := Some "tired";
     max_difficulty := None;
     max_time_minutes := Some 30;
     max_missing_ingredients := 5;
     dietary_requirements := Some [];
     intolerances := Some [];
     nutritional_requirements := None;
     skill_level := Some 50;
     max_time := Some 30 |}.

Definition slow_recipe : recipe :=
  {| id := Some 7;
     title := Some "Slow Stew";
     summary := None;
     image := None;
     extendedIngredients :=
       Some [IngDict [("name", "carrot")]; IngDict [("name", "potato")]];
     usedIngredientCount := Some 2;
     missedIngredientCount := Some 0;
     readyInMinutes := Some 40;
     servings := Some 4;
     instructions := Some "Simmer.";
     analyzedInstructions := Some [["Simmer."]];
     nutrition := None;
     cuisines := None;
     dishTypes := None;
     diets := None;
     dietary_info := None |}.

(** A candidate known by its two counts only. *)
Definition counts_recipe (used missing : Z) : recipe :=
  {| id := None;
     title := None;
     summary := None;
     image := None;
     extendedIngredients := None;
     usedIngredientCount := Some used;
     missedIngredientCount := Some missing;
     readyInMinutes := None;
     servings := None;
     instructions := None;
     analyzedInstructions := None;
     nutrition := None;
     cuisines := None;
     dishTypes := None;
     diets := None;
     dietary_info := None |}.

(** Settings that name a profile. *)
Definition profile_settings (name : string) : settings :=
  {| user_profile := Some name;
     mood := None;
     max_difficulty := None;
     max_time_minutes := None;
     max_missing_ingredients := 5;
     dietary_requirements := None;
     intolerances := None;
     nutritional_requirements := None;
     skill_level := None;
     max_time := None |}.

(** The score as the specification writes it, before rounding:
    [usedPct = 100*used/(used+missing)],
    [missingPct = 100*missing/(used+missing)],
    [score = wUsed*usedPct + wMissing*(100 - missingPct)]. *)
Definition spec_score (w : weights_t) (used missing : Z) : Q :=
  let usedPct := (100 * inject_Z used / inject_Z (used + missing))%Q in
  let missingPct := (100 * inject_Z missing / inject_Z (used + missing))%Q in
  (w_used w * usedPct + w_missing w * (100 - missingPct))%Q.

(** The candidate of the test suite at the end of [Logic.py]. *)
Definition pasta_primavera : recipe :=
  {| id := Some 12345;
     title := Some "Italian Pasta Primavera";
     summary := None;
     image := Some "https://example.com/pasta.jpg";
     extendedIngredients :=
       Some [IngDict [("name", "pasta"); ("unit", "cups")];
             IngDict [("name", "butter"); ("unit", "cup")];
             IngDict [("name", "tomatoes"); ("unit", "cups")]];
     usedIngredientCount := Some 5;
     missedIngredientCount := Some 3;
     readyInMinutes := Some 30;
     servings := Some 4;
     instructions := Some "Cook pasta. Add butter. Mix with tomatoes.";
     analyzedInstructions :=
       Some [["Cook pasta"; "Add butter"; "Mix with tomatoes"]];
     nutrition :=
       Some {| nutrients :=
                 Some [{| nut_name := Some "Calories"; nut_amount := Some 450%Q |};
                       {| nut_name := Some "Protein"; nut_amount := Some 15%Q |};
                       {| nut_name := Some "Fat"; nut_amount := Some 12%Q |};
                       {| nut_name := Some "Carbohydrates";
                          nut_amount := Some 65%Q |}];
               nutrition_more_keys := false |};
     cuisines := Some ["Italian"];
     dishTypes := Some ["main course"; "dinner"];
     diets := Some ["vegetarian"];
     dietary_info :=
       Some {| dairyFree := Some false; glutenFree := Some false;
               vegan := Some false; vegetarian := Some true |} |}.

(** What the pipeline assembles for it when nothing is requested. *)
Definition pasta_recommendation : recommendation :=
  let s := settings_of [] [] in
  let fr := _apply_soft_filters_with_penalties s pasta_primavera in
  let sc := _calculate_smart_score s pasta_primavera in
  _clean_data s pasta_primavera sc
    (_apply_reasoning_with_penalties s pasta_primavera (smart_score sc) fr)
    fr (_apply_safety_check s pasta_primavera).

(** *** Notions for the properties of the whole pipeline *)

(** Some entry of a manifest has a name that, lower-cased, contains one of
    the keywords. *)
Definition ingredients_have (kws : list string) (ings : list ingredient)
  : Prop :=
  exists ing kw,
    In ing ings /\ In kw kws /\
    Str.contains kw (Str.lower (ingredient_name ing)) = true.

(** The order of the returned list: the confidence does not go up. *)
Definition by_confidence (a b : recommendation) : Prop :=
  rec_match_confidence b <= rec_match_confidence a.

(** The recommendations of a list that have a given confidence, in the order
    of the list. *)
Definition with_confidence (c : Z) (l : list recommendation)
  : list recommendation :=
  filter (fun r => rec_match_confidence r =? c) l.

(** A request with the defaults of [RecipeRequest] and the two limits as
    given. *)
Definition request_with_limits (max_time0 max_missing : option Z)
  : RecipeRequest :=
  {| rq_ingredients := ["pasta"; "tomatoes"];
     rq_mood := "casual";
     rq_intolerances := [];
     rq_user_profile := "balanced";
     rq_max_time_minutes := max_time0;
     rq_max_missing_ingredients := max_missing;
     rq_dietary_requirements := None;
     rq_number := Some 20;
     rq_cuisine := None;
     rq_meal_type := None;
     rq_diet := None |}.

(** The settings with other dietary requirements. *)
Definition with_diet (diet : list string) (s : settings) : settings :=
  {| user_profile := user_profile s;
     mood := mood s;
     max_difficulty := max_difficulty s;
     max_time_minutes := max_time_minutes s;
     max_missing_ingredients := max_missing_ingredients s;
     dietary_requirements := Some diet;
     intolerances := intolerances s;
     nutritional_requirements := nutritional_requirements s;
     skill_level := skill_level s;
     max_time := max_time s |}.

(** The intolerance is a key of the allergy map. *)
Definition known_intolerance (intolerance : string) : bool :=
  Str.mem (Str.lower intolerance) ["dairy"; "gluten"; "eggs"; "nuts"].

(** The key under which the soft dietary check reads a requirement. *)
Definition requirement_key (requirement : string) : string :=
  replace_char " " "_" (replace_char "-" "_" (Str.lower requirement)).

(** The text that the soft dietary check scans. *)
Definition soft_diet_text (r : recipe) : string :=
  Str.join " " (map diet_scan_name (manifest r)).

(** The character occurs in the string. *)
Fixpoint has_char (c : ascii) (s : string) : bool :=
  match s with
  | EmptyString => false
  | String a s' => Ascii.eqb a c || has_char c s'
  end.

(** No reason collected by the soft dietary check has a colon. *)
Definition colon_free (st : diet_state) : Prop :=
  forall p, In p (st_reasons st) -> has_char ":" p = false.

(** The settings with another user profile. *)
Definition with_profile (name : option string) (s : settings) : settings :=
  {| user_profile := name;
     mood := mood s;
     max_difficulty := max_difficulty s;
     max_time_minutes := max_time_minutes s;
     max_missing_ingredients := max_missing_ingredients s;
     dietary_requirements := dietary_requirements s;
     intolerances := intolerances s;
     nutritional_requirements := nutritional_requirements s;
     skill_level := skill_level s;
     max_time := max_time s |}.

(** The recommendation with other metadata. *)
Definition with_metadata (m : metadata_t) (a : recommendation)
  : recommendation :=
  {| rec_id := rec_id a;
     rec_title := rec_title a;
     rec_image := rec_image a;
     rec_confidence := rec_confidence a;
     rec_match_confidence := rec_match_confidence a;
     rec_time := rec_time a;
     rec_reasoning := rec_reasoning a;
     rec_semantic_context := rec_semantic_context a;
     rec_extendedIngredients := rec_extendedIngredients a;
     rec_servings := rec_servings a;
     rec_instructions := rec_instructions a;
     rec_analyzedInstructions := rec_analyzedInstructions a;
     rec_raw_ingredients_for_ai := rec_raw_ingredients_for_ai a;
     rec_nutrition := rec_nutrition a;
     rec_cuisines := rec_cuisines a;
     rec_dishTypes := rec_dishTypes a;
     rec_diets := rec_diets a;
     rec_used_ingredients := rec_used_ingredients a;
     rec_missing_ingredients := rec_missing_ingredients a;
     rec_difficulty := rec_difficulty a;
     rec_protein := rec_protein a;
     rec_calories := rec_calories a;
     rec_carbs := rec_carbs a;
     rec_nutrition_summary := rec_nutrition_summary a;
     rec_ai_nutrient_flags := rec_ai_nutrient_flags a;
     rec_is_stub_recipe := rec_is_stub_recipe a;
     _metadata := m |}.

(** Two recommendations that differ at most in their metadata. *)
Definition same_but_metadata (a b : recommendation) : Prop :=
  b = with_metadata (_metadata b) a.

(** A pitch whose second line says REJECTED. *)
Definition second_line_rejected : string :=
  "The stew is a fine choice." ++ String (ascii_of_nat 10) "  rejected  ".

(** * Properties *)

Open Scope list_scope.

(** ** Substrings of joined text *)

Section Substrings.

Local Open Scope string_scope.

Lemma prefix_app (a s t : string) :
  prefix a s = true -> prefix a (s ++ t) = true.
Proof.
  revert s; induction a as [|c a IH]; intros s H.
  - destruct s; [destruct t|]; reflexivity.
  - destruct s as [|d s]; simpl in *; [discriminate|].
    destruct (ascii_dec c d); [auto | discriminate].
Qed.

Lemma contains_app_l (a s t : string) :
  Str.contains a s = true -> Str.contains a (s ++ t) = true.
Proof.
  induction s as [|c s IH]; intros H.
  - simpl in H. rewrite orb_false_r in H.
    destruct a; [|discriminate].
    destruct t; reflexivity.
  - cbn [Str.contains] in H. apply orb_true_iff in H.
    change (String c s ++ t) with (String c (s ++ t)).
    cbn [Str.contains]. apply orb_true_iff.
    destruct H as [H|H]; [left | right; auto].
    exact (prefix_app a (String c s) t H).
Qed.

Lemma contains_app_r (a s t : string) :
  Str.contains a t = true -> Str.contains a (s ++ t) = true.
Proof.
  intros H; induction s as [|c s IH]; [exact H|].
  change (String c s ++ t) with (String c (s ++ t)).
  cbn [Str.contains]. rewrite IH. apply orb_true_r.
Qed.

(** A keyword inside one part is inside the joined text. *)
Lemma contains_join (sep kw n : string) (parts : list string) :
  In n parts -> Str.contains kw n = true ->
  Str.contains kw (Str.join sep parts) = true.
Proof.
  unfold Str.join.
  induction parts as [|p parts IH]; intros Hin Hc; [contradiction|].
  destruct parts as [|q parts].
  - destruct Hin as [->|[]]. exact Hc.
  - change (String.concat sep (p :: q :: parts))
      with (p ++ sep ++ String.concat sep (q :: parts)).
    destruct Hin as [->|Hin].
    + now apply contains_app_l.
    + apply contains_app_r, contains_app_r. now apply IH.
Qed.

Lemma any_in_true (kws : list string) (text : string) :
  Str.any_in kws text = true <->
  exists kw, In kw kws /\ Str.contains kw text = true.
Proof. unfold Str.any_in. apply existsb_exists. Qed.


Lemma contains_empty_r (kw : string) :
  Str.contains kw "" = true -> kw = "".
Proof. destruct kw; [reflexivity | discriminate]. Qed.

Lemma mem_true (x : string) (xs : list string) :
  Str.mem x xs = true <-> In x xs.
Proof.
  unfold Str.mem. rewrite existsb_exists. split.
  - intros (y & Hin & Heq). apply String.eqb_eq in Heq. now subst.
  - intros Hin. exists x. split; [assumption | apply String.eqb_refl].
Qed.

End Substrings.

(** ** The manifest as the safety gate reads it *)

Lemma lower_empty (s : string) : Str.lower s = "" -> s = "".
Proof. destruct s; [reflexivity | discriminate]. Qed.

Lemma ingredient_names_in (ing : ingredient) (ings : list ingredient) :
  In ing ings -> ingredient_name ing <> "" ->
  In (Str.lower (ingredient_name ing)) (ingredient_names ings).
Proof.
  induction ings as [|i ings IH]; intros Hin Hne; [contradiction|].
  destruct Hin as [->|Hin].
  - destruct ing as [items|s]; cbn [ingredient_names].
    + destruct (ingredient_name (IngDict items)) eqn:E;
        [congruence | left; reflexivity].
    + left; reflexivity.
  - specialize (IH Hin Hne).
    destruct i as [items|s]; cbn [ingredient_names].
    + destruct (ingredient_name (IngDict items)); [assumption | now right].
    + now right.
Qed.

(** A keyword of the manifest is found in the joined ingredient text (no
    keyword of the tables is the empty string). *)
Lemma manifest_has_text (kws : list string) (r : recipe) :
  Str.mem "" kws = false ->
  manifest_has kws r ->
  Str.any_in kws (Str.join " " (ingredient_names (manifest r))) = true.
Proof.
  intros Hne (ing & kw & Hin & Hkw & Hc).
  apply any_in_true. exists kw. split; [assumption|].
  apply contains_join with (n := Str.lower (ingredient_name ing));
    [|assumption].
  apply ingredient_names_in; [assumption|].
  intros E. rewrite E in Hc. apply contains_empty_r in Hc. subst kw.
  apply mem_true in Hkw. congruence.
Qed.

Lemma manifest_has_app (k1 k2 : list string) (r : recipe) :
  manifest_has (k1 ++ k2) r -> manifest_has k1 r \/ manifest_has k2 r.
Proof.
  intros (ing & kw & Hin & Hkw & Hrest).
  apply in_app_or in Hkw. destruct Hkw; [left | right]; exists ing, kw; tauto.
Qed.

Lemma is_vegetarian_in (s : settings) :
  In "vegetarian" (get (dietary_requirements s) []) -> is_vegetarian s = true.
Proof.
  intros H. unfold is_vegetarian, dietary_lower. apply mem_true.
  change "vegetarian" with (Str.lower "vegetarian") at 1.
  now apply in_map.
Qed.

(** ** The pipeline as a map over the candidates *)

Lemma final_recommendations_app (s : settings) (a b : list recipe) :
  final_recommendations s (a ++ b) =
  final_recommendations s a ++ final_recommendations s b.
Proof. unfold final_recommendations. apply flat_map_app. Qed.

(** A discarded candidate leaves no trace in the list of recommendations. *)
Lemma final_recommendations_drop (s : settings) (r : recipe)
  (before after : list recipe) :
  process_one s r = None ->
  final_recommendations s (before ++ r :: after) =
  final_recommendations s (before ++ after).
Proof.
  intros H. rewrite !final_recommendations_app. f_equal.
  unfold final_recommendations at 1. cbn [flat_map]. now rewrite H.
Qed.

Lemma final_recommendations_in (s : settings) (raws : list recipe)
  (rec : recommendation) :
  In rec (final_recommendations s raws) <->
  exists r, In r raws /\ process_one s r = Some rec.
Proof.
  unfold final_recommendations. rewrite in_flat_map. split.
  - intros (r & Hin & H). exists r. split; [assumption|].
    destruct (process_one s r); [|contradiction].
    destruct H as [->|[]]. reflexivity.
  - intros (r & Hin & H). exists r. split; [assumption|].
    rewrite H. now left.
Qed.

Lemma insert_desc_in (x y : recommendation) (l : list recommendation) :
  In y (insert_desc x l) <-> y = x \/ In y l.
Proof.
  induction l as [|z l IH]; cbn [insert_desc].
  - simpl. intuition.
  - destruct (rec_match_confidence z <=? rec_match_confidence x).
    + simpl. intuition.
    + cbn [In]. rewrite IH. intuition.
Qed.

(** Sorting keeps the elements. *)
Lemma sort_desc_in (y : recommendation) (l : list recommendation) :
  In y (sort_desc l) <-> In y l.
Proof.
  induction l as [|x l IH]; [reflexivity|].
  unfold sort_desc in *. cbn [fold_right]. rewrite insert_desc_in, IH.
  simpl. intuition.
Qed.

Lemma engine_settings_dietary (s : settings) (ip : option (list string)) :
  dietary_requirements (engine_settings s ip) = dietary_requirements s.
Proof.
  unfold engine_settings.
  destruct ip as [[|i l]|]; try reflexivity.
  destruct (intolerances s); reflexivity.
Qed.

Lemma engine_settings_mood (s : settings) (ip : option (list string)) :
  mood (engine_settings s ip) = mood s.
Proof.
  unfold engine_settings.
  destruct ip as [[|i l]|]; try reflexivity.
  destruct (intolerances s); reflexivity.
Qed.

(** The recipes that [run_pantry_chef] returns: process, enforce, then the
    LLM pass. *)
Lemma run_pantry_chef_recipes (s : settings) (ip : option (list string))
  (ai : bool) (g : option pitch_oracle) (raws : list recipe) :
  recipes (run_pantry_chef s ip ai g raws) =
  fst (external_enrich s ai g
         (enforce (process_results (engine_settings s ip) raws))).
Proof.
  destruct raws as [|r raws].
  - cbn. destruct ai; reflexivity.
  - unfold run_pantry_chef.
    destruct (external_enrich s ai g
                (enforce (process_results (engine_settings s ip) (r :: raws))))
      as [final p].
    reflexivity.
Qed.

(** The LLM pass only filters by title. *)
Lemma external_enrich_filter (s : settings) (ai : bool)
  (g : option pitch_oracle) (safe : list recommendation) :
  fst (external_enrich s ai g safe) =
  filter (fun r => negb (Str.mem (rec_title r) (llm_rejected s ai g safe)))
    safe.
Proof.
  assert (Hid : forall l : list recommendation,
             l = filter (fun r => negb (Str.mem (rec_title r) [])) l).
  { induction l as [|x l IH]; [reflexivity|]. cbn. now f_equal. }
  unfold external_enrich, llm_rejected.
  destruct ai; [|apply Hid].
  destruct safe as [|x safe]; [reflexivity|].
  destruct g as [gen|]; [|apply Hid].
  destruct (gen (firstn 3 (x :: safe)) (get (mood s) "casual"))
    as [[|c p]|]; try apply Hid.
  destruct (Pitch.rejected_recipe_titles (String c p) (firstn 3 (x :: safe)));
    [apply Hid | reflexivity].
Qed.

(** ** C1: vegetarian and meat *)

Lemma diet_reject_verdict (a b : string) :
  verdict (diet_reject a b) = HardReject /\
  passed (diet_reject a b) = false /\
  safety_score (diet_reject a b) = Some 0%Q.
Proof. repeat split. Qed.

(** With a vegetarian requirement the diet block rejects as soon as the
    ingredient text holds a land-meat or sea-meat keyword. *)
Lemma diet_check_vegetarian (s : settings) (r : recipe) :
  is_vegetarian s = true ->
  Str.any_in LAND_MEAT (Str.join " " (ingredient_names (manifest r))) = true
  \/ Str.any_in SEA_MEAT (Str.join " " (ingredient_names (manifest r))) = true ->
  exists a b, diet_check s r = Some (diet_reject a b).
Proof.
  intros Hv H. unfold diet_check, meat_reject. rewrite Hv. cbn [orb].
  destruct (Str.any_in LAND_MEAT _); [eauto|].
  destruct H as [H|H]; [discriminate|]. rewrite H. eauto.
Qed.

(** C1.  When the dietary requirements include "vegetarian" and the manifest
    of a candidate contains a land-meat or sea-meat keyword, the safety check
    returns a HardReject (passed = false, safety score 0.0), the pipeline
    discards the candidate, and the list that the orchestrator returns is the
    one it returns without that candidate: the candidate is absent from the
    final output. *)
Theorem vegetarian_meat_hard_reject (s : settings) (r : recipe) :
  In "vegetarian" (get (dietary_requirements s) []) ->
  manifest_has (LAND_MEAT ++ SEA_MEAT) r ->
  (verdict (_apply_safety_check s r) = HardReject /\
   passed (_apply_safety_check s r) = false /\
   safety_score (_apply_safety_check s r) = Some 0%Q) /\
  forall (ip : option (list string)) (ai : bool) (g : option pitch_oracle)
         (before after : list recipe),
    process_one (engine_settings s ip) r = None /\
    recipes (run_pantry_chef s ip ai g (before ++ r :: after)) =
    recipes (run_pantry_chef s ip ai g (before ++ after)).
Proof.
  intros Hveg Hmeat.
  assert (Htext :
    Str.any_in LAND_MEAT (Str.join " " (ingredient_names (manifest r))) = true
    \/ Str.any_in SEA_MEAT (Str.join " " (ingredient_names (manifest r)))
       = true).
  { destruct (manifest_has_app _ _ _ Hmeat) as [H|H];
      [left | right]; now apply manifest_has_text. }
  assert (Hcheck : forall s', In "vegetarian" (get (dietary_requirements s') []) ->
            exists a b, _apply_safety_check s' r = diet_reject a b).
  { intros s' Hv.
    destruct (diet_check_vegetarian s' r (is_vegetarian_in s' Hv) Htext)
      as (a & b & E).
    exists a, b. unfold _apply_safety_check. now rewrite E. }
  split.
  - destruct (Hcheck s Hveg) as (a & b & E). rewrite E.
    apply diet_reject_verdict.
  - intros ip ai g before after.
    assert (Hone : process_one (engine_settings s ip) r = None).
    { unfold process_one.
      destruct (is_vegetarian (engine_settings s ip) && _); [reflexivity|].
      destruct (Hcheck (engine_settings s ip)) as (a & b & E).
      - now rewrite engine_settings_dietary.
      - rewrite E. reflexivity. }
    split; [exact Hone|].
    rewrite !run_pantry_chef_recipes. unfold process_results.
    now rewrite (final_recommendations_drop _ _ _ _ Hone).
Qed.

Lemma vegetarian_meat_hard_reject_witness :
  verdict (_apply_safety_check (settings_of ["vegetarian"] [])
             (recipe_of "Mushroom Surprise" ["chicken broth"; "rice"]))
  = HardReject.
Proof.
  apply (vegetarian_meat_hard_reject (settings_of ["vegetarian"] [])
           (recipe_of "Mushroom Surprise" ["chicken broth"; "rice"])).
  - simpl. left. reflexivity.
  - exists (IngDict [("name", "chicken broth")]), "chicken".
    repeat split; simpl; auto.
Defined.

(** ** C2: what the safety decision reads *)

Lemma manifest_with_title_summary (t sm : option string) (r : recipe) :
  manifest (with_title_summary t sm r) = manifest r.
Proof. reflexivity. Qed.

(** The diet block reads the manifest only. *)
Lemma diet_check_with_title_summary (s : settings) (r : recipe)
  (t sm : option string) :
  diet_check s (with_title_summary t sm r) = diet_check s r.
Proof. reflexivity. Qed.

(** Without intolerances the second half of the check is constant. *)
Lemma intolerance_check_none (s : settings) (r : recipe) :
  get (intolerances s) [] = [] -> intolerance_check s r = safe_result.
Proof. intros H. unfold intolerance_check. now rewrite H. Qed.

(** C2, as the code has it.  The diet block of the safety check reads the
    ingredient manifest only: it gives the same answer for two candidates that
    differ in title and summary.  The whole safety check never reads the
    summary.  It reads the title in the intolerance scan only, so when no
    intolerance is requested the verdict is the same for two candidates that
    differ in title and summary only; and when moreover "vegetarian" is not
    requested (the pre-filter of the pipeline is off) such candidates are
    both kept or both discarded by the pipeline. *)
Theorem safety_check_title_summary :
  (forall (s : settings) (r : recipe) (t sm : option string),
      diet_check s (with_title_summary t sm r) = diet_check s r) /\
  (forall (s : settings) (r : recipe) (sm : option string),
      _apply_safety_check s (with_title_summary (title r) sm r) =
      _apply_safety_check s r) /\
  (forall (s : settings) (r : recipe) (t sm : option string),
      get (intolerances s) [] = [] ->
      _apply_safety_check s (with_title_summary t sm r) =
      _apply_safety_check s r /\
      (is_vegetarian s = false ->
       is_some (process_one s (with_title_summary t sm r)) =
       is_some (process_one s r))).
Proof.
  split; [|split].
  - intros. apply diet_check_with_title_summary.
  - intros. reflexivity.
  - intros s r t sm Hno.
    assert (Hsame : _apply_safety_check s (with_title_summary t sm r) =
                    _apply_safety_check s r).
    { unfold _apply_safety_check.
      rewrite diet_check_with_title_summary.
      destruct (diet_check s r); [reflexivity|].
      now rewrite !intolerance_check_none. }
    split; [exact Hsame|].
    intros Hveg. unfold process_one. rewrite Hveg, Hsame. cbn [andb].
    destruct (passed (_apply_safety_check s r)); reflexivity.
Qed.

Lemma safety_check_title_summary_witness :
  _apply_safety_check (settings_of ["vegan"] [])
    (with_title_summary (Some "Chicken-Style Mushroom Shawarma") None
       (recipe_of "Mushroom Shawarma" ["mushroom"; "pita"])) =
  _apply_safety_check (settings_of ["vegan"] [])
    (recipe_of "Mushroom Shawarma" ["mushroom"; "pita"]).
Proof.
  destruct safety_check_title_summary as (_ & _ & H).
  apply (H (settings_of ["vegan"] [])
           (recipe_of "Mushroom Shawarma" ["mushroom"; "pita"])).
  reflexivity.
Defined.

(** The claim as the specification words it fails: with a dairy intolerance,
    a candidate whose only ingredient is tofu is safe under the title
    "Tofu Bowl" and hard-rejected under the title "Cheese Lovers Tofu Bowl";
    with a vegetarian requirement the pipeline keeps "Mushroom Shawarma" and
    discards the same candidate titled "Chicken-Style Mushroom Shawarma". *)
Lemma title_changes_safety_verdict :
  let r := recipe_of "Tofu Bowl" ["tofu"] in
  let r' := with_title_summary (Some "Cheese Lovers Tofu Bowl") (summary r) r in
  let m := recipe_of "Mushroom Shawarma" ["mushroom"; "pita"] in
  let m' := with_title_summary (Some "Chicken-Style Mushroom Shawarma")
              (summary m) m in
  manifest r' = manifest r /\
  verdict (_apply_safety_check (settings_of [] ["dairy"]) r) = Safe /\
  verdict (_apply_safety_check (settings_of [] ["dairy"]) r') = HardReject /\
  is_some (process_one (settings_of [] ["dairy"]) r) = true /\
  is_some (process_one (settings_of [] ["dairy"]) r') = false /\
  verdict (_apply_safety_check (settings_of ["vegetarian"] []) m') = Safe /\
  is_some (process_one (settings_of ["vegetarian"] []) m) = true /\
  is_some (process_one (settings_of ["vegetarian"] []) m') = false.
Proof. vm_compute. repeat split. Qed.

(** ** C3: the intolerance scan returns at its first hit *)

Lemma scan_keywords_none (i : string) (kws : list string) (text : string)
  (names : list string) :
  Str.any_in kws text = false -> scan_keywords i kws text names = None.
Proof.
  induction kws as [|kw kws IH]; [reflexivity|].
  cbn [Str.any_in existsb scan_keywords]. intros H.
  apply orb_false_iff in H. destruct H as [H1 H2].
  rewrite H1. now apply IH.
Qed.

Lemma scan_keywords_hit (i : string) (kws : list string) (text : string)
  (names : list string) :
  Str.any_in kws text = true ->
  exists kw, In kw kws /\ Str.contains kw text = true /\
             scan_keywords i kws text names =
             Some (hit_result i kw text names).
Proof.
  induction kws as [|kw kws IH]; [discriminate|].
  cbn [Str.any_in existsb scan_keywords]. intros H.
  destruct (Str.contains kw text) eqn:E.
  - exists kw. repeat split; [now left | assumption].
  - destruct (IH H) as (kw' & Hin & Hc & Hs).
    exists kw'. repeat split; [now right | assumption | assumption].
Qed.


Lemma hit_result_safe (i kw text : string) (names : list string) :
  Str.any_in (SAFE_WORDS (Str.lower i)) text = true ->
  hit_result i kw text names = soft_flag i kw names.
Proof. intros H. unfold hit_result. now rewrite H. Qed.

Lemma hit_result_unsafe (i kw text : string) (names : list string) :
  Str.any_in (SAFE_WORDS (Str.lower i)) text = false ->
  hit_result i kw text names = hard_cutoff i kw names.
Proof. intros H. unfold hit_result. now rewrite H. Qed.


Lemma soft_flag_kept (i kw : string) (names : list string)
  (rec : recommendation) :
  md_safety_check (_metadata rec) = soft_flag i kw names ->
  enforcer_keeps rec = true.
Proof. intros H. unfold enforcer_keeps. rewrite H. reflexivity. Qed.

(** The scan when every intolerance that has a keyword in the text also has
    a safe word there: the first of them is flagged. *)
Lemma scan_intolerances_all_soft (intols : list string) (text : string)
  (names : list string) :
  (exists i, In i intols /\
             Str.any_in (ALLERGY_MAP (Str.lower i)) text = true) ->
  (forall i, In i intols ->
             Str.any_in (ALLERGY_MAP (Str.lower i)) text = true ->
             Str.any_in (SAFE_WORDS (Str.lower i)) text = true) ->
  exists i kw, scan_intolerances intols text names
               = Some (soft_flag i kw names).
Proof.
  induction intols as [|b l IH]; intros (i & Hi & Hhit) Hall;
    [destruct Hi|].
  cbn [scan_intolerances].
  destruct (Str.any_in (ALLERGY_MAP (Str.lower b)) text) eqn:Eb.
  - destruct (scan_keywords_hit b _ text names Eb) as (kw & _ & _ & ->).
    exists b, kw. f_equal. apply hit_result_safe.
    apply Hall; [now left | exact Eb].
  - rewrite (scan_keywords_none b _ text names Eb).
    apply IH.
    + destruct Hi as [<-|Hi]; [congruence|]. now exists i.
    + intros j Hj. apply Hall. now right.
Qed.

(** The scan when an intolerance has a keyword and no safe word in the text,
    and so has every intolerance before it that has a keyword: the first of
    them is cut off. *)
Lemma scan_intolerances_hard (before after : list string) (intol : string)
  (text : string) (names : list string) :
  (forall i, In i before ->
             Str.any_in (ALLERGY_MAP (Str.lower i)) text = true ->
             Str.any_in (SAFE_WORDS (Str.lower i)) text = false) ->
  Str.any_in (ALLERGY_MAP (Str.lower intol)) text = true ->
  Str.any_in (SAFE_WORDS (Str.lower intol)) text = false ->
  exists i kw, scan_intolerances (before ++ intol :: after) text names
               = Some (hard_cutoff i kw names).
Proof.
  intros Hbefore Hhit Hsafe.
  induction before as [|b l IH]; cbn [app scan_intolerances].
  - destruct (scan_keywords_hit intol _ text names Hhit) as (kw & _ & _ & ->).
    exists intol, kw. f_equal. now apply hit_result_unsafe.
  - destruct (Str.any_in (ALLERGY_MAP (Str.lower b)) text) eqn:Eb.
    + destruct (scan_keywords_hit b _ text names Eb) as (kw & _ & _ & ->).
      exists b, kw. f_equal. apply hit_result_unsafe.
      apply Hbefore; [now left | exact Eb].
    + rewrite (scan_keywords_none b _ text names Eb).
      apply IH. intros j Hj. apply Hbefore. now right.
Qed.

(** What the scan returns is what the safety check returns, when the diet
    block rejects nothing. *)
Lemma safety_check_scan (s : settings) (r : recipe) (d : safety_result) :
  diet_check s r = None ->
  scan_intolerances (get (intolerances s) []) (recipe_text r)
    (ingredient_names (manifest r)) = Some d ->
  _apply_safety_check s r = d.
Proof.
  intros Hdiet Hscan. unfold _apply_safety_check, intolerance_check.
  rewrite Hdiet.
  destruct (get (intolerances s) []) as [|i l]; [discriminate Hscan|].
  now rewrite Hscan.
Qed.

(** C3, as the code has it by design.  When the diet block rejects nothing,
    some requested intolerance has a keyword in the title-plus-ingredients
    text, and every requested intolerance that has a keyword there also has
    one of its safe words there, the check returns a SoftFlag: passed = true,
    requires_ai_validation = true, safety score 0.5; unless the vegetarian
    pre-filter discards the candidate, the pipeline then assembles a
    recommendation that carries this very dict in [_metadata.safety_check],
    the enforcer keeps it, and it is in the list that the orchestrator returns
    whenever the LLM pass does not reject its title.  A requested intolerance
    that has a keyword and no safe word in the text yields a HardReject
    (passed = false), provided that no intolerance requested before it has
    both a keyword and a safe word in the text; what the check returns in
    that last case is not stated here. *)
Theorem intolerance_hit_verdict (s : settings) (r : recipe) :
  diet_check s r = None ->
  ((exists i, In i (get (intolerances s) []) /\ keyword_hit i r = true) ->
   (forall i, In i (get (intolerances s) []) ->
              keyword_hit i r = true -> safe_word_present i r = true) ->
   (verdict (_apply_safety_check s r) = SoftFlag /\
    passed (_apply_safety_check s r) = true /\
    requires_ai_validation (_apply_safety_check s r) = Some true /\
    safety_score (_apply_safety_check s r) = Some (1 # 2)%Q) /\
   (prefilter_discards s r = false ->
    exists rec,
      process_one s r = Some rec /\
      md_safety_check (_metadata rec) = _apply_safety_check s r /\
      forall raws, In r raws ->
        In rec (enforce (process_results s raws)) /\
        forall s0 ip ai g,
          engine_settings s0 ip = s ->
          Str.mem (rec_title rec)
            (llm_rejected s0 ai g (enforce (process_results s raws))) = false ->
          In rec (recipes (run_pantry_chef s0 ip ai g raws)))) /\
  (forall before intol after,
      get (intolerances s) [] = before ++ intol :: after ->
      (forall i, In i before ->
                 keyword_hit i r = true -> safe_word_present i r = false) ->
      keyword_hit intol r = true ->
      safe_word_present intol r = false ->
      verdict (_apply_safety_check s r) = HardReject /\
      passed (_apply_safety_check s r) = false).
Proof.
  intros Hdiet. split.
  - intros Hsome Hall.
    destruct (scan_intolerances_all_soft _ (recipe_text r)
                (ingredient_names (manifest r)) Hsome Hall)
      as (i & kw & Hscan).
    pose proof (safety_check_scan s r _ Hdiet Hscan) as Hres.
    split; [rewrite Hres; repeat split|].
    intros Hpre.
    assert (Hone : process_one s r =
              Some (_clean_data s r (_calculate_smart_score s r)
                      (_apply_reasoning_with_penalties s r
                         (smart_score (_calculate_smart_score s r))
                         (_apply_soft_filters_with_penalties s r))
                      (_apply_soft_filters_with_penalties s r)
                      (_apply_safety_check s r))).
    { unfold process_one. fold (prefilter_discards s r).
      rewrite Hpre, Hres. reflexivity. }
    eexists. split; [exact Hone|]. split; [reflexivity|].
    intros raws Hin.
    assert (Henf : In (_clean_data s r (_calculate_smart_score s r)
                      (_apply_reasoning_with_penalties s r
                         (smart_score (_calculate_smart_score s r))
                         (_apply_soft_filters_with_penalties s r))
                      (_apply_soft_filters_with_penalties s r)
                      (_apply_safety_check s r))
                     (enforce (process_results s raws))).
    { unfold enforce. apply filter_In. split.
      - unfold process_results. apply sort_desc_in.
        apply final_recommendations_in. exists r. now split.
      - apply (soft_flag_kept i kw (ingredient_names (manifest r))).
        cbn [_metadata _clean_data md_safety_check _build_metadata_dict].
        exact Hres. }
    split; [exact Henf|].
    intros s0 ip ai g Hs Hrej.
    rewrite run_pantry_chef_recipes, external_enrich_filter, Hs.
    apply filter_In. split; [exact Henf|].
    rewrite Hrej. reflexivity.
  - intros before intol after Hints Hbefore Hhit Hsafe.
    destruct (scan_intolerances_hard before after intol (recipe_text r)
                (ingredient_names (manifest r)) Hbefore Hhit Hsafe)
      as (i & kw & Hscan).
    rewrite <- Hints in Hscan.
    rewrite (safety_check_scan s r _ Hdiet Hscan). split; reflexivity.
Qed.

(** Scenario 3: a dairy intolerance and the ingredients almond milk and
    pasta. *)
Lemma intolerance_hit_verdict_witness :
  verdict (_apply_safety_check (settings_of [] ["dairy"])
             (recipe_of "Creamy Pasta" ["almond milk"; "pasta"])) = SoftFlag.
Proof.
  destruct (intolerance_hit_verdict (settings_of [] ["dairy"])
              (recipe_of "Creamy Pasta" ["almond milk"; "pasta"]) eq_refl)
    as [H _].
  destruct H as [H _].
  - exists "dairy". split; [now left | reflexivity].
  - intros i [<-|[]] _. reflexivity.
  - apply H.
Defined.

(** The claim as the specification words it fails twice.  With the
    intolerances gluten and dairy, the dairy keyword "milk" co-occurs with the
    safe word "almond", and yet the check returns a HardReject, for "pasta".
    With the dairy intolerance alone the check returns a SoftFlag, and a pitch
    of the LLM collaborator that reads "REJECTED" removes the candidate from
    the final output. *)
Lemma soft_flag_not_always_kept :
  let r := recipe_of "Creamy Pasta" ["almond milk"; "pasta"] in
  (In "dairy" (get (intolerances (settings_of [] ["gluten"; "dairy"])) []) /\
   keyword_hit "dairy" r = true /\
   safe_word_present "dairy" r = true /\
   verdict (_apply_safety_check (settings_of [] ["gluten"; "dairy"]) r)
   = HardReject) /\
  (verdict (_apply_safety_check (settings_of [] ["dairy"]) r) = SoftFlag /\
   recipes (run_pantry_chef (settings_of [] ["dairy"]) None true
              (Some (fun _ _ => Some "REJECTED")) [r]) = []).
Proof.
  cbv zeta. split.
  - split; [right; left; reflexivity|]. vm_compute. repeat split.
  - vm_compute. repeat split.
Qed.

(** Where the scan departs from its own docstring ("Rejects Hard
    Offenders"): it returns at the first keyword that it finds, also on the
    branch that flags.  With the intolerances dairy and gluten, "milk" is
    flagged for the safe word "almond" and the scan never reaches "pasta",
    which has no safe word. *)
Example later_hard_offender_not_reached :
  let s := settings_of [] ["dairy"; "gluten"] in
  let r := recipe_of "Creamy Pasta" ["almond milk"; "pasta"] in
  keyword_hit "gluten" r = true /\
  safe_word_present "gluten" r = false /\
  verdict (_apply_safety_check s r) = SoftFlag.
Proof. vm_compute. repeat split. Qed.

(** ** C4: the vegan branch *)

Lemma meat_reject_some (diet text : string) (d : safety_result) :
  meat_reject diet text = Some d -> exists a b, d = diet_reject a b.
Proof.
  unfold meat_reject. intros H.
  destruct (Str.any_in LAND_MEAT text);
    [|destruct (Str.any_in SEA_MEAT text); [|discriminate]];
    injection H as <-; eauto.
Qed.

(** Every early return of the diet block is a diet rejection. *)
Lemma diet_check_some (s : settings) (r : recipe) (d : safety_result) :
  diet_check s r = Some d -> exists a b, d = diet_reject a b.
Proof.
  unfold diet_check. intros H.
  destruct (is_vegetarian s || is_vegan s || is_pescatarian s);
    [|discriminate].
  destruct (is_vegetarian s); [now apply meat_reject_some in H|].
  destruct (is_vegan s).
  - destruct (meat_reject "vegan" _) eqn:E.
    + injection H as <-. now apply meat_reject_some in E.
    + destruct (Str.any_in DAIRY_EGGS _); [|discriminate].
      destruct (negb _); [|discriminate]. injection H as <-. eauto.
  - destruct (is_pescatarian s); [|discriminate].
    destruct (Str.any_in LAND_MEAT _); [|discriminate].
    injection H as <-. eauto.
Qed.

Lemma is_vegan_in (s : settings) :
  In "vegan" (get (dietary_requirements s) []) -> is_vegan s = true.
Proof.
  intros H. unfold is_vegan, dietary_lower. apply mem_true.
  change "vegan" with (Str.lower "vegan") at 1.
  now apply in_map.
Qed.

(** C4, as the code has it.  Under a vegan requirement (and no vegetarian
    one), a candidate whose manifest contains a dairy or egg keyword is
    rejected when no safe-alternative keyword occurs anywhere in the joined
    ingredient text; when such a keyword occurs anywhere in that text, be it
    in another ingredient, and the text holds no meat keyword, the diet block
    rejects nothing and the verdict is left to the intolerance scan. *)
Theorem vegan_dairy_safe_word_anywhere (s : settings) (r : recipe) :
  In "vegan" (get (dietary_requirements s) []) ->
  is_vegetarian s = false ->
  manifest_has DAIRY_EGGS r ->
  (Str.any_in (SAFE_WORDS "dairy" ++ SAFE_WORDS "eggs")
     (Str.join " " (ingredient_names (manifest r))) = false ->
   verdict (_apply_safety_check s r) = HardReject /\
   passed (_apply_safety_check s r) = false /\
   safety_score (_apply_safety_check s r) = Some 0%Q) /\
  (Str.any_in (SAFE_WORDS "dairy" ++ SAFE_WORDS "eggs")
     (Str.join " " (ingredient_names (manifest r))) = true ->
   meat_reject "vegan" (Str.join " " (ingredient_names (manifest r))) = None ->
   diet_check s r = None /\
   _apply_safety_check s r = intolerance_check s r).
Proof.
  intros Hvegan Hveg Hdairy.
  apply is_vegan_in in Hvegan.
  apply manifest_has_text in Hdairy; [|reflexivity].
  split.
  - intros Hsafe.
    assert (E : exists a b, diet_check s r = Some (diet_reject a b)).
    { unfold diet_check. rewrite Hveg, Hvegan. cbn [orb].
      destruct (meat_reject "vegan" _) eqn:Em.
      - destruct (meat_reject_some _ _ _ Em) as (a & b & ->). eauto.
      - rewrite Hdairy, Hsafe. cbn [negb]. eauto. }
    destruct E as (a & b & E). unfold _apply_safety_check. rewrite E.
    apply diet_reject_verdict.
  - intros Hsafe Hmeat.
    assert (E : diet_check s r = None).
    { unfold diet_check. rewrite Hveg, Hvegan. cbn [orb].
      now rewrite Hmeat, Hdairy, Hsafe. }
    split; [exact E|]. unfold _apply_safety_check. now rewrite E.
Qed.

Lemma vegan_dairy_safe_word_anywhere_witness :
  verdict (_apply_safety_check (settings_of ["vegan"] [])
             (recipe_of "Toast" ["butter"; "olive oil"])) = HardReject.
Proof.
  destruct (vegan_dairy_safe_word_anywhere (settings_of ["vegan"] [])
              (recipe_of "Toast" ["butter"; "olive oil"])) as [H _].
  - simpl. left. reflexivity.
  - reflexivity.
  - exists (IngDict [("name", "butter")]), "butter".
    repeat split; simpl; tauto.
  - apply H. reflexivity.
Defined.

(** The claim as the specification words it fails: under a vegan requirement
    the candidate with the ingredients "butter" and "coconut oil" is not
    rejected, although the ingredient that holds the dairy keyword holds no
    safe word and "coconut" occurs in another ingredient only. *)
Lemma vegan_safe_word_in_other_ingredient :
  let s := settings_of ["vegan"] [] in
  let r := recipe_of "Toast" ["butter"; "coconut oil"] in
  ingredient_names (manifest r) = ["butter"; "coconut oil"] /\
  Str.any_in DAIRY_EGGS "butter" = true /\
  Str.any_in (SAFE_WORDS "dairy" ++ SAFE_WORDS "eggs") "butter" = false /\
  Str.any_in (SAFE_WORDS "dairy" ++ SAFE_WORDS "eggs") "coconut oil" = true /\
  passed (_apply_safety_check s r) = true /\
  verdict (_apply_safety_check s r) = Safe /\
  is_some (process_one s r) = true.
Proof. vm_compute. repeat split. Qed.

(** ** C10: the safe word is looked for in the whole text *)

Lemma scan_keywords_some (i : string) (kws : list string) (text : string)
  (names : list string) (d : safety_result) :
  scan_keywords i kws text names = Some d ->
  exists kw, In kw kws /\ Str.contains kw text = true /\
             d = hit_result i kw text names.
Proof.
  induction kws as [|kw kws IH]; [discriminate|].
  cbn [scan_keywords]. destruct (Str.contains kw text) eqn:E.
  - intros H. injection H as <-. exists kw. repeat split; [now left | assumption].
  - intros H. destruct (IH H) as (kw' & Hin & Hc & Hd).
    exists kw'. repeat split; [now right | assumption | assumption].
Qed.

Lemma scan_intolerances_some (intols : list string) (text : string)
  (names : list string) (d : safety_result) :
  scan_intolerances intols text names = Some d ->
  exists i kw, In i intols /\ In kw (ALLERGY_MAP (Str.lower i)) /\
               Str.contains kw text = true /\
               d = hit_result i kw text names.
Proof.
  induction intols as [|i intols IH]; [discriminate|].
  cbn [scan_intolerances].
  destruct (scan_keywords i _ text names) eqn:E.
  - intros H. injection H as <-.
    destruct (scan_keywords_some _ _ _ _ _ E) as (kw & Hin & Hc & Hd).
    exists i, kw. repeat split; [now left | assumption | assumption | assumption].
  - intros H. destruct (IH H) as (i' & kw & Hi & Hin & Hc & Hd).
    exists i', kw. repeat split; [now right | assumption | assumption | assumption].
Qed.

(** The three shapes of what the safety check returns. *)
Lemma safety_check_shapes (s : settings) (r : recipe) :
  (exists a b, _apply_safety_check s r = diet_reject a b) \/
  _apply_safety_check s r = safe_result \/
  exists i kw, In i (get (intolerances s) []) /\
               In kw (ALLERGY_MAP (Str.lower i)) /\
               Str.contains kw (recipe_text r) = true /\
               _apply_safety_check s r =
               hit_result i kw (recipe_text r) (ingredient_names (manifest r)).
Proof.
  unfold _apply_safety_check.
  destruct (diet_check s r) eqn:E.
  - left. now apply diet_check_some in E.
  - right. unfold intolerance_check.
    destruct (get (intolerances s) []) as [|x l] eqn:Ei; [now left|].
    destruct (scan_intolerances (x :: l) _ _) eqn:Es; [|now left].
    right. destruct (scan_intolerances_some _ _ _ _ Es)
      as (i & kw & Hi & Hin & Hc & Hd).
    exists i, kw. repeat split; assumption.
Qed.




(** ** C5: the filter chain is soft *)

Ltac split_ifs :=
  repeat match goal with
         | |- context [if ?b then _ else _] => destruct b eqn:?
         | |- context [match ?l with easy => _ | medium => _ | hard => _ end] =>
             destruct l eqn:?
         end.

(** A failed time check has an estimate, and the estimate is over the limit. *)
Lemma time_check_failed (r : recipe) (max_time0 : Z) :
  tc_passed (_check_time_limit r max_time0) = false ->
  exists t, tc_estimate (_check_time_limit r max_time0) = Some t /\
            max_time0 < t.
Proof.
  unfold _check_time_limit. cbn [tc_passed tc_estimate].
  destruct (readyInMinutes r) as [t|]; [|discriminate].
  intros H. apply Z.leb_gt in H. eauto.
Qed.

Lemma missing_check_failed (missed_count max_missing : Z) :
  mc_passed (_check_missing_limit missed_count max_missing) = false ->
  0 < mc_count (_check_missing_limit missed_count max_missing)
      - mc_max_allowed (_check_missing_limit missed_count max_missing).
Proof.
  unfold _check_missing_limit. cbn. intros H. apply Z.leb_gt in H. lia.
Qed.

(** The penalty is the sum of the four contributions. *)
Lemma penalty_score_sum (s : settings) (r : recipe) :
  penalty_score (_apply_soft_filters_with_penalties s r) =
  (if dc_passed (_assess_difficulty r (get (max_difficulty s) "hard"))
   then 0 else 15)
  + (if tc_passed (_check_time_limit r (get (max_time_minutes s) 120)) then 0
     else match readyInMinutes r with
          | Some t => Z.min ((t - get (max_time_minutes s) 120) * 2) 30
          | None => 10
          end)
  + (if mc_passed (_check_missing_limit (get (missedIngredientCount r) 0)
                     (max_missing_ingredients s))
     then 0
     else (get (missedIngredientCount r) 0 - max_missing_ingredients s) * 5)
  + (if dt_passed (_check_dietary_requirements r
                     (get (dietary_requirements s) []) [])
     then 0 else 10).
Proof.
  unfold _apply_soft_filters_with_penalties.
  destruct (dc_passed _), (tc_passed _), (mc_passed _), (dt_passed _);
    cbn [negb penalty_score tc_estimate tc_max_allowed _check_time_limit
         mc_count mc_max_allowed _check_missing_limit];
    destruct (readyInMinutes r); lia.
Qed.

Lemma penalty_score_nonneg (s : settings) (r : recipe) :
  0 <= penalty_score (_apply_soft_filters_with_penalties s r).
Proof.
  rewrite penalty_score_sum.
  pose proof (time_check_failed r (get (max_time_minutes s) 120)) as Ht.
  pose proof (missing_check_failed (get (missedIngredientCount r) 0)
                (max_missing_ingredients s)) as Hm.
  destruct (dc_passed _), (tc_passed _), (mc_passed _), (dt_passed _);
    try (destruct Ht as (t & Et & Hlt); [reflexivity|];
         cbn in Et; rewrite Et);
    try (specialize (Hm eq_refl); cbn in Hm);
    lia.
Qed.

(** C5.  For every candidate and every settings the filter chain returns
    passed = true at the top level, whatever the difficulty, time,
    missing-ingredient and dietary sub-checks say, and its cumulative penalty
    score is non-negative. *)
Theorem soft_filters_always_pass (s : settings) (r : recipe) :
  f_passed (_apply_soft_filters_with_penalties s r) = true /\
  0 <= penalty_score (_apply_soft_filters_with_penalties s r).
Proof.
  split; [|apply penalty_score_nonneg].
  unfold _apply_soft_filters_with_penalties.
  destruct (dc_passed _), (tc_passed _), (mc_passed _), (dt_passed _);
    reflexivity.
Qed.

(** ** C6: the confidence stays between 50 and 95 *)

(** The base confidence: 75 plus the bonuses, capped at 95. *)
Lemma base_confidence_bounds (s : settings) (r : recipe) (smart : Q)
  (fr : filter_result) :
  75 <= br_confidence (_apply_reasoning s r smart fr) <= 95.
Proof.
  unfold _apply_reasoning. cbn [br_confidence].
  split_ifs; lia.
Qed.

(** The bonuses are never negative, and the base confidence is 75 plus the
    bonuses, capped at 95. *)
Lemma base_confidence_formula (s : settings) (r : recipe) (smart : Q)
  (fr : filter_result) :
  0 <= confidence_bonuses s r (dc_level (fr_difficulty (filter_results fr)))
  /\
  br_confidence (_apply_reasoning s r smart fr)
  = Z.min 95
      (75 + confidence_bonuses s r
              (dc_level (fr_difficulty (filter_results fr)))).
Proof.
  unfold _apply_reasoning, confidence_bonuses, engine_mood.
  cbn [br_confidence].
  destruct (dc_level (fr_difficulty (filter_results fr)));
    destruct (get (missedIngredientCount r) 0 <=? 1);
    destruct (truthy (readyInMinutes r));
    destruct (negb _);
    destruct (get (readyInMinutes r) 0 <=? _);
    destruct (get (readyInMinutes r) 0 <=? 20);
    destruct (String.eqb (get (mood s) "casual") "tired");
    cbn [andb]; split; lia.
Qed.

(** C6.  The confidence of the reasoning stage is the base 75 plus the
    bonuses (for a low missing count, an easy recipe, a recipe under the time
    limit, a quick recipe in the tired mood, and for all of the first three at
    once), capped at 95, and then reduced by the penalty of the filter chain
    with a floor of 50.  So the base confidence lies in [75, 95], and the
    confidence lies in [50, 95] for every penalty that is not negative,
    however large, and so for every candidate and every settings of the
    pipeline. *)
Theorem confidence_between_50_and_95 :
  (forall (s : settings) (r : recipe) (smart : Q) (fr : filter_result),
      let level := dc_level (fr_difficulty (filter_results fr)) in
      let base := br_confidence (_apply_reasoning s r smart fr) in
      let final := confidence (_apply_reasoning_with_penalties s r smart fr) in
      0 <= confidence_bonuses s r level /\
      base = Z.min 95 (75 + confidence_bonuses s r level) /\
      final = Z.max 50 (base - penalty_score fr) /\
      final = spec_confidence s r level (penalty_score fr) /\
      75 <= base <= 95 /\
      (0 <= penalty_score fr -> 50 <= final <= 95)) /\
  (forall (s : settings) (r : recipe),
      50 <= confidence
              (_apply_reasoning_with_penalties s r
                 (smart_score (_calculate_smart_score s r))
                 (_apply_soft_filters_with_penalties s r)) <= 95).
Proof.
  assert (H : forall s r smart fr,
             0 <= penalty_score fr ->
             50 <= confidence (_apply_reasoning_with_penalties s r smart fr)
             <= 95).
  { intros s r smart fr Hp.
    pose proof (base_confidence_bounds s r smart fr) as Hb.
    unfold _apply_reasoning_with_penalties. cbn [confidence]. lia. }
  split.
  - intros s r smart fr. cbv zeta.
    destruct (base_confidence_formula s r smart fr) as [Hbon Hbase].
    split; [exact Hbon|]. split; [exact Hbase|].
    split; [reflexivity|].
    split.
    { unfold spec_confidence. rewrite <- Hbase. reflexivity. }
    split; [apply base_confidence_bounds | apply H].
  - intros s r. apply H. apply penalty_score_nonneg.
Qed.

(** Scenario 4: forty minutes against a limit of thirty costs twenty points,
    and a penalty of a thousand still leaves a confidence of fifty. *)
Lemma confidence_between_50_and_95_witness :
  50 <= confidence
          (_apply_reasoning_with_penalties tired_settings slow_recipe 0%Q
             (with_penalty 1000
                (_apply_soft_filters_with_penalties tired_settings slow_recipe)))
     <= 95.
Proof.
  destruct confidence_between_50_and_95 as [H _].
  apply (H tired_settings slow_recipe 0%Q
           (with_penalty 1000
              (_apply_soft_filters_with_penalties tired_settings slow_recipe))).
  cbn. lia.
Defined.

Example scenario_4 :
  penalty_score (_apply_soft_filters_with_penalties tired_settings slow_recipe)
  = 20 /\
  confidence
    (_apply_reasoning_with_penalties tired_settings slow_recipe
       (smart_score (_calculate_smart_score tired_settings slow_recipe))
       (_apply_soft_filters_with_penalties tired_settings slow_recipe)) = 70 /\
  is_some (process_one tired_settings slow_recipe) = true.
Proof. vm_compute. repeat split. Qed.

(** ** Rounding to the nearest double is monotone *)

Section Binary64.

Local Open Scope Q_scope.

Lemma round_half_even_mono (x y : Q) :
  x <= y -> (Dec.round_half_even x <= Dec.round_half_even y)%Z.
Proof.
  intros Hxy. unfold Dec.round_half_even.
  pose proof (Qfloor_le x) as Hx1. pose proof (Qlt_floor x) as Hx2.
  pose proof (Qfloor_le y) as Hy1. pose proof (Qlt_floor y) as Hy2.
  pose proof (Qfloor_resp_le x y Hxy) as Hf.
  destruct (Z.eq_dec (Qfloor x) (Qfloor y)) as [E|NE].
  - rewrite <- E in *.
    destruct (Qcompare_spec (x - inject_Z (Qfloor x)) (1 # 2)) as [H1|H1|H1];
      destruct (Qcompare_spec (y - inject_Z (Qfloor x)) (1 # 2))
        as [H2|H2|H2];
      try (exfalso; lra); destruct (Z.even (Qfloor x)); lia.
  - destruct (Qcompare (x - inject_Z (Qfloor x)) (1 # 2));
      destruct (Qcompare (y - inject_Z (Qfloor y)) (1 # 2));
      destruct (Z.even (Qfloor x)); destruct (Z.even (Qfloor y)); lia.
Qed.

Lemma round_half_even_comp (x y : Q) :
  x == y -> Dec.round_half_even x = Dec.round_half_even y.
Proof.
  intros H. apply Z.le_antisymm; apply round_half_even_mono; rewrite H; apply Qle_refl.
Qed.

Lemma round_half_even_Z (n : Z) : Dec.round_half_even (inject_Z n) = n.
Proof.
  unfold Dec.round_half_even. rewrite Qfloor_Z.
  destruct (Qcompare_spec (inject_Z n - inject_Z n) (1 # 2)) as [H|H|H];
    [exfalso; lra | reflexivity | exfalso; lra].
Qed.

Lemma round_half_even_near (x : Q) :
  inject_Z (Dec.round_half_even x) - (1 # 2) <= x /\
  x <= inject_Z (Dec.round_half_even x) + (1 # 2).
Proof.
  unfold Dec.round_half_even.
  pose proof (Qfloor_le x) as H1. pose proof (Qlt_floor x) as H2.
  rewrite inject_Z_plus in H2. change (inject_Z 1) with 1 in H2.
  destruct (Qcompare_spec (x - inject_Z (Qfloor x)) (1 # 2)) as [H|H|H];
    [destruct (Z.even (Qfloor x))|..];
    rewrite ?inject_Z_plus; change (inject_Z 1) with 1; split; lra.
Qed.

Lemma pow2_pos (k : Z) : 0 < 2 ^ k.
Proof. apply Qpower_0_lt. reflexivity. Qed.

Lemma pow2_Z (k : Z) : (0 <= k)%Z -> inject_Z (2 ^ k) == 2 ^ k.
Proof. intros H. now rewrite Zpower_Qpower. Qed.

Lemma pow2_succ (k : Z) : 2 ^ (k + 1) == 2 * 2 ^ k.
Proof. rewrite Qpower_plus by discriminate. rewrite Qpower_1_r. ring. Qed.

Lemma pow2_pred (k : Z) : 2 ^ (k - 1) == 2 ^ k / 2.
Proof. rewrite Qpower_minus by discriminate. rewrite Qpower_1_r. reflexivity. Qed.

Lemma div_le_cross (p q r t : Q) :
  0 < q -> 0 < t -> p * t <= r * q -> p / q <= r / t.
Proof.
  intros Hq Ht H.
  apply Qle_shift_div_r; [assumption|].
  unfold Qdiv. rewrite <- Qmult_assoc, (Qmult_comm (/ t)), Qmult_assoc.
  apply Qle_shift_div_l; assumption.
Qed.

Lemma div_lt_cross (p q r t : Q) :
  0 < q -> 0 < t -> p * t < r * q -> p / q < r / t.
Proof.
  intros Hq Ht H.
  apply Qlt_shift_div_r; [assumption|].
  unfold Qdiv. rewrite <- Qmult_assoc, (Qmult_comm (/ t)), Qmult_assoc.
  apply Qlt_shift_div_l; assumption.
Qed.

(** The quotient of two positive integers lies between the neighbouring
    powers of two of the difference of their binary lengths. *)
Lemma log2_quotient (n : positive) (d : positive) :
  let k := (Z.log2 (Zpos n) - Z.log2 (Zpos d))%Z in
  2 ^ (k - 1) <= Zpos n # d /\ Zpos n # d < 2 ^ (k + 1).
Proof.
  cbv zeta.
  destruct (Z.log2_spec (Zpos n)) as [Hn1 Hn2]; [lia|].
  destruct (Z.log2_spec (Zpos d)) as [Hd1 Hd2]; [lia|].
  pose proof (Z.log2_nonneg (Zpos n)) as Han.
  pose proof (Z.log2_nonneg (Zpos d)) as Had.
  set (a := Z.log2 (Zpos n)) in *. set (b := Z.log2 (Zpos d)) in *.
  rewrite Zle_Qle, pow2_Z in Hn1 by lia.
  rewrite <- Z.add_1_r in Hn2.
  rewrite Zlt_Qlt, pow2_Z, pow2_succ in Hn2 by lia.
  rewrite Zle_Qle, pow2_Z in Hd1 by lia.
  rewrite <- Z.add_1_r in Hd2.
  rewrite Zlt_Qlt, pow2_Z, pow2_succ in Hd2 by lia.
  rewrite (Qmake_Qdiv (Zpos n) d).
  pose proof (pow2_pos a) as Pa. pose proof (pow2_pos b) as Pb.
  assert (Hd0 : 0 < inject_Z (Zpos d)) by (apply (Qlt_le_trans _ _ _ Pb Hd1)).
  replace (a - b - 1)%Z with (a - (b + 1))%Z by lia.
  replace (a - b + 1)%Z with ((a + 1) - b)%Z by lia.
  rewrite !Qpower_minus by discriminate. rewrite !pow2_succ.
  set (nq := inject_Z (Zpos n)) in *. set (dq := inject_Z (Zpos d)) in *.
  set (pa := 2 ^ a) in *. set (pb := 2 ^ b) in *.
  split.
  - apply div_le_cross; [lra | assumption | nra].
  - apply div_lt_cross; [assumption | assumption | nra].
Qed.

Lemma ilog2_bracket (x : Q) :
  0 < x -> 2 ^ F64.ilog2 x <= x /\ x < 2 ^ (F64.ilog2 x + 1).
Proof.
  intros Hx. destruct x as [n d].
  assert (Hn : (0 < n)%Z).
  { unfold Qlt in Hx. cbn in Hx. lia. }
  destruct n as [|n|n]; try lia.
  destruct (log2_quotient n d) as [H1 H2].
  unfold F64.ilog2. cbn [Qnum Qden].
  set (k := (Z.log2 (Z.pos n) - Z.log2 (Z.pos d))%Z) in *.
  destruct (Qle_bool (2 ^ k) (Z.pos n # d)) eqn:E.
  - apply Qle_bool_iff in E. split; assumption.
  - replace (k - 1 + 1)%Z with k by lia. split; [assumption|].
    apply Qnot_le_lt. intros H. apply Qle_bool_iff in H. congruence.
Qed.

Lemma ilog2_mono (x y : Q) : 0 < x -> x <= y -> (F64.ilog2 x <= F64.ilog2 y)%Z.
Proof.
  intros Hx Hxy.
  destruct (ilog2_bracket x Hx) as [H1 _].
  destruct (ilog2_bracket y) as [_ H2]; [lra|].
  assert (H : 2 ^ F64.ilog2 x < 2 ^ (F64.ilog2 y + 1)) by lra.
  apply Qpower_lt_compat_l_inv in H; [lia | reflexivity].
Qed.

Lemma round_to_mono (q : Z) (x y : Q) :
  x <= y -> F64.round_to q x <= F64.round_to q y.
Proof.
  intros H. unfold F64.round_to.
  pose proof (pow2_pos q) as P.
  apply Qmult_le_compat_r; [|lra].
  rewrite <- Zle_Qle. apply round_half_even_mono.
  unfold Qdiv. apply Qmult_le_compat_r; [assumption|].
  apply Qlt_le_weak, Qinv_lt_0_compat, P.
Qed.

(** A power of two on a finer grid is kept. *)
Lemma round_to_pow2 (q e : Z) : (q <= e)%Z -> F64.round_to q (2 ^ e) == 2 ^ e.
Proof.
  intros H. unfold F64.round_to.
  rewrite (round_half_even_comp (2 ^ e / 2 ^ q) (inject_Z (2 ^ (e - q)))).
  - rewrite round_half_even_Z, pow2_Z by lia.
    rewrite Qpower_minus by discriminate. field.
    apply Qpower_not_0. discriminate.
  - rewrite pow2_Z by lia. now rewrite Qpower_minus by discriminate.
Qed.

Lemma round_to_nonneg (q : Z) (x : Q) : 0 <= x -> 0 <= F64.round_to q x.
Proof.
  intros H. unfold F64.round_to. pose proof (pow2_pos q) as P.
  apply Qmult_le_0_compat; [|lra].
  change 0 with (inject_Z 0). rewrite <- Zle_Qle.
  rewrite <- (round_half_even_Z 0). apply round_half_even_mono.
  apply Qle_shift_div_l; [assumption|]. now rewrite Qmult_0_l.
Qed.

Lemma ulp_exp_mono (x y : Q) : 0 < x -> x <= y -> (F64.ulp_exp x <= F64.ulp_exp y)%Z.
Proof.
  intros Hx Hxy. pose proof (ilog2_mono x y Hx Hxy). unfold F64.ulp_exp. lia.
Qed.

(** Rounding of positive numbers is monotone. *)
Lemma round_pos_mono (x y : Q) :
  0 < x -> x <= y ->
  F64.round_to (F64.ulp_exp x) x <= F64.round_to (F64.ulp_exp y) y.
Proof.
  intros Hx Hxy.
  pose proof (ulp_exp_mono x y Hx Hxy) as Hq.
  destruct (Z.eq_dec (F64.ulp_exp x) (F64.ulp_exp y)) as [E|NE].
  - rewrite E. now apply round_to_mono.
  - assert (Hlt : (F64.ulp_exp x < F64.ulp_exp y)%Z) by lia.
    assert (He : (F64.ilog2 x < F64.ilog2 y)%Z) by (unfold F64.ulp_exp in *; lia).
    assert (Hqy : (F64.ulp_exp y <= F64.ilog2 y)%Z) by (unfold F64.ulp_exp in *; lia).
    destruct (ilog2_bracket x Hx) as [_ Hx2].
    destruct (ilog2_bracket y) as [Hy1 _]; [lra|].
    assert (Hb : 2 ^ (F64.ilog2 x + 1) <= 2 ^ F64.ilog2 y).
    { apply Qpower_le_compat_l; [lia | discriminate]. }
    apply Qle_trans with (2 ^ F64.ilog2 y).
    + rewrite <- (round_to_pow2 (F64.ulp_exp x) (F64.ilog2 y)) by lia.
      apply round_to_mono. lra.
    + rewrite <- (round_to_pow2 (F64.ulp_exp y) (F64.ilog2 y)) at 1 by lia.
      now apply round_to_mono.
Qed.

Lemma fl_pos (x : Q) : 0 < x -> F64.fl x == F64.round_to (F64.ulp_exp x) x.
Proof.
  intros H. unfold F64.fl.
  destruct (Qcompare_spec x 0) as [E|E|E]; [lra | lra |].
  apply Qred_correct.
Qed.

Lemma fl_neg (x : Q) : x < 0 -> F64.fl x == - F64.round_to (F64.ulp_exp (- x)) (- x).
Proof.
  intros H. unfold F64.fl.
  destruct (Qcompare_spec x 0) as [E|E|E]; [lra | | lra].
  apply Qred_correct.
Qed.

Lemma fl_zero (x : Q) : x == 0 -> F64.fl x = 0.
Proof.
  intros H. unfold F64.fl.
  destruct (Qcompare_spec x 0) as [E|E|E]; [reflexivity | lra | lra].
Qed.

Lemma fl_nonneg (x : Q) : 0 <= x -> 0 <= F64.fl x.
Proof.
  intros H. destruct (Qlt_le_dec 0 x) as [P|P].
  - rewrite fl_pos by assumption. now apply round_to_nonneg.
  - rewrite fl_zero by lra. apply Qle_refl.
Qed.

Lemma fl_nonpos (x : Q) : x <= 0 -> F64.fl x <= 0.
Proof.
  intros H. destruct (Qlt_le_dec x 0) as [P|P].
  - rewrite fl_neg by assumption.
    pose proof (round_to_nonneg (F64.ulp_exp (- x)) (- x)). lra.
  - rewrite fl_zero by lra. apply Qle_refl.
Qed.

(** Rounding to the nearest double is monotone. *)
Lemma fl_mono (x y : Q) : x <= y -> F64.fl x <= F64.fl y.
Proof.
  intros H.
  destruct (Qlt_le_dec 0 x) as [Px|Px].
  - rewrite (fl_pos x), (fl_pos y) by lra. now apply round_pos_mono.
  - destruct (Qlt_le_dec y 0) as [Py|Py].
    + rewrite (fl_neg x), (fl_neg y) by lra.
      pose proof (round_pos_mono (- y) (- x)). lra.
    + apply Qle_trans with 0; [now apply fl_nonpos | now apply fl_nonneg].
Qed.

Lemma fl_comp (x y : Q) : x == y -> F64.fl x == F64.fl y.
Proof. intros H. apply Qle_antisym; apply fl_mono; rewrite H; apply Qle_refl. Qed.

Lemma tenths_mono (x y : Q) : x <= y -> (Dec.tenths x <= Dec.tenths y)%Z.
Proof.
  intros H. unfold Dec.tenths. apply round_half_even_mono. lra.
Qed.

Lemma round1_mono (x y : Q) : x <= y -> F64.round1 x <= F64.round1 y.
Proof.
  intros H. unfold F64.round1. apply fl_mono.
  apply tenths_mono in H. rewrite Zle_Qle in H.
  unfold Qdiv. apply Qmult_le_compat_r; [assumption | discriminate].
Qed.

(** The doubles that the proofs meet are kept by the rounding. *)
Lemma fl_exact_values :
  F64.fl 0 = 0 /\ F64.fl 1 = 1 /\ F64.fl 100 = 100 /\ F64.fl 200 = 200.
Proof. vm_compute. repeat split. Qed.

(** Rounding stays between two doubles. *)
Lemma fl_between (lo hi x : Q) :
  F64.fl lo = lo -> F64.fl hi = hi -> lo <= x <= hi -> lo <= F64.fl x <= hi.
Proof.
  intros Hlo Hhi [H1 H2].
  split; [rewrite <- Hlo | rewrite <- Hhi]; now apply fl_mono.
Qed.

(** Below 256 a double is within [2^-46] of the number it rounds. *)
Lemma fl_near_pos (x : Q) :
  0 < x -> x < 256 ->
  x - (1 # 70368744177664) <= F64.fl x <= x + (1 # 70368744177664).
Proof.
  intros Hx Hhi. rewrite (fl_pos x Hx).
  destruct (ilog2_bracket x Hx) as [Hb _].
  assert (He : (F64.ilog2 x < 8)%Z).
  { apply (Qpower_lt_compat_l_inv 2); [|reflexivity].
    change (2 ^ 8) with 256. lra. }
  assert (Hq : (F64.ulp_exp x <= -45)%Z) by (unfold F64.ulp_exp; lia).
  pose proof (pow2_pos (F64.ulp_exp x)) as P.
  assert (Pc : 2 ^ F64.ulp_exp x <= 1 # 35184372088832).
  { change (1 # 35184372088832) with (2 ^ (-45)).
    apply Qpower_le_compat_l; [assumption | discriminate]. }
  unfold F64.round_to.
  destruct (round_half_even_near (x / 2 ^ F64.ulp_exp x)) as [N1 N2].
  assert (Ex : x == x / 2 ^ F64.ulp_exp x * 2 ^ F64.ulp_exp x).
  { field. apply Qpower_not_0. discriminate. }
  set (z := x / 2 ^ F64.ulp_exp x) in *.
  set (rz := inject_Z (Dec.round_half_even z)) in *.
  set (p := 2 ^ F64.ulp_exp x) in *.
  assert (U : (z - rz) * p <= (1 # 2) * p) by nra.
  assert (L : - ((1 # 2) * p) <= (z - rz) * p) by nra.
  split; nra.
Qed.

Lemma fl_near (x : Q) :
  0 <= x -> x < 256 ->
  x - (1 # 70368744177664) <= F64.fl x <= x + (1 # 70368744177664).
Proof.
  intros Hx Hhi. destruct (Qlt_le_dec 0 x) as [P|P].
  - now apply fl_near_pos.
  - rewrite (fl_zero x) by lra. split; lra.
Qed.

End Binary64.

(** ** The smart score in binary64 *)

Section SmartScore.

Local Open Scope Q_scope.

(** The two ratios, as the used count grows. *)
Lemma ratios_mono (u1 u2 m : Z) :
  (0 <= m)%Z -> (0 <= u1)%Z -> (u1 <= u2)%Z -> (0 < u1 + m)%Z ->
  inject_Z u1 / inject_Z (u1 + m) <= inject_Z u2 / inject_Z (u2 + m) /\
  inject_Z m / inject_Z (u2 + m) <= inject_Z m / inject_Z (u1 + m).
Proof.
  intros Hm Hu H12 Ht.
  destruct (u1 + m)%Z as [|p1|p1] eqn:E1; try lia.
  destruct (u2 + m)%Z as [|p2|p2] eqn:E2; try lia.
  rewrite <- !Qmake_Qdiv. unfold Qle; cbn [Qnum Qden]. nia.
Qed.

(** A part of a total is a ratio between 0 and 1. *)
Lemma ratio_range (a t : Z) :
  (0 <= a <= t)%Z -> (0 < t)%Z ->
  0 <= inject_Z a / inject_Z t <= 1.
Proof.
  intros Ha Ht.
  destruct t as [|p|p]; try lia.
  rewrite <- !Qmake_Qdiv. unfold Qle; cbn [Qnum Qden]. lia.
Qed.

(** The two ratios of a candidate add up to one. *)
Lemma ratios_sum (u m : Z) :
  (u + m <> 0)%Z ->
  inject_Z u / inject_Z (u + m) + inject_Z m / inject_Z (u + m) == 1.
Proof.
  intros H. rewrite inject_Z_plus. field.
  rewrite <- inject_Z_plus. intros E. apply H.
  now apply (inject_Z_injective _ 0).
Qed.

(** The weights of every profile are one of the three pairs of doubles. *)
Lemma profile_weights (name : string) :
  let w := p_weights (USER_PROFILES name balanced) in
  (w_used w = (5404319552844595 # 18014398509481984) /\
   w_missing w = (3152519739159347 # 4503599627370496)) \/
  (w_used w = (3152519739159347 # 4503599627370496) /\
   w_missing w = (5404319552844595 # 18014398509481984)) \/
  (w_used w = (1 # 2) /\ w_missing w = (1 # 2)).
Proof.
  unfold USER_PROFILES.
  destruct (name =? "minimal_shopper")%string;
    [left; split; vm_compute; reflexivity|].
  destruct (name =? "pantry_cleaner")%string;
    [right; left; split; vm_compute; reflexivity|].
  destruct (name =? "balanced")%string; right; right; split; reflexivity.
Qed.

Lemma profile_weights_range (name : string) :
  let w := p_weights (USER_PROFILES name balanced) in
  0 <= w_used w <= 1 /\ 0 <= w_missing w <= 1.
Proof.
  pose proof (profile_weights name) as H. cbv zeta in *.
  destruct H as [[Eu Em]|[[Eu Em]|[Eu Em]]]; rewrite Eu, Em;
    repeat split; discriminate.
Qed.

(** A percentage: the rounded ratio times 100, between 0 and 100 and within
    [101 * 2^-46] of the exact percentage. *)
Lemma percent_bounds (a t : Z) :
  (0 <= a <= t)%Z -> (0 < t)%Z ->
  let exact := inject_Z a / inject_Z t * 100 in
  let pct := F64.mul (F64.div_int a t) 100 in
  0 <= pct <= 100 /\
  exact - (101 # 70368744177664) <= pct <= exact + (101 # 70368744177664).
Proof.
  intros Ha Ht. cbv zeta. unfold F64.mul, F64.div_int.
  destruct fl_exact_values as (F0 & F1 & F100 & _).
  pose proof (ratio_range a t Ha Ht) as Hr.
  pose proof (fl_between 0 1 _ F0 F1 Hr) as Hq.
  pose proof (fl_near (inject_Z a / inject_Z t)) as Nq.
  set (r := inject_Z a / inject_Z t) in *. set (q := F64.fl r) in *.
  assert (Hq100 : 0 <= q * 100 <= 100) by lra.
  pose proof (fl_between 0 100 _ F0 F100 Hq100) as Hp.
  pose proof (fl_near (q * 100)) as Np.
  split; [exact Hp|]. lra.
Qed.

Lemma raw_score_nonneg (name : string) (u m : Z) :
  (0 <= u)%Z -> (0 <= m)%Z -> (0 < u + m)%Z ->
  0 <= raw_score (p_weights (USER_PROFILES name balanced)) u m.
Proof.
  intros Hu Hm Ht.
  destruct (profile_weights_range name) as [Wu Wm]. cbv zeta in Wu, Wm.
  set (w := p_weights (USER_PROFILES name balanced)) in *.
  destruct (percent_bounds u (u + m)) as [Pu _]; [lia | lia |].
  destruct (percent_bounds m (u + m)) as [Pm _]; [lia | lia |].
  cbv zeta in Pu, Pm.
  unfold raw_score, F64.add, F64.sub. cbv zeta.
  set (up := F64.mul (F64.div_int u (u + m)) 100) in *.
  set (mp := F64.mul (F64.div_int m (u + m)) 100) in *.
  apply fl_nonneg.
  assert (0 <= F64.mul (w_used w) up).
  { apply fl_nonneg. nra. }
  assert (0 <= F64.mul (w_missing w) (F64.fl (100 - mp))).
  { apply fl_nonneg. assert (0 <= F64.fl (100 - mp)) by (apply fl_nonneg; lra).
    nra. }
  lra.
Qed.

(** More used ingredients never lower the weighted sum. *)
Lemma raw_score_mono (name : string) (m u1 u2 : Z) :
  (0 <= m)%Z -> (0 <= u1)%Z -> (u1 <= u2)%Z -> (0 < u1 + m)%Z ->
  raw_score (p_weights (USER_PROFILES name balanced)) u1 m
  <= raw_score (p_weights (USER_PROFILES name balanced)) u2 m.
Proof.
  intros Hm Hu H12 Ht.
  destruct (profile_weights_range name) as [Wu Wm]. cbv zeta in Wu, Wm.
  set (w := p_weights (USER_PROFILES name balanced)) in *.
  destruct (ratios_mono u1 u2 m Hm Hu H12 Ht) as [Ha Hb].
  apply fl_mono in Ha, Hb.
  unfold raw_score, F64.add, F64.sub, F64.mul, F64.div_int. cbv zeta.
  set (a1 := F64.fl (inject_Z u1 / inject_Z (u1 + m))) in *.
  set (a2 := F64.fl (inject_Z u2 / inject_Z (u2 + m))) in *.
  set (b1 := F64.fl (inject_Z m / inject_Z (u1 + m))) in *.
  set (b2 := F64.fl (inject_Z m / inject_Z (u2 + m))) in *.
  assert (Hup : F64.fl (a1 * 100) <= F64.fl (a2 * 100))
    by (apply fl_mono; lra).
  assert (Hmp : F64.fl (b2 * 100) <= F64.fl (b1 * 100))
    by (apply fl_mono; lra).
  assert (Hs : F64.fl (100 - F64.fl (b1 * 100))
               <= F64.fl (100 - F64.fl (b2 * 100)))
    by (apply fl_mono; lra).
  assert (Hc1 : F64.fl (w_used w * F64.fl (a1 * 100))
                <= F64.fl (w_used w * F64.fl (a2 * 100)))
    by (apply fl_mono; nra).
  assert (Hc2 : F64.fl (w_missing w * F64.fl (100 - F64.fl (b1 * 100)))
                <= F64.fl (w_missing w * F64.fl (100 - F64.fl (b2 * 100))))
    by (apply fl_mono; nra).
  apply fl_mono. lra.
Qed.

(** The weighted sum in doubles is within [10^-11] of the exact one. *)
Lemma raw_score_near_spec (name : string) (u m : Z) :
  (0 <= u)%Z -> (0 <= m)%Z -> (0 < u + m)%Z ->
  let w := p_weights (USER_PROFILES name balanced) in
  spec_score w u m - (1 # 100000000000) <= raw_score w u m
  <= spec_score w u m + (1 # 100000000000).
Proof.
  intros Hu Hm Ht. cbv zeta.
  destruct fl_exact_values as (F0 & F1 & F100 & F200).
  pose proof (profile_weights name) as Hw. cbv zeta in Hw.
  set (w := p_weights (USER_PROFILES name balanced)) in *.
  destruct (percent_bounds u (u + m)) as [Pu Nu]; [lia | lia |].
  destruct (percent_bounds m (u + m)) as [Pm Nm]; [lia | lia |].
  cbv zeta in Pu, Nu, Pm, Nm.
  assert (Es : spec_score w u m ==
               w_used w * (inject_Z u / inject_Z (u + m) * 100)
               + w_missing w * (100 - inject_Z m / inject_Z (u + m) * 100)).
  { assert (Hq : 0 < inject_Z (u + m))
      by (change 0 with (inject_Z 0); now rewrite <- Zlt_Qlt).
    unfold spec_score. cbv zeta. field. intros E. lra. }
  unfold raw_score, F64.add, F64.sub. cbv zeta.
  set (up := F64.mul (F64.div_int u (u + m)) 100) in *.
  set (mp := F64.mul (F64.div_int m (u + m)) 100) in *.
  set (A := inject_Z u / inject_Z (u + m) * 100) in *.
  set (B := inject_Z m / inject_Z (u + m) * 100) in *.
  assert (Hs : 0 <= 100 - mp <= 100) by lra.
  pose proof (fl_between 0 100 _ F0 F100 Hs) as Rs.
  pose proof (fl_near (100 - mp)) as Ns.
  set (s := F64.fl (100 - mp)) in *.
  unfold F64.mul.
  destruct Hw as [[Eu Em]|[[Eu Em]|[Eu Em]]]; rewrite Eu, Em in *;
    match goal with
    | |- _ <= F64.fl (F64.fl (?cu * up) + F64.fl (?cm * s)) /\ _ =>
        assert (H1 : 0 <= cu * up <= 100) by lra;
        assert (H2 : 0 <= cm * s <= 100) by lra;
        pose proof (fl_between 0 100 _ F0 F100 H1) as R1;
        pose proof (fl_between 0 100 _ F0 F100 H2) as R2;
        pose proof (fl_near (cu * up)) as N1;
        pose proof (fl_near (cm * s)) as N2;
        pose proof (fl_near (F64.fl (cu * up) + F64.fl (cm * s))) as N3
    end;
    lra.
Qed.

End SmartScore.

(** ** C7: the postcondition of the smart score *)

(** An unknown profile name gives the balanced profile. *)
Lemma USER_PROFILES_fallback (name : string) :
  name <> "minimal_shopper" -> name <> "pantry_cleaner" ->
  USER_PROFILES name balanced = balanced.
Proof.
  intros H1 H2. unfold USER_PROFILES.
  apply String.eqb_neq in H1, H2. rewrite H1, H2.
  destruct (name =? "balanced")%string; reflexivity.
Qed.

(** C7, as the code has it.  For every profile name and all counts: when
    used + missing = 0 the score is 0 and the breakdown is an explanatory
    string; otherwise, for non-negative counts, the score is
    wUsed*usedPct + wMissing*(100 - missingPct), evaluated in double
    precision (which stays within 10^-11 of the exact value) and rounded to
    one decimal, with the weights of the named profile, an unrecognized name
    falling back to the balanced weights 0.5 and 0.5.  With the profile
    "balanced", used = 3 and missing = 0, the score is 100.0 and the breakdown
    is "(0.5×100.0%) + (0.5×100.0%) = 50.0 + 50.0": each product is written
    in parentheses. *)
Theorem smart_score_postcondition (s : settings) (r : recipe) :
  let used := get (usedIngredientCount r) 0 in
  let missing := get (missedIngredientCount r) 0 in
  let name := get (user_profile s) "balanced" in
  let w := p_weights (USER_PROFILES name balanced) in
  (used + missing = 0 ->
   smart_score (_calculate_smart_score s r) = 0%Q /\
   breakdown (_calculate_smart_score s r) = "No ingredient data") /\
  (0 <= used -> 0 <= missing -> used + missing <> 0 ->
   smart_score (_calculate_smart_score s r)
   = F64.round1 (raw_score w used missing) /\
   (spec_score w used missing - (1 # 100000000000)
    <= raw_score w used missing
    <= spec_score w used missing + (1 # 100000000000))%Q) /\
  (name <> "minimal_shopper" -> name <> "pantry_cleaner" ->
   name <> "balanced" ->
   w_used w = (1 # 2)%Q /\ w_missing w = (1 # 2)%Q) /\
  (name = "balanced" -> used = 3 -> missing = 0 ->
   smart_score (_calculate_smart_score s r) = 100%Q /\
   breakdown (_calculate_smart_score s r)
   = "(0.5×100.0%) + (0.5×100.0%) = 50.0 + 50.0").
Proof.
  cbv zeta. unfold _calculate_smart_score, engine_profile.
  split; [|split; [|split]].
  - intros H. unfold score_of_counts. apply Z.eqb_eq in H. now rewrite H.
  - intros Hu Hm H. split.
    + unfold score_of_counts. apply Z.eqb_neq in H. now rewrite H.
    + apply raw_score_near_spec; lia.
  - intros H1 H2 _. rewrite USER_PROFILES_fallback by assumption.
    split; reflexivity.
  - intros -> -> ->. vm_compute. split; reflexivity.
Qed.

Lemma smart_score_postcondition_witness :
  smart_score (_calculate_smart_score (profile_settings "balanced")
                 (counts_recipe 3 0)) = 100%Q /\
  breakdown (_calculate_smart_score (profile_settings "balanced")
               (counts_recipe 3 0))
  = "(0.5×100.0%) + (0.5×100.0%) = 50.0 + 50.0".
Proof.
  destruct (smart_score_postcondition (profile_settings "balanced")
              (counts_recipe 3 0)) as (_ & _ & _ & H).
  apply H; reflexivity.
Defined.

(** The breakdown that the specification quotes has no parentheses; the code
    does not produce it. *)
Lemma breakdown_is_parenthesised :
  breakdown (_calculate_smart_score (profile_settings "balanced")
               (counts_recipe 3 0))
  <> "0.5×100.0% + 0.5×100.0% = 50.0 + 50.0".
Proof. vm_compute. discriminate. Qed.

(** Double precision shows at a tie: with 31 used and 49 missing ingredients
    and the profile "minimal_shopper" the exact value of the formula is 38.75
    and the sum in doubles lies just below it, so the score is 38.7. *)
Example score_at_a_tie :
  (0.3 * (100 * 31 / 80) + 0.7 * (100 - 100 * 49 / 80) == 38.75)%Q /\
  (raw_score (p_weights minimal_shopper) 31 49 < 38.75)%Q /\
  smart_score (_calculate_smart_score (profile_settings "minimal_shopper")
                 (counts_recipe 31 49)) = F64.lit 38.7 /\
  breakdown (_calculate_smart_score (profile_settings "minimal_shopper")
               (counts_recipe 31 49))
  = "(0.3×38.8%) + (0.7×38.7%) = 11.6 + 27.1".
Proof. vm_compute. repeat split. Qed.

(** ** C8: more used ingredients never lower the score *)

(** C8.  For every profile and every fixed missing count, the smart score is
    monotonically non-decreasing in the used count. *)
Theorem smart_score_monotone (name : string) (m u1 u2 : Z) :
  0 <= m -> 0 <= u1 -> u1 <= u2 ->
  (smart_score (score_of_counts (p_weights (USER_PROFILES name balanced)) u1 m)
   <= smart_score
        (score_of_counts (p_weights (USER_PROFILES name balanced)) u2 m))%Q.
Proof.
  intros Hm Hu H12. unfold score_of_counts.
  destruct (u2 + m =? 0) eqn:E2.
  - apply Z.eqb_eq in E2.
    assert (E1 : u1 + m = 0) by lia. apply Z.eqb_eq in E1. rewrite E1.
    apply Qle_refl.
  - apply Z.eqb_neq in E2.
    destruct (u1 + m =? 0) eqn:E1; cbn [smart_score].
    + change 0%Q with (F64.round1 0). apply round1_mono.
      apply raw_score_nonneg; lia.
    + apply Z.eqb_neq in E1. apply round1_mono.
      apply raw_score_mono; lia.
Qed.

Lemma smart_score_monotone_witness :
  (smart_score
     (score_of_counts (p_weights (USER_PROFILES "minimal_shopper" balanced)) 1 2)
   <= smart_score
        (score_of_counts (p_weights (USER_PROFILES "minimal_shopper" balanced))
           2 2))%Q.
Proof.
  apply (smart_score_monotone "minimal_shopper" 2 1 2); lia.
Defined.

(** ** C9: the assembler keeps the manifest and the nutrition block *)

Lemma process_one_fields (s : settings) (r : recipe) (rec : recommendation) :
  process_one s r = Some rec ->
  rec_extendedIngredients rec = get (extendedIngredients r) [] /\
  rec_nutrition rec = get (nutrition r) no_nutrition.
Proof.
  unfold process_one.
  destruct (is_vegetarian s && _); [discriminate|].
  destruct (negb _); [discriminate|].
  intros H. injection H as <-. split; reflexivity.
Qed.

(** C9.  Result assembly never drops the ingredient manifest or the nutrition
    block: the [extendedIngredients] and [nutrition] of the assembled
    recommendation are those of the input candidate, and so every
    recommendation that the pipeline returns carries the manifest and the
    nutrition block of the candidate it was made from. *)
Theorem clean_data_keeps_manifest_and_nutrition :
  (forall (s : settings) (r : recipe) (sc : score_bundle) (rd : reasoning_t)
          (fr : filter_result) (safety_check : safety_result),
      rec_extendedIngredients (_clean_data s r sc rd fr safety_check)
      = get (extendedIngredients r) [] /\
      rec_nutrition (_clean_data s r sc rd fr safety_check)
      = get (nutrition r) no_nutrition) /\
  (forall (s : settings) (raws : list recipe) (rec : recommendation),
      In rec (process_results s raws) ->
      exists r, In r raws /\
                rec_extendedIngredients rec = get (extendedIngredients r) [] /\
                rec_nutrition rec = get (nutrition r) no_nutrition).
Proof.
  split.
  - intros. split; reflexivity.
  - intros s raws rec Hin.
    unfold process_results in Hin.
    apply (proj1 (sort_desc_in _ _)) in Hin.
    apply (proj1 (final_recommendations_in _ _ _)) in Hin.
    destruct Hin as (r & Hr & Hone).
    exists r. split; [assumption|]. exact (process_one_fields s r rec Hone).
Qed.

Lemma clean_data_keeps_manifest_and_nutrition_witness :
  exists r,
    In r [pasta_primavera] /\
    rec_extendedIngredients pasta_recommendation
    = get (extendedIngredients r) [] /\
    rec_nutrition pasta_recommendation = get (nutrition r) no_nutrition.
Proof.
  destruct clean_data_keeps_manifest_and_nutrition as [_ H].
  apply (H (settings_of [] []) [pasta_primavera] pasta_recommendation).
  vm_compute. left. reflexivity.
Defined.

(** * Further properties of the pipeline *)

(** ** The order and the size of the returned list *)

Lemma insert_desc_perm (x : recommendation) (l : list recommendation) :
  Permutation (x :: l) (insert_desc x l).
Proof.
  induction l as [|y l IH]; cbn [insert_desc]; [apply Permutation_refl|].
  destruct (rec_match_confidence y <=? rec_match_confidence x).
  - apply Permutation_refl.
  - apply perm_trans with (y :: x :: l); [apply perm_swap|].
    now apply perm_skip.
Qed.

Lemma sort_desc_perm (l : list recommendation) :
  Permutation l (sort_desc l).
Proof.
  induction l as [|x l IH]; [apply perm_nil|].
  unfold sort_desc in *. cbn [fold_right].
  apply perm_trans with (x :: fold_right insert_desc [] l).
  - now apply perm_skip.
  - apply insert_desc_perm.
Qed.

Lemma insert_desc_sorted (x : recommendation) (l : list recommendation) :
  StronglySorted by_confidence l ->
  StronglySorted by_confidence (insert_desc x l).
Proof.
  induction 1 as [|y l Hs IH Hall]; cbn [insert_desc].
  - constructor; constructor.
  - destruct (rec_match_confidence y <=? rec_match_confidence x) eqn:E.
    + apply Z.leb_le in E. constructor; [now constructor|].
      constructor; [exact E|].
      apply Forall_forall. intros z Hz.
      rewrite Forall_forall in Hall. specialize (Hall z Hz).
      unfold by_confidence in *. lia.
    + apply Z.leb_gt in E. constructor; [exact IH|].
      apply Forall_forall. intros z Hz.
      apply insert_desc_in in Hz. destruct Hz as [->|Hz].
      * unfold by_confidence. lia.
      * rewrite Forall_forall in Hall. now apply Hall.
Qed.

Lemma sort_desc_sorted (l : list recommendation) :
  StronglySorted by_confidence (sort_desc l).
Proof.
  induction l as [|x l IH]; [constructor|].
  unfold sort_desc in *. cbn [fold_right]. now apply insert_desc_sorted.
Qed.

(** X1.  [process_results] returns the recommendations it assembled, all of
    them and each once, ordered by confidence, highest first. *)
Theorem process_results_sorted (s : settings) (raws : list recipe) :
  StronglySorted by_confidence (process_results s raws) /\
  Permutation (final_recommendations s raws) (process_results s raws).
Proof.
  split; [apply sort_desc_sorted | apply sort_desc_perm].
Qed.

Lemma insert_desc_with_confidence (c : Z) (x : recommendation)
  (l : list recommendation) :
  with_confidence c (insert_desc x l) = with_confidence c (x :: l).
Proof.
  unfold with_confidence.
  induction l as [|y l IH]; cbn [insert_desc]; [reflexivity|].
  destruct (rec_match_confidence y <=? rec_match_confidence x) eqn:E;
    [reflexivity|].
  apply Z.leb_gt in E. cbn [filter] in *. rewrite IH.
  destruct (rec_match_confidence x =? c) eqn:Ex; [|reflexivity].
  apply Z.eqb_eq in Ex.
  destruct (rec_match_confidence y =? c) eqn:Ey; [|reflexivity].
  apply Z.eqb_eq in Ey. lia.
Qed.

(** X2.  The sort is stable: recommendations of equal confidence come out in
    the order in which their candidates came in. *)
Theorem process_results_stable (s : settings) (raws : list recipe) (c : Z) :
  with_confidence c (process_results s raws) =
  with_confidence c (final_recommendations s raws).
Proof.
  unfold process_results.
  induction (final_recommendations s raws) as [|x l IH]; [reflexivity|].
  unfold sort_desc in *. cbn [fold_right].
  rewrite insert_desc_with_confidence.
  unfold with_confidence in *. cbn [filter]. now rewrite IH.
Qed.

Lemma final_recommendations_length (s : settings) (raws : list recipe) :
  (length (final_recommendations s raws) <= length raws)%nat.
Proof.
  induction raws as [|r raws IH]; [apply Nat.le_refl|].
  unfold final_recommendations in *. cbn [flat_map].
  rewrite length_app. destruct (process_one s r); cbn [length app]; lia.
Qed.

(** X3.  The orchestrator never returns more recipes than it fetched, and
    [total_processed] counts the recipes it returns. *)
Theorem run_pantry_chef_counts (s : settings) (ip : option (list string))
  (ai : bool) (g : option pitch_oracle) (raws : list recipe) :
  (length (recipes (run_pantry_chef s ip ai g raws)) <= length raws)%nat /\
  total_processed (run_pantry_chef s ip ai g raws)
  = Z.of_nat (length (recipes (run_pantry_chef s ip ai g raws))) /\
  total_processed (run_pantry_chef s ip ai g raws)
  <= total_fetched (run_pantry_chef s ip ai g raws).
Proof.
  assert (Hlen : (length (recipes (run_pantry_chef s ip ai g raws))
                  <= length raws)%nat).
  { rewrite run_pantry_chef_recipes, external_enrich_filter.
    eapply Nat.le_trans; [apply filter_length_le|].
    unfold enforce. eapply Nat.le_trans; [apply filter_length_le|].
    unfold process_results.
    rewrite <- (Permutation_length (sort_desc_perm _)).
    apply final_recommendations_length. }
  split; [exact Hlen|].
  destruct raws as [|r raws]; [cbn; repeat split; lia|].
  unfold run_pantry_chef in *.
  destruct (external_enrich s ai g _) as [final p].
  cbn [recipes total_processed total_fetched] in *. split; [reflexivity|lia].
Qed.

(** ** What every returned recommendation satisfies *)

Lemma process_one_some (s : settings) (r : recipe) (rec : recommendation) :
  process_one s r = Some rec ->
  prefilter_discards s r = false /\
  passed (_apply_safety_check s r) = true /\
  rec = _clean_data s r (_calculate_smart_score s r)
          (_apply_reasoning_with_penalties s r
             (smart_score (_calculate_smart_score s r))
             (_apply_soft_filters_with_penalties s r))
          (_apply_soft_filters_with_penalties s r)
          (_apply_safety_check s r).
Proof.
  unfold process_one, prefilter_discards.
  destruct (is_vegetarian s && _); [discriminate|].
  destruct (passed (_apply_safety_check s r)); cbn [negb]; [|discriminate].
  intros H. injection H as <-. repeat split.
Qed.

Lemma passed_safety_score (s : settings) (r : recipe) :
  passed (_apply_safety_check s r) = true ->
  safety_score (_apply_safety_check s r) = Some 1%Q \/
  safety_score (_apply_safety_check s r) = Some (1 # 2)%Q.
Proof.
  intros Hp.
  destruct (safety_check_shapes s r)
    as [(a & b & E) | [E | (i & kw & _ & _ & _ & E)]];
    rewrite E in Hp |- *.
  - discriminate.
  - now left.
  - unfold hit_result in *.
    destruct (Str.any_in _ _); [now right | discriminate].
Qed.

Lemma enforcer_keeps_processed (s : settings) (r : recipe)
  (rec : recommendation) :
  process_one s r = Some rec -> enforcer_keeps rec = true.
Proof.
  intros H. apply process_one_some in H as (_ & Hp & ->).
  unfold enforcer_keeps. cbn [_metadata _clean_data _build_metadata_dict
                                md_safety_check].
  rewrite Hp. destruct (passed_safety_score s r Hp) as [-> | ->]; reflexivity.
Qed.

Lemma filter_all {A : Type} (f : A -> bool) (l : list A) :
  (forall x, In x l -> f x = true) -> filter f l = l.
Proof.
  induction l as [|x l IH]; [reflexivity|]. intros H. cbn [filter].
  rewrite (H x (or_introl eq_refl)). f_equal. apply IH.
  intros y Hy. apply H. now right.
Qed.

Lemma enforce_process_results (s : settings) (raws : list recipe) :
  enforce (process_results s raws) = process_results s raws.
Proof.
  apply filter_all. intros rec Hin.
  apply (proj1 (sort_desc_in _ _)) in Hin.
  apply final_recommendations_in in Hin as (r & _ & H).
  now apply enforcer_keeps_processed with (s := s) (r := r).
Qed.

(** X4.  The enforcer of the orchestrator never removes anything from what
    [process_results] hands it: the engine has already dropped every candidate
    whose safety check did not pass, and a check that passed scores 1.0 or
    0.5, never below the enforcer's threshold. *)
Theorem enforcer_removes_nothing (s : settings) (raws : list recipe) :
  enforce (process_results s raws) = process_results s raws /\
  forall rec, In rec (process_results s raws) ->
    passed (md_safety_check (_metadata rec)) = true /\
    (safety_score (md_safety_check (_metadata rec)) = Some 1%Q \/
     safety_score (md_safety_check (_metadata rec)) = Some (1 # 2)%Q).
Proof.
  split; [apply enforce_process_results|].
  intros rec Hin.
  apply (proj1 (sort_desc_in _ _)) in Hin.
  apply final_recommendations_in in Hin as (r & _ & H).
  apply process_one_some in H as (_ & Hp & ->).
  cbn [_metadata _clean_data _build_metadata_dict md_safety_check].
  split; [exact Hp | now apply passed_safety_score].
Qed.

Lemma enforcer_removes_nothing_witness :
  passed (md_safety_check (_metadata pasta_recommendation)) = true /\
  (safety_score (md_safety_check (_metadata pasta_recommendation)) = Some 1%Q \/
   safety_score (md_safety_check (_metadata pasta_recommendation))
   = Some (1 # 2)%Q).
Proof.
  refine (proj2 (enforcer_removes_nothing (settings_of [] [])
                   [pasta_primavera]) pasta_recommendation _).
  vm_compute. left. reflexivity.
Defined.

Lemma run_pantry_chef_from (s : settings) (ip : option (list string))
  (ai : bool) (g : option pitch_oracle) (raws : list recipe)
  (rec : recommendation) :
  In rec (recipes (run_pantry_chef s ip ai g raws)) ->
  exists r, In r raws /\ process_one (engine_settings s ip) r = Some rec.
Proof.
  rewrite run_pantry_chef_recipes, external_enrich_filter.
  intros Hin. apply filter_In in Hin as [Hin _].
  unfold enforce in Hin. apply filter_In in Hin as [Hin _].
  apply (proj1 (sort_desc_in _ _)) in Hin.
  now apply final_recommendations_in in Hin.
Qed.

(** X5.  Every recommendation that [run_pantry_chef] returns has a confidence
    between 50 and 95 which is also its [match_confidence], carries the
    manifest a second time under [raw_ingredients_for_ai], reports in its
    metadata the penalty that was taken off the confidence, and has a safety
    check that passed. *)
Theorem returned_recommendation_invariants (s : settings)
  (ip : option (list string)) (ai : bool) (g : option pitch_oracle)
  (raws : list recipe) (rec : recommendation) :
  In rec (recipes (run_pantry_chef s ip ai g raws)) ->
  50 <= rec_confidence rec <= 95 /\
  rec_match_confidence rec = rec_confidence rec /\
  rec_raw_ingredients_for_ai rec = rec_extendedIngredients rec /\
  md_penalty_applied (_metadata rec) = md_penalty_score (_metadata rec) /\
  0 <= md_penalty_score (_metadata rec) /\
  passed (md_safety_check (_metadata rec)) = true.
Proof.
  intros Hin. apply run_pantry_chef_from in Hin as (r & _ & H).
  apply process_one_some in H as (_ & Hp & ->).
  set (s' := engine_settings s ip) in *.
  cbn [_clean_data _build_metadata_dict rec_confidence rec_match_confidence
       rec_raw_ingredients_for_ai rec_extendedIngredients _metadata
       md_penalty_applied md_penalty_score md_safety_check].
  pose proof (penalty_score_nonneg s' r) as Hpen.
  pose proof (base_confidence_bounds s' r
                (smart_score (_calculate_smart_score s' r))
                (_apply_soft_filters_with_penalties s' r)) as Hb.
  unfold _apply_reasoning_with_penalties.
  cbn [confidence penalty_applied].
  repeat split; try assumption; lia.
Qed.

Lemma returned_recommendation_invariants_witness :
  let rec := pasta_recommendation in
  50 <= rec_confidence rec <= 95 /\
  rec_match_confidence rec = rec_confidence rec /\
  rec_raw_ingredients_for_ai rec = rec_extendedIngredients rec /\
  md_penalty_applied (_metadata rec) = md_penalty_score (_metadata rec) /\
  0 <= md_penalty_score (_metadata rec) /\
  passed (md_safety_check (_metadata rec)) = true.
Proof.
  apply (returned_recommendation_invariants (settings_of [] []) None false
           None [pasta_primavera]).
  vm_compute. left. reflexivity.
Defined.

Lemma ingredients_have_manifest (kws : list string) (r : recipe) :
  ingredients_have kws (manifest r) <-> manifest_has kws r.
Proof. reflexivity. Qed.

Lemma meat_reject_none (diet text : string) :
  meat_reject diet text = None ->
  Str.any_in LAND_MEAT text = false /\ Str.any_in SEA_MEAT text = false.
Proof.
  unfold meat_reject.
  destruct (Str.any_in LAND_MEAT text); [discriminate|].
  destruct (Str.any_in SEA_MEAT text); [discriminate|]. now split.
Qed.

Lemma passed_no_meat (s : settings) (r : recipe) :
  passed (_apply_safety_check s r) = true ->
  (is_vegetarian s = true \/ is_vegan s = true ->
   ~ manifest_has (LAND_MEAT ++ SEA_MEAT) r) /\
  (is_pescatarian s = true -> ~ manifest_has LAND_MEAT r).
Proof.
  intros Hp.
  assert (Hd : diet_check s r = None).
  { destruct (diet_check s r) as [d|] eqn:E; [|reflexivity].
    unfold _apply_safety_check in Hp. rewrite E in Hp.
    apply diet_check_some in E as (a & b & ->). discriminate. }
  set (text := Str.join " " (ingredient_names (manifest r))).
  assert (Hveg : is_vegetarian s = true \/ is_vegan s = true ->
                 Str.any_in LAND_MEAT text = false /\
                 Str.any_in SEA_MEAT text = false).
  { intros Hdiet. unfold diet_check in Hd. fold text in Hd.
    destruct (is_vegetarian s) eqn:Ev.
    - cbn [orb] in Hd. now apply meat_reject_none in Hd.
    - destruct Hdiet as [|Hvn]; [discriminate|]. rewrite Hvn in Hd.
      cbn [orb] in Hd.
      destruct (meat_reject "vegan" text) eqn:Em; [discriminate|].
      now apply meat_reject_none in Em. }
  split.
  - intros Hdiet Hm. destruct (Hveg Hdiet) as [Hl Hs].
    apply manifest_has_app in Hm as [Hm|Hm];
      apply manifest_has_text in Hm; try reflexivity; fold text in Hm;
      congruence.
  - intros Hpes Hm.
    apply manifest_has_text in Hm; [|reflexivity]. fold text in Hm.
    destruct (is_vegetarian s) eqn:Ev;
      [destruct Hveg as [Hl _]; [now left|congruence]|].
    destruct (is_vegan s) eqn:Evn;
      [destruct Hveg as [Hl _]; [now right|congruence]|].
    unfold diet_check in Hd. fold text in Hd.
    rewrite Ev, Evn, Hpes, Hm in Hd. discriminate.
Qed.

(** X6.  What a diet guarantees about the output.  When the request names
    "vegetarian" or "vegan" (in any letter case), no returned recommendation
    has an ingredient whose name contains a land-meat or a sea-meat keyword;
    when it names "pescatarian", none has an ingredient whose name contains a
    land-meat keyword. *)
Theorem diet_keeps_meat_out (s : settings) (ip : option (list string))
  (ai : bool) (g : option pitch_oracle) (raws : list recipe)
  (rec : recommendation) :
  In rec (recipes (run_pantry_chef s ip ai g raws)) ->
  (is_vegetarian s = true \/ is_vegan s = true ->
   ~ ingredients_have (LAND_MEAT ++ SEA_MEAT) (rec_extendedIngredients rec)) /\
  (is_pescatarian s = true ->
   ~ ingredients_have LAND_MEAT (rec_extendedIngredients rec)).
Proof.
  intros Hin. apply run_pantry_chef_from in Hin as (r & _ & H).
  pose proof (process_one_fields _ _ _ H) as [Hm _].
  apply process_one_some in H as (_ & Hp & _).
  apply passed_no_meat in Hp. rewrite Hm. fold (manifest r).
  unfold is_vegetarian, is_vegan, is_pescatarian, dietary_lower in *.
  rewrite engine_settings_dietary in Hp. exact Hp.
Qed.

Lemma diet_keeps_meat_out_witness :
  ~ ingredients_have (LAND_MEAT ++ SEA_MEAT)
      (rec_extendedIngredients
         (_clean_data (settings_of ["Vegetarian"] [])
            (recipe_of "Rice Bowl" ["rice"; "peas"])
            (_calculate_smart_score (settings_of ["Vegetarian"] [])
               (recipe_of "Rice Bowl" ["rice"; "peas"]))
            (_apply_reasoning_with_penalties (settings_of ["Vegetarian"] [])
               (recipe_of "Rice Bowl" ["rice"; "peas"])
               (smart_score
                  (_calculate_smart_score (settings_of ["Vegetarian"] [])
                     (recipe_of "Rice Bowl" ["rice"; "peas"])))
               (_apply_soft_filters_with_penalties
                  (settings_of ["Vegetarian"] [])
                  (recipe_of "Rice Bowl" ["rice"; "peas"])))
            (_apply_soft_filters_with_penalties (settings_of ["Vegetarian"] [])
               (recipe_of "Rice Bowl" ["rice"; "peas"]))
            (_apply_safety_check (settings_of ["Vegetarian"] [])
               (recipe_of "Rice Bowl" ["rice"; "peas"])))).
Proof.
  refine (proj1 (diet_keeps_meat_out (settings_of ["Vegetarian"] []) None false
                   None [recipe_of "Rice Bowl" ["rice"; "peas"]] _ _) _).
  - vm_compute. left. reflexivity.
  - left. reflexivity.
Defined.

(** ** The LLM-driven pass of the orchestrator *)

Lemma enumerate_from_in {A : Type} (xs : list A) (i j : nat) (x : A) :
  In (j, x) (Pitch.enumerate_from i xs) -> In x xs.
Proof.
  revert i. induction xs as [|y xs IH]; intros i; cbn [Pitch.enumerate_from In].
  - exact (fun H => H).
  - intros [H|H]; [left; congruence | right; eauto].
Qed.

Lemma rejected_titles_from_top (p : string) (top_3 : list recommendation)
  (t : string) :
  In t (Pitch.rejected_recipe_titles p top_3) ->
  exists top, In top top_3 /\ rec_title top = t.
Proof.
  unfold Pitch.rejected_recipe_titles.
  destruct (Str.contains "REJECTED" (Pitch.upper p)); [|intros []].
  rewrite in_app_iff, !in_flat_map.
  intros [(rec & Hin & H) | ([i line] & _ & H)].
  - exists rec. split; [exact Hin|].
    unfold Pitch.title_near_rejected in H.
    destruct (rec_title rec) eqn:Et; [destruct H|].
    destruct (Pitch.find _ _); [|destruct H].
    destruct (Str.contains "rejected" _); [|destruct H].
    destruct H as [<-|[]]. reflexivity.
  - unfold Pitch.line_rejected in H.
    destruct (String.eqb _ "REJECTED").
    + destruct (nth_error top_3 i) as [rec|] eqn:En; [|destruct H].
      exists rec. split; [now apply nth_error_In with i|].
      destruct (rec_title rec); [destruct H|].
      destruct H as [<-|[]]. reflexivity.
    + destruct (Str.contains "rejected" (Str.lower line)); [|destruct H].
      apply in_flat_map in H as ([j rec] & Hin & H).
      exists rec. split; [now apply enumerate_from_in in Hin|].
      destruct (_ || _); [|destruct H].
      destruct H as [<-|[]]. reflexivity.
Qed.

Lemma llm_rejected_from_top (s : settings) (ai : bool)
  (g : option pitch_oracle) (safe : list recommendation) (t : string) :
  In t (llm_rejected s ai g safe) ->
  exists top, In top (firstn 3 safe) /\ rec_title top = t.
Proof.
  unfold llm_rejected.
  destruct ai; [|intros []].
  destruct safe as [|x safe]; [intros []|].
  destruct g as [gen|]; [|intros []].
  destruct (gen _ _) as [[|c p]|]; try (intros []).
  apply rejected_titles_from_top.
Qed.

Lemma filter_sorted (f : recommendation -> bool) (l : list recommendation) :
  StronglySorted by_confidence l ->
  StronglySorted by_confidence (filter f l).
Proof.
  induction 1 as [|x l Hs IH Hall]; cbn [filter]; [constructor|].
  destruct (f x); [|exact IH].
  constructor; [exact IH|].
  apply Forall_forall. intros y Hy. apply filter_In in Hy as [Hy _].
  rewrite Forall_forall in Hall. now apply Hall.
Qed.

(** X7.  The LLM-driven pass only removes.  What [run_pantry_chef] returns
    is the list of [process_results] with some entries taken out, still
    ordered by confidence; and an entry is taken out only when it has the
    title of one of the three recommendations that were sent to the LLM
    collaborator, whatever the pitch says. *)
Theorem llm_pass_only_removes (s : settings) (ip : option (list string))
  (ai : bool) (g : option pitch_oracle) (raws : list recipe) :
  let processed := process_results (engine_settings s ip) raws in
  let returned := recipes (run_pantry_chef s ip ai g raws) in
  (exists keep, returned = filter keep processed) /\
  StronglySorted by_confidence returned /\
  forall rec, In rec processed -> ~ In rec returned ->
    exists top, In top (firstn 3 processed) /\ rec_title top = rec_title rec.
Proof.
  cbn zeta.
  rewrite run_pantry_chef_recipes, external_enrich_filter,
    enforce_process_results.
  set (processed := process_results (engine_settings s ip) raws).
  split; [eexists; reflexivity|].
  split; [apply filter_sorted, sort_desc_sorted|].
  intros rec Hin Hout.
  destruct (Str.mem (rec_title rec) (llm_rejected s ai g processed)) eqn:E.
  - apply mem_true in E. now apply llm_rejected_from_top in E.
  - exfalso. apply Hout. apply filter_In. split; [exact Hin|].
    now rewrite E.
Qed.

Lemma llm_pass_only_removes_witness :
  exists top,
    In top
      (firstn 3
         (process_results (engine_settings (settings_of [] []) None)
            [pasta_primavera; slow_recipe])) /\
    rec_title top = rec_title pasta_recommendation.
Proof.
  refine (proj2 (proj2 (llm_pass_only_removes (settings_of [] []) None true
                          (Some (fun _ _ => Some second_line_rejected))
                          [pasta_primavera; slow_recipe]))
            pasta_recommendation _ _).
  - vm_compute. right. left. reflexivity.
  - vm_compute. intros [H|[]].
    apply (f_equal rec_title) in H. discriminate H.
Defined.

(** X8.  Without the word REJECTED there is no second opinion: when the LLM
    pass is switched off, when there is no LLM collaborator, when the
    collaborator yields no pitch, or when the pitch does not contain
    "rejected" in any letter case, [run_pantry_chef] returns exactly the list
    of [process_results]. *)
Theorem llm_pass_identity (s : settings) (ip : option (list string))
  (ai : bool) (g : option pitch_oracle) (raws : list recipe) :
  let processed := process_results (engine_settings s ip) raws in
  ai = false \/
  g = None \/
  (exists gen, g = Some gen /\
     match gen (firstn 3 processed) (get (mood s) "casual") with
     | None => True
     | Some p => Str.contains "REJECTED" (Pitch.upper p) = false
     end) ->
  recipes (run_pantry_chef s ip ai g raws) = processed.
Proof.
  cbn zeta. intros H.
  rewrite run_pantry_chef_recipes, enforce_process_results.
  set (processed := process_results (engine_settings s ip) raws) in *.
  unfold external_enrich.
  destruct ai; [|reflexivity].
  destruct processed as [|x l] eqn:Ep; [reflexivity|].
  destruct g as [gen|]; [|reflexivity].
  destruct H as [H | [H | (gen' & Hg & H)]]; try discriminate.
  injection Hg as <-.
  destruct (gen _ _) as [[|c p]|]; try reflexivity.
  unfold Pitch.rejected_recipe_titles. now rewrite H.
Qed.

Lemma llm_pass_identity_witness :
  recipes (run_pantry_chef (settings_of [] []) None true
             (Some (fun _ _ => Some "A fine plate of pasta."))
             [pasta_primavera])
  = process_results (engine_settings (settings_of [] []) None)
      [pasta_primavera].
Proof.
  apply (llm_pass_identity (settings_of [] []) None true
           (Some (fun _ _ => Some "A fine plate of pasta."))
           [pasta_primavera]).
  right. right. eexists. split; [reflexivity|]. reflexivity.
Defined.

(** ** The endpoint *)

Lemma assess_difficulty_passes (r : recipe) (m : string) :
  m <> "easy" -> m <> "medium" -> dc_passed (_assess_difficulty r m) = true.
Proof.
  intros He Hm. unfold _assess_difficulty. cbn [dc_passed].
  unfold DIFFICULTY_ORDER_get.
  destruct (String.eqb_spec m "easy"); [contradiction|].
  destruct (String.eqb_spec m "medium"); [contradiction|].
  assert (H3 : forall l, (DIFFICULTY_ORDER l <=? 3) = true)
    by (intros []; reflexivity).
  destruct (String.eqb m "hard"); apply H3.
Qed.

Lemma endpoint_recipes (request : RecipeRequest) (g : option pitch_oracle)
  (raws : list recipe) :
  recipes (snd (get_recommendations request g raws)) =
  recipes (run_pantry_chef (request_settings request)
             (Some (rq_intolerances request)) true g raws).
Proof.
  unfold get_recommendations.
  destruct (recipes (run_pantry_chef _ _ _ _ _)) eqn:E;
    cbn [snd recipes]; [reflexivity | now rewrite E].
Qed.

Lemma endpoint_engine_settings (request : RecipeRequest)
  (ip : option (list string)) :
  engine_settings (request_settings request) ip = request_settings request.
Proof. unfold engine_settings. now destruct ip as [[|i l]|]. Qed.

(** X9.  The endpoint never sets a difficulty limit and passes the request's
    intolerances in the settings: every recommendation in a response was
    assembled by the engine under the settings built from the request, its
    difficulty check passed whatever its level, and the confidence never lost
    the fifteen points of a difficulty violation. *)
Theorem endpoint_never_limits_difficulty (request : RecipeRequest)
  (g : option pitch_oracle) (raws : list recipe) (rec : recommendation) :
  In rec (recipes (snd (get_recommendations request g raws))) ->
  (exists r, In r raws /\
             process_one (request_settings request) r = Some rec) /\
  dc_passed (fr_difficulty (md_filter_results (_metadata rec))) = true /\
  dc_max_allowed (fr_difficulty (md_filter_results (_metadata rec))) = "hard".
Proof.
  rewrite endpoint_recipes. intros Hin.
  apply run_pantry_chef_from in Hin as (r & Hr & H).
  rewrite endpoint_engine_settings in H.
  split; [now exists r|].
  apply process_one_some in H as (_ & _ & ->).
  cbn [_clean_data _metadata _build_metadata_dict md_filter_results].
  unfold _apply_soft_filters_with_penalties.
  repeat match goal with
         | |- context [let '(_, _) := ?x in _] => destruct x
         end.
  cbn [filter_results fr_difficulty request_settings max_difficulty get].
  split; [now apply assess_difficulty_passes | reflexivity].
Qed.

Lemma endpoint_never_limits_difficulty_witness :
  dc_passed (fr_difficulty (md_filter_results (_metadata pasta_recommendation)))
  = true.
Proof.
  refine (proj1 (proj2 (endpoint_never_limits_difficulty
                          (request_with_limits None None) None
                          [pasta_primavera] pasta_recommendation _))).
  vm_compute. left. reflexivity.
Defined.

Lemma soft_filters_checks (s : settings) (r : recipe) :
  filter_results (_apply_soft_filters_with_penalties s r) =
  {| fr_difficulty := _assess_difficulty r (get (max_difficulty s) "hard");
     fr_time := _check_time_limit r (get (max_time_minutes s) 120);
     fr_missing_ingredients :=
       _check_missing_limit (get (missedIngredientCount r) 0)
         (max_missing_ingredients s);
     fr_dietary :=
       _check_dietary_requirements r (get (dietary_requirements s) []) [] |}.
Proof.
  unfold _apply_soft_filters_with_penalties.
  repeat match goal with
         | |- context [let '(_, _) := ?x in _] => destruct x
         end.
  reflexivity.
Qed.

(** X10.  A limit of zero is no limit.  The endpoint reads both limits with
    [or], so a request for at most zero missing ingredients, or for at most
    zero minutes, is served as if the limit had been left out: the engine
    checks the candidates against ten missing ingredients and 120 minutes. *)
Theorem endpoint_zero_limit_is_default (request : RecipeRequest) (r : recipe) :
  let checks :=
    filter_results
      (_apply_soft_filters_with_penalties (request_settings request) r) in
  (rq_max_missing_ingredients request = Some 0 \/
   rq_max_missing_ingredients request = None ->
   mc_passed (fr_missing_ingredients checks)
   = (get (missedIngredientCount r) 0 <=? 10)) /\
  (rq_max_time_minutes request = Some 0 \/
   rq_max_time_minutes request = None ->
   tc_passed (fr_time checks)
   = match readyInMinutes r with Some t => t <=? 120 | None => true end).
Proof.
  cbn zeta. rewrite soft_filters_checks.
  cbn [fr_missing_ingredients fr_time request_settings max_time_minutes
       max_missing_ingredients get].
  split; intros [H|H]; rewrite H; reflexivity.
Qed.

Lemma endpoint_zero_limit_is_default_witness :
  mc_passed
    (fr_missing_ingredients
       (filter_results
          (_apply_soft_filters_with_penalties
             (request_settings (request_with_limits (Some 0) (Some 0)))
             pasta_primavera)))
  = (get (missedIngredientCount pasta_primavera) 0 <=? 10).
Proof.
  refine (proj1 (endpoint_zero_limit_is_default
                   (request_with_limits (Some 0) (Some 0)) pasta_primavera) _).
  left. reflexivity.
Defined.

(** ** Penalties, violations and the confidence *)

(** The violations are the notes of the failed checks, in the order of the
    chain. *)
Lemma violations_parts (s : settings) (r : recipe) :
  let dc := _assess_difficulty r (get (max_difficulty s) "hard") in
  let tc := _check_time_limit r (get (max_time_minutes s) 120) in
  let mc := _check_missing_limit (get (missedIngredientCount r) 0)
              (max_missing_ingredients s) in
  let dt := _check_dietary_requirements r (get (dietary_requirements s) [])
              [] in
  violations (_apply_soft_filters_with_penalties s r) =
  (if dc_passed dc then []
   else ["difficulty: " ++ difficulty_name (dc_level dc) ++ " > "
         ++ dc_max_allowed dc]%string)
  ++ (if tc_passed tc then []
      else ["time: " ++ estimate_str (tc_estimate tc) ++ " min > "
            ++ Str.of_Z (tc_max_allowed tc) ++ " min"]%string)
  ++ (if mc_passed mc then []
      else ["missing_ingredients: " ++ Str.of_Z (mc_count mc) ++ " > "
            ++ Str.of_Z (mc_max_allowed mc)]%string)
  ++ (if dt_passed dt then [] else ["dietary: " ++ dt_reason dt]%string).
Proof.
  cbn zeta. unfold _apply_soft_filters_with_penalties.
  destruct (dc_passed _), (tc_passed _), (mc_passed _), (dt_passed _);
    reflexivity.
Qed.

(** X11.  Penalty and violations go together.  The filter chain reports no
    violation exactly when its penalty is zero, and exactly when the
    difficulty, time, missing-ingredient and dietary checks all pass; it
    reports at most four violations, each of which costs at least two points;
    and the penalty stays within 55 points plus five for every missing
    ingredient over the limit. *)
Theorem penalty_zero_iff_no_violation (s : settings) (r : recipe) :
  let fr := _apply_soft_filters_with_penalties s r in
  let checks := filter_results fr in
  (penalty_score fr = 0 <-> violations fr = []) /\
  (violations fr = [] <->
   dc_passed (fr_difficulty checks) = true /\
   tc_passed (fr_time checks) = true /\
   mc_passed (fr_missing_ingredients checks) = true /\
   dt_passed (fr_dietary checks) = true) /\
  (length (violations fr) <= 4)%nat /\
  2 * Z.of_nat (length (violations fr)) <= penalty_score fr /\
  penalty_score fr
  <= 55 + 5 * Z.max 0 (get (missedIngredientCount r) 0
                        - max_missing_ingredients s).
Proof.
  cbn zeta.
  rewrite soft_filters_checks, penalty_score_sum, violations_parts.
  cbn [fr_difficulty fr_time fr_missing_ingredients fr_dietary].
  pose proof (time_check_failed r (get (max_time_minutes s) 120)) as Ht.
  pose proof (missing_check_failed (get (missedIngredientCount r) 0)
                (max_missing_ingredients s)) as Hm.
  destruct (dc_passed _), (tc_passed _), (mc_passed _), (dt_passed _);
    try (destruct Ht as (t & Et & Hlt); [reflexivity|];
         cbn in Et; rewrite Et);
    try (specialize (Hm eq_refl); cbn in Hm);
    cbn [app length];
    (split; [split; intros H; try discriminate; try reflexivity; lia|]);
    (split; [split; [intros H; try discriminate; repeat split
                    | intros (? & ? & ? & ?); try discriminate; reflexivity]|]);
    (split; [lia|]); split; lia.
Qed.

Lemma penalty_zero_iff_no_violation_witness :
  penalty_score (_apply_soft_filters_with_penalties tired_settings slow_recipe)
  = 0 <->
  violations (_apply_soft_filters_with_penalties tired_settings slow_recipe)
  = [].
Proof.
  exact (proj1 (penalty_zero_iff_no_violation tired_settings slow_recipe)).
Defined.

Lemma reasoning_ignores_penalty (s : settings) (r : recipe) (smart : Q)
  (fr : filter_result) (p : Z) :
  _apply_reasoning s r smart (with_penalty p fr) = _apply_reasoning s r smart fr.
Proof. reflexivity. Qed.

(** X12.  The confidence as a function of the penalty: it never goes up when
    the penalty goes up, it is the base confidence when the penalty is zero,
    and it is exactly 50 once the penalty reaches 45. *)
Theorem confidence_decreases_with_penalty (s : settings) (r : recipe)
  (smart : Q) (fr : filter_result) :
  let conf p :=
    confidence (_apply_reasoning_with_penalties s r smart (with_penalty p fr)) in
  (forall p1 p2, p1 <= p2 -> conf p2 <= conf p1) /\
  conf 0 = br_confidence (_apply_reasoning s r smart fr) /\
  (forall p, 45 <= p -> conf p = 50).
Proof.
  cbn zeta. unfold _apply_reasoning_with_penalties.
  cbn [confidence]. setoid_rewrite reasoning_ignores_penalty.
  cbn [with_penalty penalty_score].
  pose proof (base_confidence_bounds s r smart fr) as Hb.
  repeat split; intros; lia.
Qed.

Lemma confidence_decreases_with_penalty_witness :
  confidence
    (_apply_reasoning_with_penalties tired_settings slow_recipe 0%Q
       (with_penalty 45
          (_apply_soft_filters_with_penalties tired_settings slow_recipe)))
  = 50.
Proof.
  refine (proj2 (proj2 (confidence_decreases_with_penalty tired_settings
                          slow_recipe 0%Q
                          (_apply_soft_filters_with_penalties tired_settings
                             slow_recipe))) 45 _).
  lia.
Defined.

(** X13.  Two ends of the confidence scale in the pipeline.  A candidate
    that passes all four checks of the filter chain is recommended with
    its base confidence, at least 75; a candidate with nine or more missing
    ingredients over the limit is recommended with confidence exactly 50,
    whatever else speaks for it. *)
Theorem confidence_ends (s : settings) (r : recipe) (rec : recommendation) :
  process_one s r = Some rec ->
  (violations (_apply_soft_filters_with_penalties s r) = [] ->
   rec_confidence rec
   = br_confidence
       (_apply_reasoning s r (smart_score (_calculate_smart_score s r))
          (_apply_soft_filters_with_penalties s r)) /\
   75 <= rec_confidence rec <= 95 /\
   rec_reasoning rec
   = br_text (_apply_reasoning s r (smart_score (_calculate_smart_score s r))
                (_apply_soft_filters_with_penalties s r))) /\
  (max_missing_ingredients s + 9 <= get (missedIngredientCount r) 0 ->
   rec_confidence rec = 50).
Proof.
  intros H. apply process_one_some in H as (_ & _ & ->).
  cbn [_clean_data rec_confidence rec_reasoning].
  unfold _apply_reasoning_with_penalties. cbn [confidence text].
  pose proof (base_confidence_bounds s r
                (smart_score (_calculate_smart_score s r))
                (_apply_soft_filters_with_penalties s r)) as Hb.
  split.
  - intros Hv. rewrite Hv.
    assert (Hp : penalty_score (_apply_soft_filters_with_penalties s r) = 0).
    { revert Hv. rewrite penalty_score_sum, violations_parts. cbn zeta.
      destruct (dc_passed _), (tc_passed _), (mc_passed _), (dt_passed _);
        cbn [app]; intros Hv; try discriminate. reflexivity. }
    rewrite Hp. split; [lia|]. split; [lia | reflexivity].
  - intros Hm.
    assert (Hp : 45 <= penalty_score (_apply_soft_filters_with_penalties s r)).
    { rewrite penalty_score_sum.
      pose proof (time_check_failed r (get (max_time_minutes s) 120)) as Ht.
      assert (Hmc : mc_passed (_check_missing_limit
                                 (get (missedIngredientCount r) 0)
                                 (max_missing_ingredients s)) = false).
      { unfold _check_missing_limit. cbn [mc_passed]. apply Z.leb_gt. lia. }
      rewrite Hmc.
      destruct (dc_passed _), (tc_passed _), (dt_passed _);
        try (destruct Ht as (t & Et & Hlt); [reflexivity|];
             cbn in Et; rewrite Et);
        lia. }
    lia.
Qed.

Lemma confidence_ends_witness :
  75 <= rec_confidence pasta_recommendation <= 95.
Proof.
  refine (proj1 (proj2 (proj1 (confidence_ends (settings_of [] [])
                                 pasta_primavera pasta_recommendation _) _))).
  - reflexivity.
  - reflexivity.
Defined.

(** ** The range and the ends of the smart score *)

Section ScoreRange.

Local Open Scope Q_scope.

(** Rounding a number that equals a double gives that double. *)
Lemma fl_eq (x y : Q) : x == y -> F64.fl y = y -> F64.fl x == y.
Proof. intros H E. rewrite (fl_comp x y H), E. reflexivity. Qed.

Lemma round1_comp (x y : Q) : x == y -> F64.round1 x = F64.round1 y.
Proof.
  intros H. unfold F64.round1, Dec.tenths.
  rewrite (round_half_even_comp (x * 10) (y * 10)); [reflexivity|].
  now rewrite H.
Qed.

Lemma round1_between (x : Q) :
  0 <= x <= 100 -> 0 <= F64.round1 x <= 100.
Proof.
  intros [H0 H100]. split.
  - apply Qle_trans with (F64.round1 0); [vm_compute; discriminate|].
    now apply round1_mono.
  - apply Qle_trans with (F64.round1 100); [now apply round1_mono|].
    vm_compute. discriminate.
Qed.

Lemma inject_Z_pos (t : Z) : (0 < t)%Z -> 0 < inject_Z t.
Proof. intros H. change 0 with (inject_Z 0). now rewrite <- Zlt_Qlt. Qed.

(** The weighted sum never exceeds 100. *)
Lemma raw_score_le_100 (name : string) (u m : Z) :
  (0 <= u)%Z -> (0 <= m)%Z -> (0 < u + m)%Z ->
  raw_score (p_weights (USER_PROFILES name balanced)) u m <= 100.
Proof.
  intros Hu Hm Ht.
  destruct fl_exact_values as (F0 & F1 & F100 & F200).
  pose proof (profile_weights name) as Hw. cbv zeta in Hw.
  set (w := p_weights (USER_PROFILES name balanced)) in *.
  destruct (percent_bounds u (u + m)) as [Pu _]; [lia | lia |].
  destruct (percent_bounds m (u + m)) as [Pm _]; [lia | lia |].
  cbv zeta in Pu, Pm.
  unfold raw_score, F64.add, F64.sub. cbv zeta.
  set (up := F64.mul (F64.div_int u (u + m)) 100) in *.
  set (mp := F64.mul (F64.div_int m (u + m)) 100) in *.
  assert (Hs : 0 <= 100 - mp <= 100) by lra.
  pose proof (fl_between 0 100 _ F0 F100 Hs) as Rs.
  set (s := F64.fl (100 - mp)) in *.
  unfold F64.mul.
  destruct Hw as [[Eu Em]|[[Eu Em]|[Eu Em]]]; rewrite Eu, Em;
    match goal with
    | |- F64.fl (F64.fl (?cu * up) + F64.fl (?cm * s)) <= _ =>
        assert (H1 : F64.fl (cu * up) <= F64.fl (cu * 100))
          by (apply fl_mono; lra);
        assert (H2 : F64.fl (cm * s) <= F64.fl (cm * 100))
          by (apply fl_mono; lra);
        apply Qle_trans
          with (F64.fl (F64.fl (cu * 100) + F64.fl (cm * 100)));
        [apply fl_mono; lra | vm_compute; discriminate]
    end.
Qed.

(** With nothing missing the weighted sum is 100, for every profile. *)
Lemma raw_score_all_used (name : string) (u : Z) :
  (0 < u)%Z ->
  raw_score (p_weights (USER_PROFILES name balanced)) u 0 == 100.
Proof.
  intros Hu.
  destruct fl_exact_values as (F0 & F1 & F100 & F200).
  pose proof (profile_weights name) as Hw. cbv zeta in Hw.
  set (w := p_weights (USER_PROFILES name balanced)) in *.
  pose proof (inject_Z_pos u Hu) as Pu.
  unfold raw_score, F64.add, F64.sub, F64.mul, F64.div_int. cbv zeta.
  rewrite Z.add_0_r.
  assert (Eq1 : F64.fl (inject_Z u / inject_Z u) == 1).
  { apply fl_eq; [|exact F1]. field. lra. }
  assert (Eq0 : F64.fl (inject_Z 0 / inject_Z u) == 0).
  { apply fl_eq; [|exact F0]. change (inject_Z 0) with 0. field. lra. }
  assert (Eup : F64.fl (F64.fl (inject_Z u / inject_Z u) * 100) == 100).
  { apply fl_eq; [|exact F100]. rewrite Eq1. reflexivity. }
  assert (Emp : F64.fl (F64.fl (inject_Z 0 / inject_Z u) * 100) == 0).
  { apply fl_eq; [|exact F0]. rewrite Eq0. reflexivity. }
  set (up := F64.fl (F64.fl (inject_Z u / inject_Z u) * 100)) in *.
  set (mp := F64.fl (F64.fl (inject_Z 0 / inject_Z u) * 100)) in *.
  assert (Es : F64.fl (100 - mp) == 100).
  { apply fl_eq; [|exact F100]. rewrite Emp. reflexivity. }
  set (s := F64.fl (100 - mp)) in *.
  destruct Hw as [[Eu Em]|[[Eu Em]|[Eu Em]]]; rewrite Eu, Em;
    match goal with
    | |- F64.fl (F64.fl (?cu * up) + F64.fl (?cm * s)) == _ =>
        assert (H1 : F64.fl (cu * up) == F64.fl (cu * 100))
          by (apply fl_comp; rewrite Eup; reflexivity);
        assert (H2 : F64.fl (cm * s) == F64.fl (cm * 100))
          by (apply fl_comp; rewrite Es; reflexivity);
        rewrite (fl_comp _ (F64.fl (cu * 100) + F64.fl (cm * 100)))
          by (rewrite H1, H2; reflexivity);
        vm_compute; reflexivity
    end.
Qed.

(** With nothing used the weighted sum is 0, whatever the weights. *)
Lemma raw_score_none_used (w : weights_t) (m : Z) :
  (0 < m)%Z -> raw_score w 0 m == 0.
Proof.
  intros Hm.
  destruct fl_exact_values as (F0 & F1 & F100 & F200).
  pose proof (inject_Z_pos m Hm) as Pm.
  unfold raw_score, F64.add, F64.sub, F64.mul, F64.div_int. cbv zeta.
  rewrite Z.add_0_l.
  assert (Eq0 : F64.fl (inject_Z 0 / inject_Z m) == 0).
  { apply fl_eq; [|exact F0]. change (inject_Z 0) with 0. field. lra. }
  assert (Eq1 : F64.fl (inject_Z m / inject_Z m) == 1).
  { apply fl_eq; [|exact F1]. field. lra. }
  assert (Eup : F64.fl (F64.fl (inject_Z 0 / inject_Z m) * 100) == 0).
  { apply fl_eq; [|exact F0]. rewrite Eq0. reflexivity. }
  assert (Emp : F64.fl (F64.fl (inject_Z m / inject_Z m) * 100) == 100).
  { apply fl_eq; [|exact F100]. rewrite Eq1. reflexivity. }
  set (up := F64.fl (F64.fl (inject_Z 0 / inject_Z m) * 100)) in *.
  set (mp := F64.fl (F64.fl (inject_Z m / inject_Z m) * 100)) in *.
  assert (Es : F64.fl (100 - mp) == 0).
  { apply fl_eq; [|exact F0]. rewrite Emp. reflexivity. }
  set (s := F64.fl (100 - mp)) in *.
  assert (H1 : F64.fl (w_used w * up) == 0).
  { apply fl_eq; [|exact F0]. rewrite Eup. ring. }
  assert (H2 : F64.fl (w_missing w * s) == 0).
  { apply fl_eq; [|exact F0]. rewrite Es. ring. }
  apply fl_eq; [|exact F0]. rewrite H1, H2. reflexivity.
Qed.

(** The two ratios, as the missing count grows. *)
Lemma ratios_antimono (u m1 m2 : Z) :
  (0 <= u)%Z -> (0 <= m1)%Z -> (m1 <= m2)%Z -> (0 < u + m1)%Z ->
  inject_Z u / inject_Z (u + m2) <= inject_Z u / inject_Z (u + m1) /\
  inject_Z m1 / inject_Z (u + m1) <= inject_Z m2 / inject_Z (u + m2).
Proof.
  intros Hu Hm H12 Ht.
  destruct (u + m1)%Z as [|p1|p1] eqn:E1; try lia.
  destruct (u + m2)%Z as [|p2|p2] eqn:E2; try lia.
  rewrite <- !Qmake_Qdiv. unfold Qle; cbn [Qnum Qden]. nia.
Qed.

(** More missing ingredients never raise the weighted sum. *)
Lemma raw_score_antimono (name : string) (u m1 m2 : Z) :
  (0 <= u)%Z -> (0 <= m1)%Z -> (m1 <= m2)%Z -> (0 < u + m1)%Z ->
  raw_score (p_weights (USER_PROFILES name balanced)) u m2
  <= raw_score (p_weights (USER_PROFILES name balanced)) u m1.
Proof.
  intros Hu Hm H12 Ht.
  destruct (profile_weights_range name) as [Wu Wm]. cbv zeta in Wu, Wm.
  set (w := p_weights (USER_PROFILES name balanced)) in *.
  destruct (ratios_antimono u m1 m2 Hu Hm H12 Ht) as [Ha Hb].
  apply fl_mono in Ha, Hb.
  unfold raw_score, F64.add, F64.sub, F64.mul, F64.div_int. cbv zeta.
  set (a1 := F64.fl (inject_Z u / inject_Z (u + m1))) in *.
  set (a2 := F64.fl (inject_Z u / inject_Z (u + m2))) in *.
  set (b1 := F64.fl (inject_Z m1 / inject_Z (u + m1))) in *.
  set (b2 := F64.fl (inject_Z m2 / inject_Z (u + m2))) in *.
  assert (Hup : F64.fl (a2 * 100) <= F64.fl (a1 * 100))
    by (apply fl_mono; lra).
  assert (Hmp : F64.fl (b1 * 100) <= F64.fl (b2 * 100))
    by (apply fl_mono; lra).
  assert (Hs : F64.fl (100 - F64.fl (b2 * 100))
               <= F64.fl (100 - F64.fl (b1 * 100)))
    by (apply fl_mono; lra).
  assert (Hc1 : F64.fl (w_used w * F64.fl (a2 * 100))
                <= F64.fl (w_used w * F64.fl (a1 * 100)))
    by (apply fl_mono; nra).
  assert (Hc2 : F64.fl (w_missing w * F64.fl (100 - F64.fl (b2 * 100)))
                <= F64.fl (w_missing w * F64.fl (100 - F64.fl (b1 * 100))))
    by (apply fl_mono; nra).
  apply fl_mono. lra.
Qed.

End ScoreRange.

(** X14.  The three scores of the scoring engine are percentages: for every
    profile and all non-negative counts the smart score, the used score and
    the missing score lie between 0 and 100. *)
Theorem smart_score_range (name : string) (u m : Z) :
  0 <= u -> 0 <= m ->
  let sb := score_of_counts (p_weights (USER_PROFILES name balanced)) u m in
  (0 <= smart_score sb <= 100)%Q /\
  (0 <= used_score sb <= 100)%Q /\
  (0 <= missing_score sb <= 100)%Q.
Proof.
  intros Hu Hm. cbv zeta. unfold score_of_counts.
  destruct (u + m =? 0) eqn:E.
  - cbn [smart_score used_score missing_score].
    repeat split; discriminate.
  - apply Z.eqb_neq in E.
    cbn [smart_score used_score missing_score].
    destruct fl_exact_values as (F0 & F1 & F100 & F200).
    destruct (percent_bounds u (u + m)) as [Pu _]; [lia | lia |].
    destruct (percent_bounds m (u + m)) as [Pm _]; [lia | lia |].
    cbv zeta in Pu, Pm.
    split; [|split].
    + apply round1_between. split.
      * apply raw_score_nonneg; lia.
      * apply raw_score_le_100; lia.
    + apply round1_between. exact Pu.
    + apply round1_between. unfold F64.sub.
      apply (fl_between 0 100 _ F0 F100). lra.
Qed.

Lemma smart_score_range_witness :
  (0 <= smart_score
          (score_of_counts (p_weights (USER_PROFILES "pantry_cleaner" balanced))
             31 49) <= 100)%Q.
Proof.
  refine (proj1 (smart_score_range "pantry_cleaner" 31 49 _ _)); lia.
Defined.

(** X15.  The ends of the smart score.  For every profile a candidate that
    misses nothing scores exactly 100 and a candidate that uses nothing
    scores exactly 0, however many ingredients it has. *)
Theorem smart_score_ends (name : string) (n : Z) :
  0 < n ->
  smart_score (score_of_counts (p_weights (USER_PROFILES name balanced)) n 0)
  = 100%Q /\
  smart_score (score_of_counts (p_weights (USER_PROFILES name balanced)) 0 n)
  = 0%Q.
Proof.
  intros Hn. unfold score_of_counts.
  rewrite Z.add_0_r, Z.add_0_l.
  assert (E : (n =? 0) = false) by (apply Z.eqb_neq; lia).
  rewrite E. cbn [smart_score]. split.
  - rewrite (round1_comp _ 100%Q) by (now apply raw_score_all_used).
    vm_compute. reflexivity.
  - rewrite (round1_comp _ 0%Q) by (now apply raw_score_none_used).
    vm_compute. reflexivity.
Qed.

Lemma smart_score_ends_witness :
  smart_score
    (score_of_counts (p_weights (USER_PROFILES "minimal_shopper" balanced)) 7 0)
  = 100%Q.
Proof.
  refine (proj1 (smart_score_ends "minimal_shopper" 7 _)). lia.
Defined.

(** X16.  For every profile and every fixed used count, the smart score is
    monotonically non-increasing in the missing count, as long as the
    candidate with the fewer missing ingredients has an ingredient at all. *)
Theorem smart_score_antitone_in_missing (name : string) (u m1 m2 : Z) :
  0 <= u -> 0 <= m1 -> m1 <= m2 -> 0 < u + m1 ->
  (smart_score (score_of_counts (p_weights (USER_PROFILES name balanced)) u m2)
   <= smart_score
        (score_of_counts (p_weights (USER_PROFILES name balanced)) u m1))%Q.
Proof.
  intros Hu Hm H12 Ht. unfold score_of_counts.
  assert (E1 : (u + m1 =? 0) = false) by (apply Z.eqb_neq; lia).
  assert (E2 : (u + m2 =? 0) = false) by (apply Z.eqb_neq; lia).
  rewrite E1, E2. cbn [smart_score].
  apply round1_mono. now apply raw_score_antimono.
Qed.

Lemma smart_score_antitone_in_missing_witness :
  (smart_score
     (score_of_counts (p_weights (USER_PROFILES "balanced" balanced)) 3 4)
   <= smart_score
        (score_of_counts (p_weights (USER_PROFILES "balanced" balanced)) 3 1))%Q.
Proof.
  apply (smart_score_antitone_in_missing "balanced" 3 1 4); lia.
Defined.

(** ** What the safety gate does not look at *)

Lemma ALLERGY_MAP_unknown (i : string) :
  known_intolerance i = false -> ALLERGY_MAP (Str.lower i) = [].
Proof.
  unfold known_intolerance, Str.mem, ALLERGY_MAP. cbn [existsb].
  destruct (String.eqb (Str.lower i) "dairy"); [discriminate|].
  destruct (String.eqb (Str.lower i) "gluten"); [discriminate|].
  destruct (String.eqb (Str.lower i) "eggs"); [discriminate|].
  destruct (String.eqb (Str.lower i) "nuts"); [discriminate|].
  reflexivity.
Qed.

Lemma scan_intolerances_unknown (intols : list string) (text : string)
  (names : list string) :
  (forall i, In i intols -> known_intolerance i = false) ->
  scan_intolerances intols text names = None.
Proof.
  induction intols as [|i l IH]; [reflexivity|]. intros H.
  cbn [scan_intolerances].
  rewrite (ALLERGY_MAP_unknown i) by (apply H; now left).
  cbn [scan_keywords]. apply IH. intros j Hj. apply H. now right.
Qed.

Lemma intolerance_check_unknown (s : settings) (r : recipe) :
  (forall i, In i (get (intolerances s) []) -> known_intolerance i = false) ->
  intolerance_check s r = safe_result.
Proof.
  intros H. unfold intolerance_check.
  destruct (get (intolerances s) []) as [|i l] eqn:E; [reflexivity|].
  now rewrite scan_intolerances_unknown.
Qed.

(** X17.  An intolerance that is not a key of the allergy map is ignored.
    When none of the requested intolerances is "dairy", "gluten", "eggs" or
    "nuts" (in any letter case), the safety gate decides as if no intolerance
    had been requested: only the diet block can reject, and a candidate that
    the diet block lets through is Safe. *)
Theorem unknown_intolerances_ignored (s : settings) (r : recipe) :
  (forall i, In i (get (intolerances s) []) -> known_intolerance i = false) ->
  _apply_safety_check s r = get (diet_check s r) safe_result /\
  (diet_check s r = None -> verdict (_apply_safety_check s r) = Safe).
Proof.
  intros H. unfold _apply_safety_check.
  rewrite (intolerance_check_unknown s r H).
  split; [now destruct (diet_check s r)|].
  intros ->. reflexivity.
Qed.

Lemma unknown_intolerances_ignored_witness :
  verdict (_apply_safety_check (settings_of [] ["soy"; "Peanuts"; "shellfish"])
             (recipe_of "Peanut Shrimp with Soy"
                ["peanut butter"; "soy sauce"; "shrimp"]))
  = Safe.
Proof.
  refine (proj2 (unknown_intolerances_ignored
                   (settings_of [] ["soy"; "Peanuts"; "shellfish"])
                   (recipe_of "Peanut Shrimp with Soy"
                      ["peanut butter"; "soy sauce"; "shrimp"]) _) _).
  - intros i [<-|[<-|[<-|[]]]]; reflexivity.
  - reflexivity.
Defined.

Lemma diet_check_no_diet (s : settings) (r : recipe) :
  is_vegetarian s = false -> is_vegan s = false -> is_pescatarian s = false ->
  diet_check s r = None.
Proof. intros V N P. unfold diet_check. now rewrite V, N, P. Qed.

Lemma final_recommendations_all (s : settings) (raws : list recipe) :
  (forall r, In r raws -> process_one s r <> None) ->
  length (final_recommendations s raws) = length raws.
Proof.
  induction raws as [|r raws IH]; [reflexivity|]. intros H.
  unfold final_recommendations in *. cbn [flat_map].
  rewrite length_app, IH by (intros x Hx; apply H; now right).
  destruct (process_one s r) eqn:E; [reflexivity|].
  exfalso. apply (H r); [now left | exact E].
Qed.

(** X18.  Nothing requested, nothing dropped.  When the request names none
    of the three diets and no intolerance that the allergy map knows, and the
    LLM pass is switched off, [run_pantry_chef] returns one recommendation for
    every fetched candidate, each with the verdict Safe. *)
Theorem nothing_requested_nothing_dropped (s : settings)
  (ip : option (list string)) (g : option pitch_oracle) (raws : list recipe) :
  is_vegetarian s = false -> is_vegan s = false -> is_pescatarian s = false ->
  (forall i, In i (get (intolerances (engine_settings s ip)) []) ->
             known_intolerance i = false) ->
  length (recipes (run_pantry_chef s ip false g raws)) = length raws /\
  forall rec, In rec (recipes (run_pantry_chef s ip false g raws)) ->
    verdict (md_safety_check (_metadata rec)) = Safe.
Proof.
  intros V N P H.
  set (s' := engine_settings s ip) in *.
  assert (V' : is_vegetarian s' = false /\ is_vegan s' = false /\
               is_pescatarian s' = false).
  { unfold is_vegetarian, is_vegan, is_pescatarian, dietary_lower, s' in *.
    rewrite engine_settings_dietary. auto. }
  destruct V' as (V' & N' & P').
  assert (Hsafe : forall r, _apply_safety_check s' r = safe_result).
  { intros r. unfold _apply_safety_check.
    rewrite (diet_check_no_diet s' r V' N' P').
    now apply intolerance_check_unknown. }
  split.
  - rewrite run_pantry_chef_recipes, enforce_process_results.
    fold s'. cbn [external_enrich fst]. unfold process_results.
    rewrite <- (Permutation_length (sort_desc_perm _)).
    apply final_recommendations_all. intros r _.
    unfold process_one. rewrite V', Hsafe. discriminate.
  - intros rec Hin. apply run_pantry_chef_from in Hin as (r & _ & Hr).
    apply process_one_some in Hr as (_ & _ & ->). fold s'.
    cbn [_clean_data _metadata _build_metadata_dict md_safety_check].
    now rewrite Hsafe.
Qed.

Lemma nothing_requested_nothing_dropped_witness :
  length (recipes (run_pantry_chef (settings_of [] []) None false None
                     [pasta_primavera; slow_recipe]))
  = length [pasta_primavera; slow_recipe].
Proof.
  refine (proj1 (nothing_requested_nothing_dropped (settings_of [] []) None
                   None [pasta_primavera; slow_recipe] _ _ _ _));
    try reflexivity.
  intros i [].
Defined.

(** X19.  Vegetarian comes first.  When the request names "vegetarian", the
    other dietary requirements change nothing in the safety gate: the check
    returns what it returns for "vegetarian" alone, so a "vegan" named beside
    it does not have dairy or eggs rejected. *)
Theorem vegetarian_overrides_other_diets (s : settings) (r : recipe) :
  is_vegetarian s = true ->
  _apply_safety_check s r = _apply_safety_check (with_diet ["vegetarian"] s) r.
Proof.
  intros V. unfold _apply_safety_check, diet_check.
  rewrite V.
  change (is_vegetarian (with_diet ["vegetarian"] s)) with true.
  cbn [orb]. reflexivity.
Qed.

Lemma vegetarian_overrides_other_diets_witness :
  verdict (_apply_safety_check (settings_of ["vegan"; "vegetarian"] [])
             (recipe_of "Toast" ["butter"; "bread"])) = Safe /\
  verdict (_apply_safety_check (settings_of ["vegan"] [])
             (recipe_of "Toast" ["butter"; "bread"])) = HardReject.
Proof.
  split; [|reflexivity].
  rewrite (vegetarian_overrides_other_diets
             (settings_of ["vegan"; "vegetarian"] [])
             (recipe_of "Toast" ["butter"; "bread"]) eq_refl).
  reflexivity.
Defined.

(** ** The soft dietary check *)

(** X20.  The last word counts.  In the soft dietary check a requirement
    "vegetarian" sets the outcome back to passed when no meat keyword is
    found: if it is the last requirement, the check passes whatever the
    requirements before it had found. *)
Theorem trailing_vegetarian_resets (r : recipe) (before : list string)
  (last_requirement : string) :
  requirement_key last_requirement = "vegetarian" ->
  Str.any_in meat_keywords (soft_diet_text r) = false ->
  dt_passed (_check_dietary_requirements r (before ++ [last_requirement]) [])
  = true.
Proof.
  unfold requirement_key, soft_diet_text. intros Hk Hm.
  unfold _check_dietary_requirements.
  remember (before ++ [last_requirement])%list as reqs eqn:E.
  destruct reqs as [|q reqs]; [reflexivity|].
  rewrite E. cbn [dt_passed fold_left].
  rewrite fold_left_app. cbn [fold_left].
  unfold requirement_step at 1. rewrite Hk, Hm. reflexivity.
Qed.

Lemma trailing_vegetarian_resets_witness :
  dt_passed (_check_dietary_requirements (recipe_of "Toast" ["butter"; "bread"])
               (["vegan"; "gluten free"] ++ ["Vegetarian"]) []) = true /\
  dt_passed (_check_dietary_requirements (recipe_of "Toast" ["butter"; "bread"])
               ["Vegetarian"; "vegan"; "gluten free"] []) = false.
Proof.
  split; [|reflexivity].
  apply (trailing_vegetarian_resets (recipe_of "Toast" ["butter"; "bread"])
           ["vegan"; "gluten free"] "Vegetarian"); reflexivity.
Defined.

(** ** The violation flags *)

Lemma prefix_has_char (c : ascii) (kw s : string) :
  prefix kw s = true -> has_char c kw = true -> has_char c s = true.
Proof.
  revert s. induction kw as [|a kw IH]; intros s; [discriminate 2|].
  destruct s as [|b s]; [discriminate|]. cbn [prefix has_char].
  destruct (ascii_dec a b) as [->|]; [|discriminate].
  intros Hp Hc. apply orb_true_iff in Hc as [Hc|Hc].
  - now rewrite Hc.
  - rewrite (IH s Hp Hc). apply orb_true_r.
Qed.

Lemma contains_has_char (c : ascii) (kw s : string) :
  Str.contains kw s = true -> has_char c kw = true -> has_char c s = true.
Proof.
  intros Hc Hk. induction s as [|b s IH].
  - cbn in Hc. rewrite orb_false_r in Hc. now apply prefix_has_char with kw.
  - cbn [Str.contains] in Hc. apply orb_true_iff in Hc as [Hc|Hc].
    + now apply prefix_has_char with kw.
    + cbn [has_char]. rewrite (IH Hc). apply orb_true_r.
Qed.

(** A text without a colon contains no tag that has one. *)
Lemma contains_no_colon (kw s : string) :
  has_char ":" kw = true -> has_char ":" s = false ->
  Str.contains kw s = false.
Proof.
  intros Hk Hs. destruct (Str.contains kw s) eqn:E; [|reflexivity].
  now rewrite (contains_has_char ":" kw s E Hk) in Hs.
Qed.

Lemma has_char_app (c : ascii) (a b : string) :
  has_char c (a ++ b) = has_char c a || has_char c b.
Proof.
  induction a as [|x a IH]; [reflexivity|].
  cbn [append has_char]. now rewrite IH, orb_assoc.
Qed.

Lemma has_char_join (c : ascii) (sep : string) (parts : list string) :
  has_char c sep = false ->
  (forall p, In p parts -> has_char c p = false) ->
  has_char c (Str.join sep parts) = false.
Proof.
  intros Hs. unfold Str.join.
  induction parts as [|p parts IH]; intros H; [reflexivity|].
  cbn [String.concat]. destruct parts as [|q parts]; [apply H; now left|].
  rewrite !has_char_app, Hs, (H p (or_introl eq_refl)). cbn [orb].
  apply IH. intros x Hx. apply H. now right.
Qed.

Lemma has_colon_uint (d : Decimal.uint) :
  has_char ":" (NilEmpty.string_of_uint d) = false.
Proof. induction d; cbn [NilEmpty.string_of_uint has_char]; auto. Qed.

Lemma has_colon_of_Z (n : Z) : has_char ":" (Str.of_Z n) = false.
Proof.
  unfold Str.of_Z, NilEmpty.string_of_int.
  destruct (Z.to_int n); cbn [has_char]; apply has_colon_uint.
Qed.

Lemma has_colon_estimate (e : option Z) :
  has_char ":" (estimate_str e) = false.
Proof. destruct e; [apply has_colon_of_Z | reflexivity]. Qed.

(** The four tags in the note of a time violation. *)
Lemma time_note_tags (e : option Z) (m : Z) :
  let note :=
    ("time: " ++ estimate_str e ++ " min > " ++ Str.of_Z m ++ " min")%string in
  Str.contains "time:" note = true /\
  Str.contains "missing_ingredients:" note = false /\
  Str.contains "difficulty:" note = false /\
  Str.contains "dietary:" note = false.
Proof.
  cbn zeta.
  assert (H : has_char ":" (estimate_str e ++ " min > " ++ Str.of_Z m ++ " min")
              = false).
  { rewrite !has_char_app, has_colon_estimate, has_colon_of_Z. reflexivity. }
  set (rest := (estimate_str e ++ " min > " ++ Str.of_Z m ++ " min")%string)
    in *.
  split; [reflexivity|].
  repeat split; cbn; now apply contains_no_colon.
Qed.

Lemma missing_note_tags (c m : Z) :
  let note :=
    ("missing_ingredients: " ++ Str.of_Z c ++ " > " ++ Str.of_Z m)%string in
  Str.contains "time:" note = false /\
  Str.contains "missing_ingredients:" note = true /\
  Str.contains "difficulty:" note = false /\
  Str.contains "dietary:" note = false.
Proof.
  cbn zeta.
  assert (H : has_char ":" (Str.of_Z c ++ " > " ++ Str.of_Z m) = false).
  { rewrite !has_char_app, !has_colon_of_Z. reflexivity. }
  set (rest := (Str.of_Z c ++ " > " ++ Str.of_Z m)%string) in *.
  split; [|split; [reflexivity|split]]; cbn; now apply contains_no_colon.
Qed.

Lemma dietary_note_tags (why : string) :
  has_char ":" why = false ->
  let note := ("dietary: " ++ why)%string in
  Str.contains "time:" note = false /\
  Str.contains "missing_ingredients:" note = false /\
  Str.contains "difficulty:" note = false /\
  Str.contains "dietary:" note = true.
Proof.
  intros H. cbn zeta.
  split; [|split; [|split; [|reflexivity]]]; cbn; now apply contains_no_colon.
Qed.

Lemma difficulty_note_tags (level : difficulty) (m : string) :
  (DIFFICULTY_ORDER level <=? DIFFICULTY_ORDER_get m 3) = false ->
  let note :=
    ("difficulty: " ++ difficulty_name level ++ " > " ++ m)%string in
  Str.contains "time:" note = false /\
  Str.contains "missing_ingredients:" note = false /\
  Str.contains "difficulty:" note = true /\
  Str.contains "dietary:" note = false.
Proof.
  unfold DIFFICULTY_ORDER_get. cbn zeta.
  destruct (String.eqb_spec m "easy") as [->|_].
  { intros _. destruct level; vm_compute; repeat split. }
  destruct (String.eqb_spec m "medium") as [->|_].
  { intros _. destruct level; vm_compute; repeat split. }
  destruct (String.eqb m "hard"); destruct level; discriminate.
Qed.

Lemma colon_free_set_failed (st : diet_state) (why : string) :
  colon_free st -> has_char ":" why = false -> colon_free (set_failed st why).
Proof.
  intros H Hw p Hp. cbn [set_failed st_reasons] in Hp.
  apply in_app_iff in Hp as [Hp|[<-|[]]]; [now apply H | exact Hw].
Qed.

Lemma colon_free_add_reason (st : diet_state) (why : string) :
  colon_free st -> has_char ":" why = false -> colon_free (add_reason st why).
Proof.
  intros H Hw p Hp. cbn [add_reason st_reasons] in Hp.
  apply in_app_iff in Hp as [Hp|[<-|[]]]; [now apply H | exact Hw].
Qed.

Lemma requirement_step_colon_free (m d e g fd fg fv fvg : bool)
  (st : diet_state) (q : string) :
  colon_free st -> colon_free (requirement_step m d e g fd fg fv fvg st q).
Proof.
  intros H. unfold requirement_step, double_check.
  repeat match goal with
         | |- context [if ?b then _ else _] => destruct b
         end;
    first [ exact H
          | apply colon_free_set_failed; [exact H | reflexivity]
          | apply colon_free_add_reason; [exact H | reflexivity]
          | intros p Hp; now apply H ].
Qed.

Lemma requirements_colon_free (m d e g fd fg fv fvg : bool)
  (reqs : list string) (st : diet_state) :
  colon_free st ->
  colon_free (fold_left (requirement_step m d e g fd fg fv fvg) reqs st).
Proof.
  revert st. induction reqs as [|q reqs IH]; intros st H; [exact H|].
  cbn [fold_left]. apply IH. now apply requirement_step_colon_free.
Qed.

Lemma dietary_reason_colon_free (r : recipe) (reqs : list string) :
  has_char ":" (dt_reason (_check_dietary_requirements r reqs [])) = false.
Proof.
  unfold _check_dietary_requirements.
  destruct reqs as [|q reqs]; [reflexivity|].
  cbn [dt_reason].
  change (fold_left (intolerance_step ?d ?e ?g ?fd ?fg ?fv) [] ?st) with st.
  match goal with
  | |- context [fold_left (requirement_step ?m ?d ?e ?g ?fd ?fg ?fv ?fvg)
                  ?l ?st0] =>
      pose proof (requirements_colon_free m d e g fd fg fv fvg l st0) as H;
      set (st := fold_left (requirement_step m d e g fd fg fv fvg) l st0) in *
  end.
  assert (Hc : colon_free st) by (apply H; intros p []).
  destruct (st_reasons st) eqn:E; [reflexivity|].
  apply has_char_join; [reflexivity|]. rewrite <- E. exact Hc.
Qed.

(** X21.  The violation flags tell the truth.  In the metadata of a
    recommendation each of the four flags [has_difficulty_violation],
    [has_time_violation], [has_missing_violation] and [has_dietary_violation],
    which the code computes by searching the violation notes for a tag, is set
    exactly when the check of that name failed: no note of one check contains
    the tag of another. *)
Theorem violation_flags_faithful (s : settings) (r : recipe) (smart : Q)
  (sc : score_bundle) (safety_check : safety_result) :
  let fr := _apply_soft_filters_with_penalties s r in
  let checks := filter_results fr in
  let flags :=
    md_violation_flags
      (_build_metadata_dict sc
         (_apply_reasoning_with_penalties s r smart fr) fr safety_check) in
  has_difficulty_violation flags = negb (dc_passed (fr_difficulty checks)) /\
  has_time_violation flags = negb (tc_passed (fr_time checks)) /\
  has_missing_violation flags
  = negb (mc_passed (fr_missing_ingredients checks)) /\
  has_dietary_violation flags = negb (dt_passed (fr_dietary checks)).
Proof.
  cbn zeta.
  cbn [_build_metadata_dict md_violation_flags has_difficulty_violation
       has_time_violation has_missing_violation has_dietary_violation].
  unfold _apply_reasoning_with_penalties. cbn [rs_violations].
  rewrite soft_filters_checks, violations_parts.
  cbn [fr_difficulty fr_time fr_missing_ingredients fr_dietary].
  unfold any_violation. rewrite !existsb_app.
  pose proof (difficulty_note_tags
                (dc_level (_assess_difficulty r (get (max_difficulty s) "hard")))
                (get (max_difficulty s) "hard")) as HD.
  pose proof (time_note_tags (readyInMinutes r) (get (max_time_minutes s) 120))
    as (T1 & T2 & T3 & T4).
  pose proof (missing_note_tags (get (missedIngredientCount r) 0)
                (max_missing_ingredients s)) as (M1 & M2 & M3 & M4).
  pose proof (dietary_note_tags _
                (dietary_reason_colon_free r (get (dietary_requirements s) [])))
    as (Y1 & Y2 & Y3 & Y4).
  cbv zeta in HD, T1, T2, T3, T4, M1, M2, M3, M4, Y1, Y2, Y3, Y4.
  cbn [tc_estimate tc_max_allowed _check_time_limit mc_count mc_max_allowed
       _check_missing_limit].
  change (dc_max_allowed (_assess_difficulty r (get (max_difficulty s) "hard")))
    with (get (max_difficulty s) "hard").
  change (dc_passed (_assess_difficulty r (get (max_difficulty s) "hard")))
    with (DIFFICULTY_ORDER
            (dc_level (_assess_difficulty r (get (max_difficulty s) "hard")))
          <=? DIFFICULTY_ORDER_get (get (max_difficulty s) "hard") 3) in *.
  destruct (DIFFICULTY_ORDER _ <=? _);
    [|destruct (HD eq_refl) as (D1 & D2 & D3 & D4)];
    destruct (tc_passed _); destruct (mc_passed _); destruct (dt_passed _);
    cbn [existsb orb negb];
    rewrite ?D1, ?D2, ?D3, ?D4, ?T1, ?T2, ?T3, ?T4, ?M1, ?M2, ?M3, ?M4,
      ?Y1, ?Y2, ?Y3, ?Y4;
    repeat split.
Qed.

(** ** The pre-filter shadows the soft meat check *)

Lemma prefix_nil_r (kw : string) : prefix kw "" = true -> kw = "".
Proof. destruct kw; [reflexivity | discriminate]. Qed.

Lemma prefix_app_space (kw a b : string) :
  has_char " " kw = false ->
  prefix kw (a ++ String " " b) = true -> prefix kw a = true.
Proof.
  revert a. induction kw as [|c k IH]; intros a Hs;
    [intros _; now destruct a|].
  cbn [has_char] in Hs. apply orb_false_iff in Hs as [Hc Hk].
  destruct a as [|x a]; cbn [append prefix].
  - destruct (ascii_dec c " ") as [->|]; [discriminate Hc | discriminate].
  - destruct (ascii_dec c x); [now apply IH | discriminate].
Qed.

Lemma contains_app_space (kw a b : string) :
  has_char " " kw = false -> kw <> "" ->
  Str.contains kw (a ++ String " " b) = true ->
  Str.contains kw a = true \/ Str.contains kw b = true.
Proof.
  intros Hs Hne. induction a as [|x a IH]; cbn [append Str.contains].
  - intros H. apply orb_true_iff in H as [H|H]; [|now right].
    destruct kw as [|c k]; [contradiction|]. cbn [prefix has_char] in *.
    apply orb_false_iff in Hs as [Hc _].
    destruct (ascii_dec c " ") as [->|]; [discriminate Hc | discriminate].
  - intros H. apply orb_true_iff in H as [H|H].
    + left. apply (prefix_app_space kw (String x a) b Hs) in H.
      now rewrite H.
    + destruct (IH H) as [H'|H']; [left | now right].
      rewrite H'. apply orb_true_r.
Qed.

(** A keyword without a space that occurs in a text joined with spaces
    occurs in one of the parts. *)
Lemma contains_join_space (kw : string) (parts : list string) :
  has_char " " kw = false -> kw <> "" ->
  Str.contains kw (Str.join " " parts) = true ->
  exists p, In p parts /\ Str.contains kw p = true.
Proof.
  intros Hs Hne. unfold Str.join.
  induction parts as [|p parts IH]; cbn [String.concat].
  - intros H. cbn in H. rewrite orb_false_r in H.
    apply prefix_nil_r in H. contradiction.
  - destruct parts as [|q parts].
    + intros H. exists p. split; [now left | exact H].
    + intros H. change (p ++ " " ++ String.concat " " (q :: parts))%string
        with (p ++ String " " (String.concat " " (q :: parts)))%string in H.
      apply contains_app_space in H as [H|H]; try assumption.
      * exists p. split; [now left | exact H].
      * destruct (IH H) as (x & Hx & Hc). exists x. split; [now right|exact Hc].
Qed.

Lemma lower_app (a b : string) :
  Str.lower (a ++ b) = (Str.lower a ++ Str.lower b)%string.
Proof.
  induction a as [|x a IH]; [reflexivity|].
  cbn [append Str.lower]. now rewrite IH.
Qed.

Lemma lower_join (parts : list string) :
  Str.lower (Str.join " " parts) = Str.join " " (map Str.lower parts).
Proof.
  unfold Str.join. induction parts as [|p parts IH]; [reflexivity|].
  cbn [String.concat map]. destruct parts as [|q parts]; [reflexivity|].
  rewrite !lower_app, IH. reflexivity.
Qed.

Lemma contains_nonempty (kw x : string) :
  kw <> "" -> Str.contains kw x = true -> x <> "".
Proof.
  intros Hne H ->. cbn in H. rewrite orb_false_r in H.
  now apply prefix_nil_r in H.
Qed.

(** The name that the soft dietary check reads is among the strings that the
    pre-filter reads. *)
Lemma diet_scan_name_prefilter (ing : ingredient) :
  diet_scan_name ing <> "" ->
  exists p, In p (prefilter_parts ing) /\ Str.lower p = diet_scan_name ing.
Proof.
  destruct ing as [items|s]; cbn [diet_scan_name prefilter_parts].
  - intros H. exists (dict_get "name" items). split; [|reflexivity].
    apply in_or_app. left. unfold ingredient_name, str_or.
    destruct (dict_get "name" items); [now elim H | now left].
  - intros _. exists s. split; [now left | reflexivity].
Qed.

Lemma soft_meat_in_prefilter (r : recipe) :
  Str.any_in meat_keywords (soft_diet_text r) = true ->
  Str.any_in MEAT_KEYWORDS (prefilter_text r) = true.
Proof.
  intros H. apply any_in_true in H as (kw & Hkw & Hc).
  assert (Hk : has_char " " kw = false /\ kw <> "" /\ In kw MEAT_KEYWORDS).
  { unfold meat_keywords in Hkw. cbn [In] in Hkw.
    repeat (destruct Hkw as [<-|Hkw];
            [split; [reflexivity|split; [discriminate|cbn; tauto]]|]).
    destruct Hkw. }
  destruct Hk as (Hs & Hne & HK).
  unfold soft_diet_text in Hc.
  apply contains_join_space in Hc as (x & Hx & Hc); try assumption.
  apply in_map_iff in Hx as (ing & <- & Hing).
  destruct (diet_scan_name_prefilter ing) as (p & Hp & El);
    [now apply contains_nonempty with kw|].
  apply any_in_true. exists kw. split; [exact HK|].
  unfold prefilter_text. rewrite lower_join.
  apply contains_join with (Str.lower p); [|now rewrite El].
  apply in_map. apply in_or_app. right.
  apply in_flat_map. now exists ing.
Qed.

(** X22.  The vegetarian pre-filter shadows the soft meat check.  When the
    request names "vegetarian", a candidate that [process_results] lets
    through has none of the meat keywords of the soft dietary check in its
    ingredient names, because the pre-filter has already discarded every
    candidate that has one; so when "vegetarian" is the only dietary
    requirement, the soft dietary check passes on every recommended recipe. *)
Theorem prefilter_shadows_soft_meat_check (s : settings) (r : recipe)
  (rec : recommendation) :
  is_vegetarian s = true ->
  process_one s r = Some rec ->
  Str.any_in meat_keywords (soft_diet_text r) = false /\
  forall only, get (dietary_requirements s) [] = [only] ->
    dt_passed (fr_dietary (md_filter_results (_metadata rec))) = true.
Proof.
  intros V H. apply process_one_some in H as (Hpre & _ & ->).
  assert (Hm : Str.any_in meat_keywords (soft_diet_text r) = false).
  { destruct (Str.any_in meat_keywords (soft_diet_text r)) eqn:E;
      [|reflexivity].
    apply soft_meat_in_prefilter in E.
    unfold prefilter_discards in Hpre. now rewrite V, E in Hpre. }
  split; [exact Hm|]. intros only Hreq.
  cbn [_clean_data _metadata _build_metadata_dict md_filter_results].
  rewrite soft_filters_checks. cbn [fr_dietary]. rewrite Hreq.
  assert (Hk : requirement_key only = "vegetarian").
  { unfold is_vegetarian, dietary_lower in V. rewrite Hreq in V.
    cbn [map Str.mem existsb] in V. rewrite orb_false_r in V.
    apply String.eqb_eq in V. unfold requirement_key. now rewrite <- V. }
  unfold _check_dietary_requirements. cbn [dt_passed fold_left].
  unfold requirement_step. unfold requirement_key in Hk.
  unfold soft_diet_text in Hm. rewrite Hk, Hm. reflexivity.
Qed.

Lemma prefilter_shadows_soft_meat_check_witness :
  Str.any_in meat_keywords
    (soft_diet_text (recipe_of "Rice Bowl" ["rice"; "peas"])) = false.
Proof.
  refine (proj1 (prefilter_shadows_soft_meat_check
                   (settings_of ["Vegetarian"] [])
                   (recipe_of "Rice Bowl" ["rice"; "peas"])
                   (_clean_data (settings_of ["Vegetarian"] [])
                      (recipe_of "Rice Bowl" ["rice"; "peas"])
                      (_calculate_smart_score (settings_of ["Vegetarian"] [])
                         (recipe_of "Rice Bowl" ["rice"; "peas"]))
                      (_apply_reasoning_with_penalties
                         (settings_of ["Vegetarian"] [])
                         (recipe_of "Rice Bowl" ["rice"; "peas"])
                         (smart_score
                            (_calculate_smart_score
                               (settings_of ["Vegetarian"] [])
                               (recipe_of "Rice Bowl" ["rice"; "peas"])))
                         (_apply_soft_filters_with_penalties
                            (settings_of ["Vegetarian"] [])
                            (recipe_of "Rice Bowl" ["rice"; "peas"])))
                      (_apply_soft_filters_with_penalties
                         (settings_of ["Vegetarian"] [])
                         (recipe_of "Rice Bowl" ["rice"; "peas"]))
                      (_apply_safety_check (settings_of ["Vegetarian"] [])
                         (recipe_of "Rice Bowl" ["rice"; "peas"])))
                   _ _)).
  - reflexivity.
  - reflexivity.
Defined.

(** ** The user profile and the ranking *)

Lemma safety_check_profile (name : option string) (s : settings) (r : recipe) :
  is_vegetarian (with_profile name s) = is_vegetarian s /\
  _apply_safety_check (with_profile name s) r = _apply_safety_check s r /\
  _apply_soft_filters_with_penalties (with_profile name s) r
  = _apply_soft_filters_with_penalties s r.
Proof. repeat split. Qed.

(** Neither the profile nor the smart score reaches the confidence, the
    text or the violations of the reasoning. *)
Lemma reasoning_profile (name : option string) (s : settings) (r : recipe)
  (smart smart' : Q) (fr : filter_result) :
  confidence (_apply_reasoning_with_penalties (with_profile name s) r smart' fr)
  = confidence (_apply_reasoning_with_penalties s r smart fr) /\
  text (_apply_reasoning_with_penalties (with_profile name s) r smart' fr)
  = text (_apply_reasoning_with_penalties s r smart fr) /\
  rs_violations
    (_apply_reasoning_with_penalties (with_profile name s) r smart' fr)
  = rs_violations (_apply_reasoning_with_penalties s r smart fr).
Proof.
  unfold _apply_reasoning_with_penalties, _apply_reasoning.
  cbn [confidence text rs_violations br_confidence br_text].
  repeat split.
Qed.

Lemma semantic_context_profile (name : option string) (s : settings)
  (rd rd' : reasoning_t) (safety_check : safety_result) (protein calories : Q)
  (servings0 : Z) :
  confidence rd' = confidence rd -> rs_violations rd' = rs_violations rd ->
  _generate_semantic_context (with_profile name s) rd' safety_check protein
    calories servings0
  = _generate_semantic_context s rd safety_check protein calories servings0.
Proof.
  intros Hc Hv. unfold _generate_semantic_context. rewrite Hc, Hv.
  reflexivity.
Qed.

Lemma process_one_profile (name : option string) (s : settings) (r : recipe) :
  match process_one s r with
  | Some a =>
      exists b, process_one (with_profile name s) r = Some b /\
                same_but_metadata a b
  | None => process_one (with_profile name s) r = None
  end.
Proof.
  unfold process_one.
  destruct (safety_check_profile name s r) as (-> & -> & ->).
  destruct (is_vegetarian s && _); [reflexivity|].
  destruct (negb _); [reflexivity|].
  eexists. split; [reflexivity|].
  destruct (reasoning_profile name s r
              (smart_score (_calculate_smart_score s r))
              (smart_score (_calculate_smart_score (with_profile name s) r))
              (_apply_soft_filters_with_penalties s r)) as (Hc & Ht & Hv).
  unfold same_but_metadata, with_metadata, _clean_data.
  cbn [rec_id rec_title rec_image rec_confidence rec_match_confidence rec_time
       rec_reasoning rec_semantic_context rec_extendedIngredients rec_servings
       rec_instructions rec_analyzedInstructions rec_raw_ingredients_for_ai
       rec_nutrition rec_cuisines rec_dishTypes rec_diets rec_used_ingredients
       rec_missing_ingredients rec_difficulty rec_protein rec_calories
       rec_carbs rec_nutrition_summary rec_ai_nutrient_flags
       rec_is_stub_recipe _metadata].
  rewrite Hc, Ht.
  rewrite (semantic_context_profile name s _ _ _ _ _ _ Hc Hv).
  reflexivity.
Qed.

Lemma final_recommendations_profile (name : option string) (s : settings)
  (raws : list recipe) :
  Forall2 same_but_metadata (final_recommendations s raws)
    (final_recommendations (with_profile name s) raws).
Proof.
  unfold final_recommendations.
  induction raws as [|r raws IH]; [constructor|]. cbn [flat_map].
  pose proof (process_one_profile name s r) as H.
  destruct (process_one s r) as [a|].
  - destruct H as (b & -> & Hab). cbn [app]. now constructor.
  - rewrite H. exact IH.
Qed.

Lemma same_but_metadata_confidence (a b : recommendation) :
  same_but_metadata a b -> rec_match_confidence b = rec_match_confidence a.
Proof. intros ->. reflexivity. Qed.

Lemma insert_desc_same (a b : recommendation) (l l' : list recommendation) :
  same_but_metadata a b -> Forall2 same_but_metadata l l' ->
  Forall2 same_but_metadata (insert_desc a l) (insert_desc b l').
Proof.
  intros Hab H. induction H as [|x y l l' Hxy H IH]; cbn [insert_desc].
  - repeat constructor. exact Hab.
  - rewrite (same_but_metadata_confidence a b Hab),
      (same_but_metadata_confidence x y Hxy).
    destruct (rec_match_confidence x <=? rec_match_confidence a);
      repeat (constructor; try assumption).
Qed.

Lemma sort_desc_same (l l' : list recommendation) :
  Forall2 same_but_metadata l l' ->
  Forall2 same_but_metadata (sort_desc l) (sort_desc l').
Proof.
  unfold sort_desc. induction 1; cbn [fold_right]; [constructor|].
  now apply insert_desc_same.
Qed.

(** X23.  The user profile does not rank.  The profile, and with it the
    smart score, reaches the metadata of a recommendation and nothing else:
    with another profile [process_results] returns the same recipes in the
    same order, with the same confidence, reasoning and semantic context;
    the two lists differ at most in the [_metadata] of their entries. *)
Theorem profile_does_not_rank (name : option string) (s : settings)
  (raws : list recipe) :
  Forall2 same_but_metadata (process_results s raws)
    (process_results (with_profile name s) raws).
Proof.
  unfold process_results. apply sort_desc_same, final_recommendations_profile.
Qed.

(** ** A line that says REJECTED *)

Lemma upper_app (a b : string) :
  Pitch.upper (a ++ b) = (Pitch.upper a ++ Pitch.upper b)%string.
Proof.
  induction a as [|x a IH]; [reflexivity|].
  cbn [append Pitch.upper]. now rewrite IH.
Qed.

Lemma lstrip_suffix (s : string) : exists u, s = (u ++ Pitch.lstrip s)%string.
Proof.
  induction s as [|c s (u & IH)]; [now exists ""|].
  cbn [Pitch.lstrip]. destruct (Pitch.is_space c).
  - exists (String c u). cbn [append]. now rewrite <- IH.
  - now exists "".
Qed.

Lemma rstrip_prefix (s : string) : exists v, s = (Pitch.rstrip s ++ v)%string.
Proof.
  induction s as [|c s (v & IH)]; [now exists ""|].
  cbn [Pitch.rstrip]. destruct (Pitch.rstrip s) as [|d t] eqn:E.
  - cbn [append] in IH. subst v.
    destruct (Pitch.is_space c); [now exists (String c s) | now exists s].
  - exists v. cbn [append] in *. now rewrite <- IH.
Qed.

Lemma strip_middle (s : string) :
  exists u v, s = (u ++ Pitch.strip s ++ v)%string.
Proof.
  destruct (lstrip_suffix s) as (u & Hu).
  destruct (rstrip_prefix (Pitch.lstrip s)) as (v & Hv).
  exists u, v. unfold Pitch.strip. now rewrite <- Hv.
Qed.

Lemma split_lines_head (p : string) :
  exists l ls v, Pitch.split_lines p = l :: ls /\ p = (l ++ v)%string.
Proof.
  induction p as [|c p (l & ls & v & E & Hp)].
  - now exists "", [], "".
  - cbn [Pitch.split_lines]. destruct (Ascii.eqb c (ascii_of_nat 10)).
    + now exists "", (Pitch.split_lines p), (String c p).
    + rewrite E. exists (String c l), ls, v. split; [reflexivity|].
      cbn [append]. now rewrite <- Hp.
Qed.

Lemma split_lines_middle (p line : string) :
  In line (Pitch.split_lines p) -> exists u v, p = (u ++ line ++ v)%string.
Proof.
  induction p as [|c p IH]; cbn [Pitch.split_lines].
  - intros [<-|[]]. now exists "", "".
  - destruct (Ascii.eqb c (ascii_of_nat 10)).
    + intros [<-|H]; [now exists "", (String c p)|].
      destruct (IH H) as (u & v & ->). now exists (String c u), v.
    + destruct (split_lines_head p) as (l & ls & w & E & Hp).
      rewrite E in *. intros [<-|H].
      * exists "", w. cbn [append]. now rewrite <- Hp.
      * destruct (IH (or_intror H)) as (u & v & ->).
        now exists (String c u), v.
Qed.

Lemma rejected_line_in_pitch (p line : string) :
  In line (Pitch.split_lines p) ->
  Pitch.upper (Pitch.strip line) = "REJECTED" ->
  Str.contains "REJECTED" (Pitch.upper p) = true.
Proof.
  intros Hin Hr.
  destruct (split_lines_middle p line Hin) as (u & v & ->).
  destruct (strip_middle line) as (u' & v' & Hl).
  rewrite Hl, !upper_app, Hr.
  apply contains_app_r, contains_app_l, contains_app_r, contains_app_l.
  reflexivity.
Qed.

Lemma enumerate_from_nth {A : Type} (xs : list A) (k i : nat) (x : A) :
  nth_error xs i = Some x -> In ((k + i)%nat, x) (Pitch.enumerate_from k xs).
Proof.
  revert k i. induction xs as [|y xs IH]; intros k i; [now destruct i|].
  destruct i as [|i]; cbn [nth_error Pitch.enumerate_from In].
  - intros [= ->]. left. now rewrite Nat.add_0_r.
  - intros H. right. rewrite <- Nat.add_succ_comm. now apply IH.
Qed.

(** The title of the recommendation in the position of a line that says
    REJECTED is among the rejected titles. *)
Lemma rejected_line_title (p line : string) (top_3 : list recommendation)
  (i : nat) (top : recommendation) :
  nth_error (Pitch.split_lines p) i = Some line ->
  Pitch.upper (Pitch.strip line) = "REJECTED" ->
  nth_error top_3 i = Some top -> rec_title top <> "" ->
  In (rec_title top) (Pitch.rejected_recipe_titles p top_3).
Proof.
  intros Hl Hr Ht Hne. unfold Pitch.rejected_recipe_titles.
  rewrite (rejected_line_in_pitch p line (nth_error_In _ _ Hl) Hr).
  apply in_or_app. right. apply in_flat_map.
  exists (i, line). split; [apply (enumerate_from_nth _ 0 i), Hl|].
  cbn [Pitch.line_rejected]. rewrite Hr, Ht. cbn [String.eqb].
  change (("REJECTED" =? "REJECTED")%string) with true. cbn iota.
  destruct (rec_title top); [contradiction | now left].
Qed.

(** X24.  A line that says REJECTED removes by position.  When line [i] of
    the pitch (counted from 0) is the word REJECTED, in any letter case and
    with white space around it, the result has no recipe with the title of
    recommendation [i] of the three that were sent to the LLM collaborator:
    the number of the line picks the recipe. *)
Theorem rejected_line_removes_by_position (s : settings)
  (ip : option (list string)) (gen : pitch_oracle) (raws : list recipe)
  (p line : string) (i : nat) (top : recommendation) :
  let processed := process_results (engine_settings s ip) raws in
  gen (firstn 3 processed) (get (mood s) "casual") = Some p ->
  nth_error (Pitch.split_lines p) i = Some line ->
  Pitch.upper (Pitch.strip line) = "REJECTED" ->
  nth_error (firstn 3 processed) i = Some top ->
  rec_title top <> "" ->
  forall rec, In rec (recipes (run_pantry_chef s ip true (Some gen) raws)) ->
    rec_title rec <> rec_title top.
Proof.
  cbn zeta. intros Hg Hl Hr Ht Hne rec Hin Heq.
  rewrite run_pantry_chef_recipes, external_enrich_filter,
    enforce_process_results in Hin.
  apply filter_In in Hin as [_ Hin].
  apply negb_true_iff in Hin.
  assert (Hm : Str.mem (rec_title rec)
                 (llm_rejected s true (Some gen)
                    (process_results (engine_settings s ip) raws)) = true).
  { apply mem_true. rewrite Heq. unfold llm_rejected.
    destruct (process_results (engine_settings s ip) raws) as [|x l] eqn:E;
      [now destruct i|].
    rewrite Hg. destruct p as [|c p].
    - destruct i as [|[|i]]; cbn in Hl; try discriminate.
      injection Hl as <-. discriminate Hr.
    - now apply rejected_line_title with line i. }
  congruence.
Qed.

Lemma rejected_line_removes_by_position_witness :
  rec_title
    (hd pasta_recommendation
       (recipes (run_pantry_chef (settings_of [] []) None true
                   (Some (fun _ _ => Some second_line_rejected))
                   [pasta_primavera; slow_recipe])))
  <> rec_title pasta_recommendation.
Proof.
  apply (rejected_line_removes_by_position (settings_of [] []) None
           (fun _ _ => Some second_line_rejected)
           [pasta_primavera; slow_recipe] second_line_rejected
           "  rejected  " 1 pasta_recommendation).
  - reflexivity.
  - reflexivity.
  - reflexivity.
  - vm_compute. reflexivity.
  - discriminate.
  - vm_compute. left. reflexivity.
Defined.

(** ** The difficulty level *)

(** X25.  The difficulty level is monotone.  A candidate with no more
    ingredients and no longer preparation time than another is never rated
    more difficult, and passes every difficulty limit that the other one
    passes. *)
Theorem difficulty_is_monotone (r1 r2 : recipe) (limit : string) :
  get (usedIngredientCount r1) 0 + get (missedIngredientCount r1) 0
  <= get (usedIngredientCount r2) 0 + get (missedIngredientCount r2) 0 ->
  get (readyInMinutes r1) 0 <= get (readyInMinutes r2) 0 ->
  DIFFICULTY_ORDER (dc_level (_assess_difficulty r1 limit))
  <= DIFFICULTY_ORDER (dc_level (_assess_difficulty r2 limit)) /\
  (dc_passed (_assess_difficulty r2 limit) = true ->
   dc_passed (_assess_difficulty r1 limit) = true).
Proof.
  intros Hn Ht. unfold _assess_difficulty. cbn [dc_level dc_passed].
  set (n1 := get (usedIngredientCount r1) 0 + get (missedIngredientCount r1) 0)
    in *.
  set (n2 := get (usedIngredientCount r2) 0 + get (missedIngredientCount r2) 0)
    in *.
  set (t1 := get (readyInMinutes r1) 0) in *.
  set (t2 := get (readyInMinutes r2) 0) in *.
  set (lim := DIFFICULTY_ORDER_get limit 3).
  destruct (Z.leb_spec n1 5), (Z.leb_spec n1 10), (Z.leb_spec n2 5),
    (Z.leb_spec n2 10), (Z.ltb_spec 60 t1), (Z.ltb_spec 60 t2);
    try lia; cbn [DIFFICULTY_ORDER]; (split; [lia|]);
    rewrite !Z.leb_le; lia.
Qed.

Lemma difficulty_is_monotone_witness :
  DIFFICULTY_ORDER (dc_level (_assess_difficulty (recipe_of "Toast" ["bread"]) "easy"))
  <= DIFFICULTY_ORDER (dc_level (_assess_difficulty pasta_primavera "easy")).
Proof.
  refine (proj1 (difficulty_is_monotone (recipe_of "Toast" ["bread"])
                   pasta_primavera "easy" _ _)).
  - vm_compute. discriminate.
  - vm_compute. discriminate.
Defined.

(** ** The semantic context *)

Lemma prefix_self_app (a b : string) : prefix a (a ++ b) = true.
Proof.
  induction a as [|c a IH]; [now destruct b|]. cbn [append prefix].
  destruct (ascii_dec c c); [exact IH | contradiction].
Qed.

Lemma prefix_refl (a : string) : prefix a a = true.
Proof.
  induction a as [|c a IH]; [reflexivity|]. cbn [prefix].
  destruct (ascii_dec c c); [exact IH | contradiction].
Qed.

Lemma join_head (h : string) (tl : list string) :
  prefix h (Str.join " " (h :: tl)) = true.
Proof.
  unfold Str.join. cbn [String.concat]. destruct tl as [|x tl].
  - apply prefix_refl.
  - apply prefix_self_app.
Qed.

Lemma semantic_context_head (s : settings) (rd : reasoning_t)
  (safety_check : safety_result) (protein calories : Q) (servings0 : Z) :
  exists tl,
    _generate_semantic_context s rd safety_check protein calories servings0
    = Str.join " "
        (("This recipe is a " ++ Str.of_Z (confidence rd) ++ "% match")%string
         :: tl).
Proof.
  unfold _generate_semantic_context.
  repeat match goal with
         | |- context [if ?b then _ else _] => destruct b
         | |- context [match ?l with [] => _ | _ :: _ => _ end] => destruct l
         end;
    cbn [app]; eexists; reflexivity.
Qed.

Lemma verdict_safe (d : safety_result) :
  verdict d = Safe -> get (requires_ai_validation d) false = false.
Proof.
  unfold verdict. destruct (negb (passed d)); [discriminate|].
  destruct (get (requires_ai_validation d) false); [discriminate|reflexivity].
Qed.

(** X26.  The semantic context opens with the match.  The sentence that a
    recommendation carries for the LLM collaborator always starts with "This
    recipe is a N% match", N being the confidence of that recommendation; and
    when the filter chain reports no violation, the candidate has no nutrition
    block, the settings name no nutritional goal and the safety verdict is
    Safe, the context is that sentence and nothing more. *)
Theorem semantic_context_opens_with_match (s : settings) (r : recipe)
  (rec : recommendation) :
  process_one s r = Some rec ->
  let sentence :=
    ("This recipe is a " ++ Str.of_Z (rec_confidence rec) ++ "% match")%string
  in
  prefix sentence (rec_semantic_context rec) = true /\
  (violations (_apply_soft_filters_with_penalties s r) = [] ->
   nutrition r = None -> nutritional_requirements s = None ->
   verdict (_apply_safety_check s r) = Safe ->
   rec_semantic_context rec = sentence).
Proof.
  intros H. apply process_one_some in H as (_ & _ & ->). cbn zeta.
  cbn [_clean_data rec_confidence rec_semantic_context].
  split.
  - match goal with
    | |- prefix _ (_generate_semantic_context ?s ?rd ?sc ?p ?c ?sv) = true =>
        destruct (semantic_context_head s rd sc p c sv) as (tl & ->)
    end.
    apply join_head.
  - intros Hv Hn Hg Hs. apply verdict_safe in Hs.
    unfold _generate_semantic_context.
    rewrite Hs, Hg, Hn.
    assert (E : rs_violations
                  (_apply_reasoning_with_penalties s r
                     (smart_score (_calculate_smart_score s r))
                     (_apply_soft_filters_with_penalties s r)) = [])
      by exact Hv.
    rewrite !E.
    cbn [get nutrition_truthy no_nutrition nutrients nutrition_more_keys
         nutrient_amount flat_map any_violation existsb].
    destruct (Qlt_le_dec 0 0) as [q|_]; [now apply Qlt_irrefl in q|].
    rewrite !andb_false_r. reflexivity.
Qed.

Lemma semantic_context_opens_with_match_witness :
  rec_semantic_context
    (_clean_data (settings_of [] []) slow_recipe
       (_calculate_smart_score (settings_of [] []) slow_recipe)
       (_apply_reasoning_with_penalties (settings_of [] []) slow_recipe
          (smart_score (_calculate_smart_score (settings_of [] []) slow_recipe))
          (_apply_soft_filters_with_penalties (settings_of [] []) slow_recipe))
       (_apply_soft_filters_with_penalties (settings_of [] []) slow_recipe)
       (_apply_safety_check (settings_of [] []) slow_recipe))
  = "This recipe is a 95% match".
Proof.
  refine (proj2 (semantic_context_opens_with_match (settings_of [] [])
                   slow_recipe _ _) _ _ _ _); reflexivity.
Defined.
